(** * WinDevicesLib: USB topology discovery

    A shallow embedding of the USB descriptor parser
    ([UsbDescriptorParser.cpp]), the kernel transport
    ([DeviceCommunication.cpp]), the hub model ([UsbHub.cpp]) and the
    topology walker ([DevicesManager.cpp]), with the properties of the
    specification stated and settled against them.

    Conventions.  Unsigned machine integers ([UCHAR], [USHORT], [ULONG],
    [size_t]) are values of [N]; conversions that truncate are written
    out.  Byte buffers are [list byte]; an address inside a buffer is its
    offset from the start of the buffer.  Where the code loads through
    a raw pointer without keeping inside the block it allocated, the
    load is given what the heap holds behind the block.
    [std::map<size_t, T>] is [gmap N T].  C++ exceptions are the
    [Throw] outcome of an error monad. *)

From Stdlib Require Import NArith ZArith Lia Bool List.
From Stdlib Require Import Strings.Byte.
From stdpp Require Import gmap strings list fin_maps sorting.

Open Scope N_scope.

(* ===================================================================== *)
(** * Constants of the Windows SDK headers (usbspec.h, usbioctl.h)       *)
(* ===================================================================== *)

(** The SDK headers are not part of the repository; the values below are
    those of usbspec.h, usbioctl.h, usbuser.h and winerror.h, with the
    byte packing these headers declare. *)

Module Sdk.

(** Descriptor type tags, usbspec.h. *)
Definition USB_DEVICE_DESCRIPTOR_TYPE : N := 1.
Definition USB_CONFIGURATION_DESCRIPTOR_TYPE : N := 2.
Definition USB_STRING_DESCRIPTOR_TYPE : N := 3.
Definition USB_INTERFACE_DESCRIPTOR_TYPE : N := 4.
Definition USB_OTHER_SPEED_CONFIGURATION_DESCRIPTOR_TYPE : N := 7.

(** Sizes of the packed descriptor structures. *)
Definition sizeof_USB_COMMON_DESCRIPTOR : N := 2.
Definition sizeof_USB_DEVICE_DESCRIPTOR : N := 18.
Definition sizeof_USB_CONFIGURATION_DESCRIPTOR : N := 9.
Definition sizeof_USB_INTERFACE_DESCRIPTOR : N := 9.
(** usbdesc.h of this repository declares [USB_INTERFACE_DESCRIPTOR2]
    without a packing pragma, and pch.h includes it after usbspec.h has
    restored the default packing: the nine [UCHAR] fields are followed
    by one byte of padding, [wNumClasses] sits at offset 10, and the
    size is 12. *)
Definition sizeof_USB_INTERFACE_DESCRIPTOR2 : N := 12.

(** Field offsets inside the packed structures. *)
Definition off_bLength : N := 0.
Definition off_bDescriptorType : N := 1.
Definition off_wTotalLength : N := 2.       (* USB_CONFIGURATION_DESCRIPTOR *)
Definition off_iConfiguration : N := 6.     (* USB_CONFIGURATION_DESCRIPTOR *)
Definition off_bInterfaceClass : N := 5.    (* USB_INTERFACE_DESCRIPTOR *)
Definition off_iInterface : N := 8.         (* USB_INTERFACE_DESCRIPTOR *)

(** The fields of [USB_DEVICE_DESCRIPTOR] that the library reads. *)
Record USB_DEVICE_DESCRIPTOR : Type := mkDeviceDescriptor {
  bLength : N;
  bDescriptorType : N;
  bcdUSB : N;
  bDeviceClass : N;
  idVendor : N;
  idProduct : N;
  iManufacturer : N;
  iProduct : N;
  iSerialNumber : N
}.

(** USB_DEVICE_SPEED, usbspec.h. *)
Definition UsbLowSpeed : N := 0.
Definition UsbFullSpeed : N := 1.
Definition UsbHighSpeed : N := 2.
Definition UsbSuperSpeed : N := 3.

(** USB_CONNECTION_STATUS, usbioctl.h. *)
Definition NoDeviceConnected : N := 0.
Definition DeviceConnected : N := 1.

(** Sizes of the request structures of usbioctl.h (packed). *)
Definition sizeof_USB_HUB_INFORMATION_EX : N := 77.
Definition sizeof_USB_HUB_CAPABILITIES_EX : N := 4.
Definition sizeof_USB_PORT_CONNECTOR_PROPERTIES : N := 18.
Definition sizeof_USB_NODE_CONNECTION_INFORMATION_EX_V2 : N := 16.
Definition sizeof_USB_NODE_CONNECTION_DRIVERKEY_NAME : N := 10.
Definition sizeof_USB_NODE_CONNECTION_NAME : N := 10.
Definition sizeof_USB_DESCRIPTOR_REQUEST : N := 12.
Definition sizeof_USB_NODE_CONNECTION_INFORMATION_EX : N := 35.
Definition sizeof_USB_NODE_CONNECTION_INFORMATION : N := 35.
Definition sizeof_USB_PIPE_INFO : N := 11.
Definition MAXIMUM_USB_STRING_LENGTH : N := 255.
(** usbdesc.h of this repository, with the default alignment. *)
Definition sizeof_STRING_DESCRIPTOR_NODE : N := 8.

(** winerror.h. *)
Definition ERROR_INVALID_HANDLE : N := 6.
Definition E_UNEXPECTED : N := 0x8000FFFF.
Definition E_OUTOFMEMORY : N := 0x8007000E.
Definition E_INVALIDARG : N := 0x80070057.
Definition sizeof_USB_ROOT_HUB_NAME : N := 6.
Definition sizeof_USB_HCD_DRIVERKEY_NAME : N := 6.

(** [HRESULT_FROM_WIN32]: a value that is zero or already has the
    severity bit set is passed through. *)
Definition HRESULT_FROM_WIN32 (x : N) : N :=
  if (x =? 0) || (0x80000000 <=? x) then x
  else N.lor (N.land x 0xFFFF) 0x80070000.

End Sdk.

(* ===================================================================== *)
(** * Memory reads with a log                                            *)
(* ===================================================================== *)

(** A computation that reads bytes of one buffer.  Every load puts the
    offset it touches in front of a log (latest read first), so that
    which bytes were read is a property of the result.  A load outside
    the list yields [0]: the value is arbitrary there, the offset is
    logged all the same. *)

Module Rd.

Definition Mem : Type := list byte.

Definition byte_at (mem : Mem) (off : N) : N :=
  Byte.to_N (nth (N.to_nat off) mem x00).

Definition Read (A : Type) : Type := Mem -> list N -> A * list N.

Definition ret {A} (a : A) : Read A := fun _ log => (a, log).

Definition bind {A B} (c : Read A) (k : A -> Read B) : Read B :=
  fun mem log => let '(a, log') := c mem log in k a mem log'.

Definition load8 (off : N) : Read N :=
  fun mem log => (byte_at mem off, off :: log).

(** A little-endian [USHORT]. *)
Definition load16 (off : N) : Read N :=
  fun mem log =>
    (byte_at mem off + 256 * byte_at mem (off + 1), (off + 1) :: off :: log).

Definition run {A} (c : Read A) (mem : Mem) : A * list N := c mem [].

End Rd.

Notation "'do' x <~ c ; k" := (Rd.bind c (fun x => k))
  (at level 10, x name, c at level 99, k at level 200).

(* ===================================================================== *)
(** * UsbDescriptorParser.cpp                                            *)
(* ===================================================================== *)

Module UsbDescriptorParser.
Import Sdk Rd.

(** [PUSB_CONFIGURATION_DESCRIPTOR]: a possibly null pointer to a
    buffer; the descriptor starts at offset [0] of the buffer. *)
Definition PUSB_CONFIGURATION_DESCRIPTOR : Type := option Mem.

(** [IsDescriptorInBounds(commonDesc, descEnd)].  Inside the walks both
    pointers are derived from a non-null buffer, so the null guard of
    the source never fires and is left to the entry points. *)
Definition IsDescriptorInBounds (commonDesc descEnd : N) : Read bool :=
  if descEnd <? commonDesc + sizeof_USB_COMMON_DESCRIPTOR then ret false
  else
    do len <~ load8 (commonDesc + off_bLength);
    if descEnd <? commonDesc + len then ret false
    else
      do len' <~ load8 (commonDesc + off_bLength);
      if len' =? 0 then ret false else ret true.

(** [ValidateConfigurationDescriptor], after the null check. *)
Definition ValidateConfigurationDescriptor_at (configDesc : N) : Read bool :=
  do len <~ load8 (configDesc + off_bLength);
  if len <? sizeof_USB_CONFIGURATION_DESCRIPTOR then ret false
  else
    do ty <~ load8 (configDesc + off_bDescriptorType);
    if negb (ty =? USB_CONFIGURATION_DESCRIPTOR_TYPE) then ret false
    else
      do total <~ load16 (configDesc + off_wTotalLength);
      if total <? sizeof_USB_CONFIGURATION_DESCRIPTOR then ret false
      else ret true.

Definition ValidateConfigurationDescriptor
    (configDesc : PUSB_CONFIGURATION_DESCRIPTOR) : bool * list N :=
  match configDesc with
  | None => (false, [])
  | Some mem => run (ValidateConfigurationDescriptor_at 0) mem
  end.

Definition ValidateDeviceDescriptor (descriptor : USB_DEVICE_DESCRIPTOR) : bool :=
  if negb (bLength descriptor =? sizeof_USB_DEVICE_DESCRIPTOR) then false
  else if negb (bDescriptorType descriptor =? USB_DEVICE_DESCRIPTOR_TYPE) then false
  else if bcdUSB descriptor <? 0x0100 then false
  else true.

(** The [while (IsDescriptorInBounds(...))] loop of
    [ExtractInterfaceClass].  The outer [option] is [None] when the
    fuel runs out before the loop ends. *)
Fixpoint ExtractInterfaceClass_loop (fuel : nat) (commonDesc descEnd : N)
    : Read (option (option N)) :=
  match fuel with
  | O => ret None
  | S fuel' =>
      do inb <~ IsDescriptorInBounds commonDesc descEnd;
      if inb then
        do ty <~ load8 (commonDesc + off_bDescriptorType);
        if ty =? USB_INTERFACE_DESCRIPTOR_TYPE then
          do cls <~ load8 (commonDesc + off_bInterfaceClass);
          ret (Some (Some cls))
        else
          do len <~ load8 (commonDesc + off_bLength);
          ExtractInterfaceClass_loop fuel' (commonDesc + len) descEnd
      else ret (Some None)
  end.

(** The common prologue of the three walks: validate, compute
    [descEnd], step over the configuration descriptor. *)
Definition walk_from_header {A} (invalid : A)
    (loop : nat -> N -> N -> Read (option A)) (fuel : nat) : Read (option A) :=
  do ok <~ ValidateConfigurationDescriptor_at 0;
  if negb ok then ret (Some invalid)
  else
    do total <~ load16 off_wTotalLength;
    do len <~ load8 off_bLength;
    loop fuel (0 + len) (0 + total).

Definition ExtractInterfaceClass_fuel (fuel : nat)
    (configDesc : PUSB_CONFIGURATION_DESCRIPTOR) : option (option N) * list N :=
  match configDesc with
  | None => (Some None, [])
  | Some mem => run (walk_from_header None ExtractInterfaceClass_loop fuel) mem
  end.

(** The loop of [HasStringDescriptors]. *)
Fixpoint HasStringDescriptors_loop (fuel : nat) (commonDesc descEnd : N)
    : Read (option bool) :=
  match fuel with
  | O => ret None
  | S fuel' =>
      do inb <~ IsDescriptorInBounds commonDesc descEnd;
      if inb then
        do ty <~ load8 (commonDesc + off_bDescriptorType);
        if ty =? USB_CONFIGURATION_DESCRIPTOR_TYPE then
          do iConf <~ load8 (commonDesc + off_iConfiguration);
          if negb (iConf =? 0) then ret (Some true)
          else
            do len <~ load8 (commonDesc + off_bLength);
            HasStringDescriptors_loop fuel' (commonDesc + len) descEnd
        else if ty =? USB_INTERFACE_DESCRIPTOR_TYPE then
          do l1 <~ load8 (commonDesc + off_bLength);
          if negb (l1 =? sizeof_USB_INTERFACE_DESCRIPTOR) then
            do l2 <~ load8 (commonDesc + off_bLength);
            if negb (l2 =? sizeof_USB_INTERFACE_DESCRIPTOR2) then ret (Some false)
            else
              do iIf <~ load8 (commonDesc + off_iInterface);
              if negb (iIf =? 0) then ret (Some true)
              else
                do len <~ load8 (commonDesc + off_bLength);
                HasStringDescriptors_loop fuel' (commonDesc + len) descEnd
          else
            do iIf <~ load8 (commonDesc + off_iInterface);
            if negb (iIf =? 0) then ret (Some true)
            else
              do len <~ load8 (commonDesc + off_bLength);
              HasStringDescriptors_loop fuel' (commonDesc + len) descEnd
        else
          do len <~ load8 (commonDesc + off_bLength);
          HasStringDescriptors_loop fuel' (commonDesc + len) descEnd
      else ret (Some false)
  end.

Definition HasStringDescriptors_fuel (fuel : nat)
    (configDesc : PUSB_CONFIGURATION_DESCRIPTOR) : option bool * list N :=
  match configDesc with
  | None => (Some false, [])
  | Some mem => run (walk_from_header false HasStringDescriptors_loop fuel) mem
  end.

(** The loop of [GetInterfaceCount]; [count] is a [size_t]. *)
Fixpoint GetInterfaceCount_loop (count : N) (fuel : nat) (commonDesc descEnd : N)
    : Read (option N) :=
  match fuel with
  | O => ret None
  | S fuel' =>
      do inb <~ IsDescriptorInBounds commonDesc descEnd;
      if inb then
        do ty <~ load8 (commonDesc + off_bDescriptorType);
        do len <~ load8 (commonDesc + off_bLength);
        GetInterfaceCount_loop
          (if ty =? USB_INTERFACE_DESCRIPTOR_TYPE then count + 1 else count)
          fuel' (commonDesc + len) descEnd
      else ret (Some count)
  end.

Definition GetInterfaceCount_fuel (fuel : nat)
    (configDesc : PUSB_CONFIGURATION_DESCRIPTOR) : option N * list N :=
  match configDesc with
  | None => (Some 0, [])
  | Some mem => run (walk_from_header 0 (GetInterfaceCount_loop 0) fuel) mem
  end.

(** [wTotalLength] as the header declares it, and the fuel that every
    walk needs at most: each iteration advances by at least one byte
    and stays below [wTotalLength]. *)
Definition declared_total (mem : Mem) : N :=
  byte_at mem 2 + 256 * byte_at mem 3.

Definition enough_fuel (configDesc : PUSB_CONFIGURATION_DESCRIPTOR) : nat :=
  match configDesc with
  | None => 1
  | Some mem => S (N.to_nat (declared_total mem))
  end.

Definition ExtractInterfaceClass (configDesc : PUSB_CONFIGURATION_DESCRIPTOR) :=
  ExtractInterfaceClass_fuel (enough_fuel configDesc) configDesc.
Definition HasStringDescriptors (configDesc : PUSB_CONFIGURATION_DESCRIPTOR) :=
  HasStringDescriptors_fuel (enough_fuel configDesc) configDesc.
Definition GetInterfaceCount (configDesc : PUSB_CONFIGURATION_DESCRIPTOR) :=
  GetInterfaceCount_fuel (enough_fuel configDesc) configDesc.

End UsbDescriptorParser.

(* ===================================================================== *)
(** * Exceptions.h, and the exceptions of WIL                            *)
(* ===================================================================== *)

Module Exn.

Inductive exn : Type :=
| InvalidDeviceArgumentException
| InvalidDeviceHandleException
| DeviceIoException (errorCode : N)
| DeviceEnumerationException (errorCode : N)
(** [wil::ResultException]: thrown by the [THROW_*] macros, carries the
    [HRESULT] made from the OS error code. *)
| ResultException (hr : N)
(** [std::out_of_range], from [std::vector::at]. *)
| OutOfRange
(** [std::bad_alloc], from [std::make_unique]. *)
| BadAlloc.

Inductive Result (A : Type) : Type :=
| Ok (a : A)
| Throw (e : exn).
Arguments Ok {A} a.
Arguments Throw {A} e.

Definition bind {A B} (c : Result A) (k : A -> Result B) : Result B :=
  match c with
  | Ok a => k a
  | Throw e => Throw e
  end.

(** [try { c } catch (...) { h }]. *)
Definition try_catch_all {A} (c : Result A) (h : A) : A :=
  match c with
  | Ok a => a
  | Throw _ => h
  end.

(** The spec's "typed I/O error carrying the OS error code". *)
Definition is_IoError (e : exn) : bool :=
  match e with
  | ResultException _ | DeviceIoException _ => true
  | _ => false
  end.

End Exn.

Notation "'try' x <~ c ; k" := (Exn.bind c (fun x => k))
  (at level 10, x name, c at level 99, k at level 200).

(** [std::wstring]: a sequence of UTF-16 code units. *)
Definition wstring : Type := list N.

(** A wide string literal of ASCII characters. *)
Definition L (s : string) : wstring :=
  map (fun a => N.of_nat (Ascii.nat_of_ascii a)) (String.list_ascii_of_string s).

(** A [std::wstring] built from a wide-character pointer: the code units
    before the first NUL. *)
Fixpoint wstring_of_wchars (buf : list N) : wstring :=
  match buf with
  | [] => []
  | c :: rest => if c =? 0 then [] else c :: wstring_of_wchars rest
  end.

(** [ULONG]: truncation of a wider value. *)
Definition to_ULONG (n : N) : N := n mod 2 ^ 32.
Definition to_USHORT (n : N) : N := n mod 2 ^ 16.

(* ===================================================================== *)
(** * DeviceCommunication.cpp                                            *)
(* ===================================================================== *)

Module DeviceCommunication.
Import Sdk Exn.

(** ** Kernel structures (usbioctl.h) *)

Record USB_PIPE_INFO : Type := {
  bEndpointAddress : N;
  bmAttributes : N;
  wMaxPacketSize : N;
  bInterval : N;
  ScheduleOffset : N
}.

Definition zero_pipe : USB_PIPE_INFO :=
  {| bEndpointAddress := 0; bmAttributes := 0; wMaxPacketSize := 0;
     bInterval := 0; ScheduleOffset := 0 |}.

Definition zero_device_descriptor : USB_DEVICE_DESCRIPTOR :=
  mkDeviceDescriptor 0 0 0 0 0 0 0 0 0.

Record USB_NODE_INFORMATION : Type := {
  NodeType : N;               (* USB_HUB_NODE: UsbHub = 0, UsbMIParent = 1 *)
  bNumberOfPorts : N          (* u.HubInformation.HubDescriptor, a UCHAR *)
}.

Record USB_HUB_INFORMATION_EX : Type := { HighestPortNumber : N }.

(** [CapabilityFlags.ul]; [HubIsRoot] is bit 4 of the bit-field. *)
Record USB_HUB_CAPABILITIES_EX : Type := { CapabilityFlags : N }.
Definition HubIsRoot (c : USB_HUB_CAPABILITIES_EX) : bool :=
  N.testbit (CapabilityFlags c) 4.

Record USB_PORT_CONNECTOR_PROPERTIES : Type := {
  pcp_ConnectionIndex : N;
  pcp_ActualLength : N;
  pcp_CompanionIndex : N;
  pcp_CompanionPortNumber : N;
  pcp_CompanionHubSymbolicLinkName : list N
}.

(** [Flags.ul] of the V2 record; bit 0 is
    [DeviceIsOperatingAtSuperSpeedOrHigher], bit 2 is
    [DeviceIsOperatingAtSuperSpeedPlusOrHigher]. *)
Record USB_NODE_CONNECTION_INFORMATION_EX_V2 : Type := {
  v2_ConnectionIndex : N;
  v2_Length : N;
  v2_SupportedUsbProtocols : N;
  v2_Flags : N
}.
Definition DeviceIsOperatingAtSuperSpeedOrHigher
    (i : USB_NODE_CONNECTION_INFORMATION_EX_V2) : bool := N.testbit (v2_Flags i) 0.
Definition DeviceIsOperatingAtSuperSpeedPlusOrHigher
    (i : USB_NODE_CONNECTION_INFORMATION_EX_V2) : bool := N.testbit (v2_Flags i) 2.

Record USB_NODE_CONNECTION_INFORMATION_EX : Type := {
  ex_ConnectionIndex : N;
  ex_DeviceDescriptor : USB_DEVICE_DESCRIPTOR;
  ex_CurrentConfigurationValue : N;
  ex_Speed : N;                       (* UCHAR *)
  ex_DeviceIsHub : N;                 (* BOOLEAN *)
  ex_DeviceAddress : N;               (* USHORT *)
  ex_NumberOfOpenPipes : N;           (* ULONG *)
  ex_ConnectionStatus : N;            (* USB_CONNECTION_STATUS *)
  ex_PipeList : list USB_PIPE_INFO    (* the entries that follow in the buffer *)
}.

Record USB_NODE_CONNECTION_INFORMATION : Type := {
  ci_ConnectionIndex : N;
  ci_DeviceDescriptor : USB_DEVICE_DESCRIPTOR;
  ci_CurrentConfigurationValue : N;
  ci_LowSpeed : N;                    (* BOOLEAN *)
  ci_DeviceIsHub : N;
  ci_DeviceAddress : N;
  ci_NumberOfOpenPipes : N;
  ci_ConnectionStatus : N;
  ci_PipeList : list USB_PIPE_INFO
}.

(** [USB_NODE_CONNECTION_DRIVERKEY_NAME] and [USB_NODE_CONNECTION_NAME]
    have the same shape: an index, a length, a wide-character name. *)
Record USB_NAME_RECORD : Type := {
  nm_ConnectionIndex : N;
  nm_ActualLength : N;
  nm_Name : list N
}.

(** [USBUSER_CONTROLLER_INFO_0], usbuser.h. *)
Record USBUSER_CONTROLLER_INFO_0 : Type := {
  NumberOfRootPorts : N;
  PciVendorId : N;
  PciDeviceId : N;
  PciRevision : N
}.

(** [USB_ROOT_HUB_NAME] and [USB_HCD_DRIVERKEY_NAME]: a length and a
    wide-character name. *)
Record USB_HCD_NAME : Type := {
  hn_ActualLength : N;
  hn_Name : list N
}.

(** ** The kernel behind a handle *)

(** What one [DeviceIoControl] call leaves behind: its [BOOL] result,
    [bytesReturned], the output buffer and the value of
    [GetLastError()] after the call. *)
Record Ioctl (T : Type) : Type := mkIoctl {
  io_ok : bool;
  io_bytes : N;
  io_out : T;
  io_err : N
}.
Arguments mkIoctl {T} _ _ _ _.
Arguments io_ok {T} _.
Arguments io_bytes {T} _.
Arguments io_out {T} _.
Arguments io_err {T} _.

(** The hub or controller driver: its answer to each control code, as a
    function of the request.  The answers do not change during one
    enumeration pass. *)
Record Driver : Type := {
  IOCTL_USB_GET_NODE_INFORMATION : Ioctl USB_NODE_INFORMATION;
  IOCTL_USB_GET_HUB_INFORMATION_EX : Ioctl USB_HUB_INFORMATION_EX;
  IOCTL_USB_GET_HUB_CAPABILITIES_EX : Ioctl USB_HUB_CAPABILITIES_EX;
  (** connection index, buffer size *)
  IOCTL_USB_GET_PORT_CONNECTOR_PROPERTIES :
    N -> N -> Ioctl USB_PORT_CONNECTOR_PROPERTIES;
  IOCTL_USB_GET_NODE_CONNECTION_INFORMATION_EX_V2 :
    N -> Ioctl USB_NODE_CONNECTION_INFORMATION_EX_V2;
  IOCTL_USB_GET_NODE_CONNECTION_INFORMATION_EX :
    N -> Ioctl USB_NODE_CONNECTION_INFORMATION_EX;
  IOCTL_USB_GET_NODE_CONNECTION_INFORMATION :
    N -> Ioctl USB_NODE_CONNECTION_INFORMATION;
  (** connection index, buffer size *)
  IOCTL_USB_GET_NODE_CONNECTION_DRIVERKEY_NAME : N -> N -> Ioctl USB_NAME_RECORD;
  IOCTL_USB_GET_NODE_CONNECTION_NAME : N -> N -> Ioctl USB_NAME_RECORD;
  (** connection index, [wValue], [wIndex], [wLength]; the output is
      the data that follows the request header *)
  IOCTL_USB_GET_DESCRIPTOR_FROM_NODE_CONNECTION :
    N -> N -> N -> N -> Ioctl (list byte);
  (** host controller requests; the argument is the buffer size *)
  IOCTL_USB_USER_REQUEST : Ioctl USBUSER_CONTROLLER_INFO_0;
  IOCTL_USB_GET_ROOT_HUB_NAME : N -> Ioctl USB_HCD_NAME;
  IOCTL_GET_HCD_DRIVERKEY_NAME : N -> Ioctl USB_HCD_NAME
}.

(** The object: [_hFile] ([None] is an unset or invalid handle), and
    the heap it allocates from: whether an allocation of a given size
    succeeds, and [behind_block size k], the byte that lies [k] bytes
    behind the end of a block of [size] bytes.  The library bounds some
    of its loads by what the device reports and not by the size of the
    block it allocated; such a load is outside the object, and what it
    finds is not the library's to decide. *)
Record DeviceCommunication : Type := {
  _hFile : option Driver;
  alloc_ok : N -> bool;
  behind_block : N -> N -> byte
}.

(** [DeviceIoControl(_hFile.get(), ...)]: on an invalid handle the call
    fails with [ERROR_INVALID_HANDLE] and leaves the buffer as it was. *)
Definition DeviceIoControl {T} (this : DeviceCommunication)
    (code : Driver -> Ioctl T) (buffer : T) : Ioctl T :=
  match _hFile this with
  | Some drv => code drv
  | None => mkIoctl false 0 buffer ERROR_INVALID_HANDLE
  end.

Definition handle_invalid (this : DeviceCommunication) : bool :=
  match _hFile this with Some _ => false | None => true end.

(** [THROW_LAST_ERROR_IF(cond)]. *)
Definition THROW_LAST_ERROR_IF {T} (cond : bool) (r : Ioctl T) : Result unit :=
  if cond then Throw (ResultException (HRESULT_FROM_WIN32 (io_err r))) else Ok tt.

(** [THROW_IF_NULL_ALLOC(wil::make_unique_nothrow<BYTE[]>(size))]. *)
Definition THROW_IF_NULL_ALLOC (this : DeviceCommunication) (size : N) : Result unit :=
  if alloc_ok this size then Ok tt else Throw (ResultException E_OUTOFMEMORY).

(** ** Result structures of the library *)

Record HubNodeInfo : Type := {
  type : wstring;
  numbersOfPorts : N            (* UCHAR *)
}.

Record HubNodeInfoEx : Type := {
  _highestPortNumber : N;
  _isHubInfoExSupport : bool
}.

Record HubNodeCapabilitiesEx : Type := { _hubIsRoot : bool }.

Record HubPortInfo : Type := {
  hp_connectionIndex : N;
  hp_companionIndex : N;
  hp_companionPortNumber : N;
  hp_companionHubSymbolicLinkName : wstring;
  hp_isFilled : bool
}.

Definition default_HubPortInfo : HubPortInfo :=
  {| hp_connectionIndex := 0; hp_companionIndex := 0; hp_companionPortNumber := 0;
     hp_companionHubSymbolicLinkName := []; hp_isFilled := false |}.

Record HubConnectionInfo : Type := {
  _connectionIndex : N;               (* ULONG *)
  _deviceDescriptor : USB_DEVICE_DESCRIPTOR;
  _currentConfigurationValue : N;     (* UCHAR *)
  _speed : N;                         (* UCHAR *)
  _deviceIsHub : N;                   (* BOOLEAN *)
  _deviceAddress : N;                 (* USHORT *)
  _numberOfOpenPipes : N;             (* ULONG *)
  _connectionStatus : N;              (* USB_CONNECTION_STATUS *)
  _pipeList : list USB_PIPE_INFO;
  _driverKeyName : wstring
}.

Definition set_driverKeyName (info : HubConnectionInfo) (name : wstring)
    : HubConnectionInfo :=
  {| _connectionIndex := _connectionIndex info;
     _deviceDescriptor := _deviceDescriptor info;
     _currentConfigurationValue := _currentConfigurationValue info;
     _speed := _speed info;
     _deviceIsHub := _deviceIsHub info;
     _deviceAddress := _deviceAddress info;
     _numberOfOpenPipes := _numberOfOpenPipes info;
     _connectionStatus := _connectionStatus info;
     _pipeList := _pipeList info;
     _driverKeyName := name |}.

(** [UsbLimits], UsbClassCodes.h. *)
Definition MaxEndpointsPerDevice : N := 30.
Definition MaxPortsPerHub : N := 255.

(** ** Hub queries *)

Definition MapHubNodeType (nodeType : N) : wstring :=
  match nodeType with
  | 0 => L "UsbHub"
  | 1 => L "UsbMIParent"
  | _ => L "unknown"
  end.

Definition zero_node_information : USB_NODE_INFORMATION :=
  {| NodeType := 0; bNumberOfPorts := 0 |}.

Definition GetUsbHubNodeInformation (this : DeviceCommunication)
    (nodeInfo : HubNodeInfo) : Result HubNodeInfo :=
  let r := DeviceIoControl this IOCTL_USB_GET_NODE_INFORMATION zero_node_information in
  try _u <~ THROW_LAST_ERROR_IF (negb (io_ok r)) r;
  Ok {| numbersOfPorts := bNumberOfPorts (io_out r);
        type := MapHubNodeType (NodeType (io_out r)) |}.

Definition GetUsbHubNodeInformationEx (this : DeviceCommunication)
    (nodeInfo : HubNodeInfoEx) : Result HubNodeInfoEx :=
  let r := DeviceIoControl this IOCTL_USB_GET_HUB_INFORMATION_EX
             {| HighestPortNumber := 0 |} in
  let isSupported := io_ok r && (sizeof_USB_HUB_INFORMATION_EX <=? io_bytes r) in
  Ok {| _isHubInfoExSupport := isSupported;
        _highestPortNumber :=
          if isSupported then HighestPortNumber (io_out r) else 0 |}.

Definition GetUsbHubNodeCapabilitiesEx (this : DeviceCommunication)
    (nodeInfo : HubNodeCapabilitiesEx) : Result HubNodeCapabilitiesEx :=
  let r := DeviceIoControl this IOCTL_USB_GET_HUB_CAPABILITIES_EX
             {| CapabilityFlags := 0 |} in
  if negb (io_ok r) || (io_bytes r <? sizeof_USB_HUB_CAPABILITIES_EX) then
    (* THROW_HR_MSG(HRESULT_FROM_WIN32(GetLastError()), ...) *)
    Throw (ResultException (HRESULT_FROM_WIN32 (io_err r)))
  else
    Ok {| _hubIsRoot := HubIsRoot (io_out r) |}.

(** ** Two-phase name queries *)

Definition zero_name (connectionIndex : N) : USB_NAME_RECORD :=
  {| nm_ConnectionIndex := connectionIndex; nm_ActualLength := 0; nm_Name := [] |}.

Definition GetDriverKeyName (this : DeviceCommunication) (connectionIndex : N)
    : Result wstring :=
  if connectionIndex =? 0 then Throw InvalidDeviceArgumentException
  else if handle_invalid this then Throw InvalidDeviceHandleException
  else
    let r1 := DeviceIoControl this
                (fun d => IOCTL_USB_GET_NODE_CONNECTION_DRIVERKEY_NAME d connectionIndex
                            sizeof_USB_NODE_CONNECTION_DRIVERKEY_NAME)
                (zero_name connectionIndex) in
    try _u <~ THROW_LAST_ERROR_IF (negb (io_ok r1)) r1;
    let requiredSize := nm_ActualLength (io_out r1) in
    if requiredSize <=? sizeof_USB_NODE_CONNECTION_DRIVERKEY_NAME then
      Throw (ResultException E_UNEXPECTED)
    else
      try _a <~ THROW_IF_NULL_ALLOC this requiredSize;
      let r2 := DeviceIoControl this
                  (fun d => IOCTL_USB_GET_NODE_CONNECTION_DRIVERKEY_NAME d connectionIndex
                              requiredSize)
                  (zero_name connectionIndex) in
      try _v <~ THROW_LAST_ERROR_IF (negb (io_ok r2)) r2;
      Ok (wstring_of_wchars (nm_Name (io_out r2))).

Definition GetUsbExternalHubName (this : DeviceCommunication) (index : N)
    (hubName : wstring) : Result wstring :=
  let r1 := DeviceIoControl this
              (fun d => IOCTL_USB_GET_NODE_CONNECTION_NAME d index
                          sizeof_USB_NODE_CONNECTION_NAME)
              (zero_name index) in
  try _u <~ THROW_LAST_ERROR_IF (negb (io_ok r1)) r1;
  let requiredSize := nm_ActualLength (io_out r1) in
  if requiredSize <=? sizeof_USB_NODE_CONNECTION_NAME then
    Throw (ResultException E_UNEXPECTED)
  else
    try _a <~ THROW_IF_NULL_ALLOC this requiredSize;
    let r2 := DeviceIoControl this
                (fun d => IOCTL_USB_GET_NODE_CONNECTION_NAME d index requiredSize)
                (zero_name index) in
    try _v <~ THROW_LAST_ERROR_IF (negb (io_ok r2)) r2;
    Ok (wstring_of_wchars (nm_Name (io_out r2))).

(** ** Port enumeration *)

(** The ports [1 .. numberOfPorts], in the order of the [for] loops. *)
Definition ports_upto (numberOfPorts : N) : list N :=
  map N.of_nat (seq 1 (N.to_nat numberOfPorts)).

(** [std::map::try_emplace]: no effect when the key is present. *)
Definition try_emplace {V} (key : N) (v : V) (m : gmap N V) : gmap N V :=
  match m !! key with
  | Some _ => m
  | None => <[key := v]> m
  end.

(** The argument and handle checks shared by the two enumerations. *)
Definition check_enumeration_arguments (this : DeviceCommunication)
    (numberOfPorts : N) : Result unit :=
  if numberOfPorts =? 0 then Throw InvalidDeviceArgumentException
  else if MaxPortsPerHub <? numberOfPorts then Throw InvalidDeviceArgumentException
  else if handle_invalid this then Throw InvalidDeviceHandleException
  else Ok tt.

Definition zero_connector_properties (portIndex : N) : USB_PORT_CONNECTOR_PROPERTIES :=
  {| pcp_ConnectionIndex := portIndex; pcp_ActualLength := 0;
     pcp_CompanionIndex := 0; pcp_CompanionPortNumber := 0;
     pcp_CompanionHubSymbolicLinkName := [] |}.

Definition queryPortConnectorProps (this : DeviceCommunication) (portIndex : N)
    : option HubPortInfo :=
  let r1 := DeviceIoControl this
              (fun d => IOCTL_USB_GET_PORT_CONNECTOR_PROPERTIES d portIndex
                          sizeof_USB_PORT_CONNECTOR_PROPERTIES)
              (zero_connector_properties portIndex) in
  if negb (io_ok r1) || negb (io_bytes r1 =? sizeof_USB_PORT_CONNECTOR_PROPERTIES)
  then None
  else
    let actualLength := pcp_ActualLength (io_out r1) in
    if negb (alloc_ok this actualLength) then None
    else
      let r2 := DeviceIoControl this
                  (fun d => IOCTL_USB_GET_PORT_CONNECTOR_PROPERTIES d portIndex actualLength)
                  (zero_connector_properties portIndex) in
      if negb (io_ok r2) || (io_bytes r2 <? actualLength) then
        Some default_HubPortInfo
      else
        let fullProps := io_out r2 in
        Some {| hp_companionHubSymbolicLinkName :=
                  wstring_of_wchars (pcp_CompanionHubSymbolicLinkName fullProps);
                hp_companionIndex := pcp_CompanionIndex fullProps;
                hp_companionPortNumber := pcp_CompanionPortNumber fullProps;
                hp_connectionIndex := pcp_ConnectionIndex fullProps;
                hp_isFilled := true |}.

Fixpoint EnumeratePorts_loop (this : DeviceCommunication) (ports : list N)
    (portConnectorProps : gmap N HubPortInfo) : gmap N HubPortInfo :=
  match ports with
  | [] => portConnectorProps
  | portNumber :: rest =>
      EnumeratePorts_loop this rest
        (match queryPortConnectorProps this portNumber with
         | Some portInfo => try_emplace portNumber portInfo portConnectorProps
         | None => portConnectorProps
         end)
  end.

Definition EnumeratePorts (this : DeviceCommunication) (numberOfPorts : N)
    (portConnectorProps : gmap N HubPortInfo) : Result (gmap N HubPortInfo) :=
  try _u <~ check_enumeration_arguments this numberOfPorts;
  Ok (EnumeratePorts_loop this (ports_upto numberOfPorts) portConnectorProps).

(** ** Connection information of every port *)

Definition default_HubConnectionInfo : HubConnectionInfo :=
  {| _connectionIndex := 0; _deviceDescriptor := zero_device_descriptor;
     _currentConfigurationValue := 0; _speed := 0; _deviceIsHub := 0;
     _deviceAddress := 0; _numberOfOpenPipes := 0;
     _connectionStatus := NoDeviceConnected; _pipeList := [];
     _driverKeyName := [] |}.

Definition connection_buffer_size (header : N) : N :=
  header + sizeof_USB_PIPE_INFO * MaxEndpointsPerDevice.

(** [_pipeList.reserve(n)] on an empty vector: nothing for [n = 0],
    otherwise an allocation for [n] entries, and [std::bad_alloc] when
    the heap refuses it.  (On a 64-bit build a [ULONG] count stays
    below [max_size()], so [std::length_error] does not arise.) *)
Definition reserve (this : DeviceCommunication) (n : N) : Result unit :=
  if (n =? 0) || alloc_ok this (n * sizeof_USB_PIPE_INFO) then Ok tt
  else Throw BadAlloc.

(** The [sizeof(USB_PIPE_INFO)] bytes at distance [off] behind a
    connection buffer, read as a [USB_PIPE_INFO]: a packed endpoint
    descriptor of 7 bytes, then [ScheduleOffset]. *)
Definition pipe_behind (this : DeviceCommunication) (bufferSize off : N)
    : USB_PIPE_INFO :=
  let b k := Byte.to_N (behind_block this bufferSize (off + k)) in
  {| bEndpointAddress := b 2; bmAttributes := b 3;
     wMaxPacketSize := b 4 + 256 * b 5; bInterval := b 6;
     ScheduleOffset := b 7 + 256 * b 8 + 65536 * b 9 + 16777216 * b 10 |}.

(** [PipeList[i]] of a connection record whose fixed part has [header]
    bytes.  The buffer has room for [MaxEndpointsPerDevice] entries and
    is zeroed when it is allocated; the driver fills the first ones.
    The index is not compared with that number: an entry past it lies
    behind the buffer. *)
Definition PipeList_at (this : DeviceCommunication) (header : N)
    (PipeList : list USB_PIPE_INFO) (i : N) : USB_PIPE_INFO :=
  if i <? MaxEndpointsPerDevice then nth (N.to_nat i) PipeList zero_pipe
  else pipe_behind this (connection_buffer_size header)
         ((i - MaxEndpointsPerDevice) * sizeof_USB_PIPE_INFO).

(** [_pipeList.reserve(n); for (i = 0; i < n; ++i)
    _pipeList.push_back(PipeList[i]);] *)
Definition copy_pipes (this : DeviceCommunication) (header NumberOfOpenPipes : N)
    (PipeList : list USB_PIPE_INFO) : Result (list USB_PIPE_INFO) :=
  try _r <~ reserve this NumberOfOpenPipes;
  Ok (map (fun i => PipeList_at this header PipeList (N.of_nat i))
        (seq 0 (N.to_nat NumberOfOpenPipes))).

Definition queryConnectionInfoV2 (this : DeviceCommunication) (portIndex : N)
    : option USB_NODE_CONNECTION_INFORMATION_EX_V2 :=
  let infoV2 :=
    {| v2_ConnectionIndex := to_ULONG portIndex;
       v2_Length := sizeof_USB_NODE_CONNECTION_INFORMATION_EX_V2;
       v2_SupportedUsbProtocols := 4;       (* Usb300 = 1 *)
       v2_Flags := 0 |} in
  let r := DeviceIoControl this
             (fun d => IOCTL_USB_GET_NODE_CONNECTION_INFORMATION_EX_V2 d
                         (to_ULONG portIndex)) infoV2 in
  if io_ok r && (sizeof_USB_NODE_CONNECTION_INFORMATION_EX_V2 <=? io_bytes r)
  then Some (io_out r)
  else None.

(** The lambda captures nothing; the heap it allocates from is that of
    the object. *)
Definition populateConnectionInfo (this : DeviceCommunication)
    (info : HubConnectionInfo)
    (connEx : USB_NODE_CONNECTION_INFORMATION_EX) (portIndex : N)
    (v2Info : option USB_NODE_CONNECTION_INFORMATION_EX_V2)
    : Result HubConnectionInfo :=
  let adjustedSpeed :=
    match ex_Speed connEx =? UsbHighSpeed, v2Info with
    | true, Some v2 =>
        if DeviceIsOperatingAtSuperSpeedOrHigher v2 ||
           DeviceIsOperatingAtSuperSpeedPlusOrHigher v2
        then UsbSuperSpeed
        else ex_Speed connEx
    | _, _ => ex_Speed connEx
    end in
  try pipeList <~ copy_pipes this sizeof_USB_NODE_CONNECTION_INFORMATION_EX
                    (ex_NumberOfOpenPipes connEx) (ex_PipeList connEx);
  Ok {| _connectionIndex := to_ULONG portIndex;
        _connectionStatus := ex_ConnectionStatus connEx;
        _currentConfigurationValue := ex_CurrentConfigurationValue connEx;
        _deviceAddress := ex_DeviceAddress connEx;
        _deviceDescriptor := ex_DeviceDescriptor connEx;
        _deviceIsHub := ex_DeviceIsHub connEx;
        _numberOfOpenPipes := ex_NumberOfOpenPipes connEx;
        _speed := adjustedSpeed;
        _pipeList := pipeList;
        _driverKeyName := _driverKeyName info |}.

Definition zero_connection_information (portIndex : N)
    : USB_NODE_CONNECTION_INFORMATION :=
  {| ci_ConnectionIndex := to_ULONG portIndex;
     ci_DeviceDescriptor := zero_device_descriptor;
     ci_CurrentConfigurationValue := 0; ci_LowSpeed := 0; ci_DeviceIsHub := 0;
     ci_DeviceAddress := 0; ci_NumberOfOpenPipes := 0; ci_ConnectionStatus := 0;
     ci_PipeList := [] |}.

Definition zero_connection_information_ex (portIndex : N)
    : USB_NODE_CONNECTION_INFORMATION_EX :=
  {| ex_ConnectionIndex := to_ULONG portIndex;
     ex_DeviceDescriptor := zero_device_descriptor;
     ex_CurrentConfigurationValue := 0; ex_Speed := 0; ex_DeviceIsHub := 0;
     ex_DeviceAddress := 0; ex_NumberOfOpenPipes := 0; ex_ConnectionStatus := 0;
     ex_PipeList := [] |}.

Definition queryLegacyConnectionInfo (this : DeviceCommunication) (portIndex : N)
    : Result (option (HubConnectionInfo * bool)) :=
  try _a <~ THROW_IF_NULL_ALLOC this
              (connection_buffer_size sizeof_USB_NODE_CONNECTION_INFORMATION);
  let r := DeviceIoControl this
             (fun d => IOCTL_USB_GET_NODE_CONNECTION_INFORMATION d (to_ULONG portIndex))
             (zero_connection_information portIndex) in
  if negb (io_ok r) then Ok None
  else
    let connInfo := io_out r in
    try pipeList <~ copy_pipes this sizeof_USB_NODE_CONNECTION_INFORMATION
                      (ci_NumberOfOpenPipes connInfo) (ci_PipeList connInfo);
    let info :=
      {| _connectionIndex := to_ULONG portIndex;
         _connectionStatus := ci_ConnectionStatus connInfo;
         _currentConfigurationValue := ci_CurrentConfigurationValue connInfo;
         _deviceAddress := ci_DeviceAddress connInfo;
         _deviceDescriptor := ci_DeviceDescriptor connInfo;
         _deviceIsHub := ci_DeviceIsHub connInfo;
         _numberOfOpenPipes := ci_NumberOfOpenPipes connInfo;
         _speed := if negb (ci_LowSpeed connInfo =? 0) then UsbLowSpeed else UsbFullSpeed;
         _pipeList := pipeList;
         _driverKeyName := [] |} in
    let isConnected := negb (ci_ConnectionStatus connInfo =? NoDeviceConnected) in
    Ok (Some (info, isConnected)).

(** The best-effort driver key of a connected device:
    [try { info._driverKeyName = GetDriverKeyName(port); } catch (...) {}]. *)
Definition resolve_driver_key (this : DeviceCommunication) (portNumber : N)
    (connectionInfo : HubConnectionInfo) (deviceConnected : bool)
    : HubConnectionInfo :=
  if deviceConnected then
    try_catch_all
      (try name <~ GetDriverKeyName this (to_ULONG portNumber);
       Ok (set_driverKeyName connectionInfo name))
      connectionInfo
  else connectionInfo.

(** The tail of the loop body: the driver key, then [try_emplace]. *)
Definition store_connection (this : DeviceCommunication) (portNumber : N)
    (connectionInfo : HubConnectionInfo) (deviceConnected : bool)
    (hubConnectionInfoList : gmap N HubConnectionInfo) : gmap N HubConnectionInfo :=
  try_emplace portNumber
    (resolve_driver_key this portNumber connectionInfo deviceConnected)
    hubConnectionInfoList.

Fixpoint EnumeratePortsConnectionInfo_loop (this : DeviceCommunication)
    (ports : list N) (hubConnectionInfoList : gmap N HubConnectionInfo)
    : Result (gmap N HubConnectionInfo) :=
  match ports with
  | [] => Ok hubConnectionInfoList
  | portNumber :: rest =>
      let v2Info := queryConnectionInfoV2 this portNumber in
      try _a <~ THROW_IF_NULL_ALLOC this
                  (connection_buffer_size sizeof_USB_NODE_CONNECTION_INFORMATION_EX);
      let r := DeviceIoControl this
                 (fun d => IOCTL_USB_GET_NODE_CONNECTION_INFORMATION_EX d
                             (to_ULONG portNumber))
                 (zero_connection_information_ex portNumber) in
      if io_ok r then
        let connInfoEx := io_out r in
        try connectionInfo <~
          populateConnectionInfo this default_HubConnectionInfo connInfoEx portNumber
            v2Info;
        let deviceConnected :=
          negb (ex_ConnectionStatus connInfoEx =? NoDeviceConnected) in
        EnumeratePortsConnectionInfo_loop this rest
          (store_connection this portNumber connectionInfo deviceConnected
             hubConnectionInfoList)
      else
        try legacyResult <~ queryLegacyConnectionInfo this portNumber;
        match legacyResult with
        | None => EnumeratePortsConnectionInfo_loop this rest hubConnectionInfoList
        | Some (connectionInfo, deviceConnected) =>
            EnumeratePortsConnectionInfo_loop this rest
              (store_connection this portNumber connectionInfo deviceConnected
                 hubConnectionInfoList)
        end
  end.

Definition EnumeratePortsConnectionInfo (this : DeviceCommunication)
    (numberOfPorts : N) (hubConnectionInfoList : gmap N HubConnectionInfo)
    : Result (gmap N HubConnectionInfo) :=
  try _u <~ check_enumeration_arguments this numberOfPorts;
  (* hubConnectionInfoList.clear() *)
  EnumeratePortsConnectionInfo_loop this (ports_upto numberOfPorts) ∅.

(** ** Descriptors of the device on a port *)

(** The data area of a request buffer of [bufferSize] bytes after the
    call: what the driver wrote, cut or zero-filled to the area's size
    (the buffer is zeroed before the call). *)
Definition data_area (bufferSize : N) (out : list byte) : Rd.Mem :=
  resize (N.to_nat (bufferSize - sizeof_USB_DESCRIPTOR_REQUEST)) x00 out.

(** [executeDescriptorRequest(buffer, bufferSize)] of
    [GetConfigDescriptor]: success flag, bytes returned, data area. *)
Definition executeDescriptorRequest (this : DeviceCommunication)
    (connectionIndex descriptorIndex : N) (bufferSize : N) : bool * N * Rd.Mem :=
  let wValue :=
    to_USHORT (N.lor (N.shiftl USB_CONFIGURATION_DESCRIPTOR_TYPE 8) descriptorIndex) in
  let wLength := to_USHORT (bufferSize - sizeof_USB_DESCRIPTOR_REQUEST) in
  let r := DeviceIoControl this
             (fun d => IOCTL_USB_GET_DESCRIPTOR_FROM_NODE_CONNECTION d
                         connectionIndex wValue 0 wLength) [] in
  (io_ok r, io_bytes r, data_area bufferSize (io_out r)).

(** [configHeader->wTotalLength] of a data area. *)
Definition wTotalLength_of (data : Rd.Mem) : N :=
  Rd.byte_at data 2 + 256 * Rd.byte_at data 3.

(** [GetConfigDescriptor]: [None] is the null pointer; otherwise the
    configuration descriptor set that follows the request header. *)
Definition GetConfigDescriptor (this : DeviceCommunication)
    (connectionIndex descriptorIndex : N) : Result (option Rd.Mem) :=
  if connectionIndex =? 0 then Throw InvalidDeviceArgumentException
  else if handle_invalid this then Throw InvalidDeviceHandleException
  else
    let initialBufferSize :=
      sizeof_USB_DESCRIPTOR_REQUEST + sizeof_USB_CONFIGURATION_DESCRIPTOR in
    let '(querySuccess, queryBytesReturned, queryData) :=
      executeDescriptorRequest this connectionIndex descriptorIndex initialBufferSize in
    if negb querySuccess || negb (queryBytesReturned =? initialBufferSize) then Ok None
    else
      let totalDescriptorLength := wTotalLength_of queryData in
      if totalDescriptorLength <? sizeof_USB_CONFIGURATION_DESCRIPTOR then Ok None
      else
        let fullBufferSize := sizeof_USB_DESCRIPTOR_REQUEST + totalDescriptorLength in
        try _a <~ THROW_IF_NULL_ALLOC this fullBufferSize;
        let '(fetchSuccess, fetchBytesReturned, fetchData) :=
          executeDescriptorRequest this connectionIndex descriptorIndex fullBufferSize in
        if negb fetchSuccess || negb (fetchBytesReturned =? fullBufferSize) then Ok None
        else if wTotalLength_of fetchData <? sizeof_USB_CONFIGURATION_DESCRIPTOR
        then Ok None
        else Ok (Some fetchData).

Record STRING_DESCRIPTOR_NODE : Type := {
  DescriptorIndex : N;
  LanguageID : N;
  (** the [bLength] bytes of the string descriptor *)
  StringDescriptor : list byte
}.

Definition GetStringDescriptor (this : DeviceCommunication)
    (connectionIndex descriptorIndex languageId : N)
    : Result (option STRING_DESCRIPTOR_NODE) :=
  if connectionIndex =? 0 then Throw InvalidDeviceArgumentException
  else if handle_invalid this then Throw InvalidDeviceHandleException
  else
    let requestBufferSize := sizeof_USB_DESCRIPTOR_REQUEST + MAXIMUM_USB_STRING_LENGTH in
    if negb (alloc_ok this requestBufferSize) then Throw BadAlloc
    else
      let wValue :=
        to_USHORT (N.lor (N.shiftl USB_STRING_DESCRIPTOR_TYPE 8) descriptorIndex) in
      let wLength := to_USHORT (requestBufferSize - sizeof_USB_DESCRIPTOR_REQUEST) in
      let r := DeviceIoControl this
                 (fun d => IOCTL_USB_GET_DESCRIPTOR_FROM_NODE_CONNECTION d
                             connectionIndex wValue languageId wLength) [] in
      let bytesReturned := io_bytes r in
      let stringDescriptor := data_area requestBufferSize (io_out r) in
      let bLength := Rd.byte_at stringDescriptor 0 in
      let validateResponse :=
        if negb (io_ok r) then false
        else if bytesReturned <? sizeof_USB_DESCRIPTOR_REQUEST + 2 then false
        else if negb (Rd.byte_at stringDescriptor 1 =? USB_STRING_DESCRIPTOR_TYPE)
        then false
        else
          let payloadSize := bytesReturned - sizeof_USB_DESCRIPTOR_REQUEST in
          if negb (bLength =? payloadSize) then false
          else if negb (bLength mod 2 =? 0) then false
          else true in
      if negb validateResponse then Ok None
      else
        try _a <~ THROW_IF_NULL_ALLOC this (sizeof_STRING_DESCRIPTOR_NODE + bLength);
        Ok (Some {| DescriptorIndex := descriptorIndex;
                    LanguageID := languageId;
                    StringDescriptor := take (N.to_nat bLength) stringDescriptor |}).

(** ** Opening a device *)

(** The operating system as the library sees it: [CreateFileW] on a
    device path yields the driver behind the new handle, or fails and
    sets the last error; [heap size] tells whether an allocation of
    that size succeeds, [behind size k] what lies [k] bytes behind the
    end of a block of that size. *)
Record World : Type := {
  CreateFileW : wstring -> Driver + N;
  heap : N -> bool;
  behind : N -> N -> byte
}.

(** The constructor.  [THROW_IF_WIN32_ERROR] throws on any value other
    than zero. *)
Definition open (w : World) (devicePath : wstring) : Result DeviceCommunication :=
  match CreateFileW w devicePath with
  | inl drv =>
      Ok {| _hFile := Some drv; alloc_ok := heap w; behind_block := behind w |}
  | inr lastError =>
      let hr := HRESULT_FROM_WIN32 lastError in
      if hr =? 0
      then Ok {| _hFile := None; alloc_ok := heap w; behind_block := behind w |}
      else Throw (ResultException (HRESULT_FROM_WIN32 hr))
  end.

End DeviceCommunication.

(* ===================================================================== *)
(** * UsbHub.cpp                                                         *)
(* ===================================================================== *)

Module UsbHub.
Import Sdk Exn Rd DeviceCommunication.

Record UsbDeviceDescriptorInfo : Type := {
  _manufacturer : wstring;
  _product : wstring;
  _serialNumber : wstring;
  _interfaceClass : option N
}.

Definition default_UsbDeviceDescriptorInfo : UsbDeviceDescriptorInfo :=
  {| _manufacturer := []; _product := []; _serialNumber := [];
     _interfaceClass := None |}.

Definition SetInterfaceClass (i : UsbDeviceDescriptorInfo) (interfaceClass : N)
    : UsbDeviceDescriptorInfo :=
  {| _manufacturer := _manufacturer i; _product := _product i;
     _serialNumber := _serialNumber i; _interfaceClass := Some interfaceClass |}.

(** Modelled from the spec: the body of
    [UsbDeviceDescriptorInfo::SetUsbDeviceInfo] is not among the
    sources; it stores the manufacturer, product and serial-number
    strings of the descriptor record. *)
Definition SetUsbDeviceInfo (i : UsbDeviceDescriptorInfo)
    (manufacturer product serialNumber : wstring) : UsbDeviceDescriptorInfo :=
  {| _manufacturer := manufacturer; _product := product;
     _serialNumber := serialNumber; _interfaceClass := _interfaceClass i |}.

(** [GetInterfaceClass()]: [value_or(0xFF)]. *)
Definition GetInterfaceClass (i : UsbDeviceDescriptorInfo) : N :=
  match _interfaceClass i with Some c => c | None => 0xFF end.

Record UsbHub : Type := {
  _hubName : wstring;
  _numberOfPorts : N;
  _pDeviceCommunication : DeviceCommunication;
  _hubPortConnectorProperties : gmap N HubPortInfo;
  _hubPortConnectionInfo : gmap N HubConnectionInfo;
  _portUsbConfigurationDescriptor : gmap N Mem;
  _usbDeviceDescriptionInfo : gmap N UsbDeviceDescriptorInfo
}.

(** [UsbHub::UsbHub(hubName)]. *)
Definition new (w : World) (hubName : wstring) : Result UsbHub :=
  try comm <~ DeviceCommunication.open w hubName;
  Ok {| _hubName := hubName; _numberOfPorts := 0;
        _pDeviceCommunication := comm;
        _hubPortConnectorProperties := ∅; _hubPortConnectionInfo := ∅;
        _portUsbConfigurationDescriptor := ∅; _usbDeviceDescriptionInfo := ∅ |}.

Definition PopulateInfo (hub : UsbHub) : Result UsbHub :=
  let comm := _pDeviceCommunication hub in
  try nodeInfo <~ GetUsbHubNodeInformation comm {| type := []; numbersOfPorts := 0 |};
  try nodeInfoEx <~ GetUsbHubNodeInformationEx comm
                      {| _highestPortNumber := 0; _isHubInfoExSupport := false |};
  try hubCapabilityEx <~ GetUsbHubNodeCapabilitiesEx comm {| _hubIsRoot := false |};
  let numberOfPorts := numbersOfPorts nodeInfo in
  try props <~ EnumeratePorts comm numberOfPorts (_hubPortConnectorProperties hub);
  try conns <~ EnumeratePortsConnectionInfo comm numberOfPorts
                 (_hubPortConnectionInfo hub);
  Ok {| _hubName := _hubName hub; _numberOfPorts := numberOfPorts;
        _pDeviceCommunication := comm;
        _hubPortConnectorProperties := props; _hubPortConnectionInfo := conns;
        _portUsbConfigurationDescriptor := _portUsbConfigurationDescriptor hub;
        _usbDeviceDescriptionInfo := _usbDeviceDescriptionInfo hub |}.

(** The two walks of this file go through raw pointers into the block
    that [GetConfigDescriptor] allocated.  They are bounded by
    [descEnd], which is computed from the [wTotalLength] that the
    device delivered, not by the size of the block, and the class byte
    of an interface descriptor is loaded without a look at its
    [bLength].  So what a pointer can reach is modelled as the memory
    from its address on, byte by byte, whatever lies there. *)
Definition Memory : Type := N -> byte.

Definition peek (mem : Memory) (off : N) : N := Byte.to_N (mem off).

(** [((PUSB_CONFIGURATION_DESCRIPTOR)p)->wTotalLength]. *)
Definition wTotalLength_at (mem : Memory) : N :=
  peek mem off_wTotalLength + 256 * peek mem (off_wTotalLength + 1).

(** The memory behind the pointer [pUsbDescriptorRequest + 1]: the
    data area of the block, and behind it what the heap holds behind
    the block. *)
Definition heap_view (this : DeviceCommunication) (data : Mem) : Memory :=
  fun off =>
    let size := N.of_nat (length data) in
    if off <? size then nth (N.to_nat off) data x00
    else behind_block this (sizeof_USB_DESCRIPTOR_REQUEST + size) (off - size).

(** The loop condition shared by the two walks of this file:
    [commonDesc + sizeof(USB_COMMON_DESCRIPTOR) < descEnd &&
     commonDesc + commonDesc->bLength <= descEnd]. *)
Definition walk_condition (mem : Memory) (commonDesc descEnd : N) : bool :=
  (commonDesc + sizeof_USB_COMMON_DESCRIPTOR <? descEnd) &&
  (commonDesc + peek mem (commonDesc + off_bLength) <=? descEnd).

(** The loop of [AreUsbDescriptorsCorrect].  Every [case] of the
    [switch] ends in [return] or [continue]; the [break] that follows
    the [switch] is never reached, so it has no counterpart here.
    [None]: the fuel ran out before the loop ended. *)
Fixpoint AreUsbDescriptorsCorrect_loop (fuel : nat) (mem : Memory)
    (commonDesc descEnd : N) : option bool :=
  match fuel with
  | O => None
  | S fuel' =>
      if walk_condition mem commonDesc descEnd then
        let bLength := peek mem (commonDesc + off_bLength) in
        let bDescriptorType := peek mem (commonDesc + off_bDescriptorType) in
        if (bDescriptorType =? USB_CONFIGURATION_DESCRIPTOR_TYPE) ||
           (bDescriptorType =? USB_OTHER_SPEED_CONFIGURATION_DESCRIPTOR_TYPE) then
          if negb (bLength =? sizeof_USB_CONFIGURATION_DESCRIPTOR) then Some false
          else if negb (peek mem (commonDesc + off_iConfiguration) =? 0) then Some true
          else AreUsbDescriptorsCorrect_loop fuel' mem (commonDesc + bLength) descEnd
        else if bDescriptorType =? USB_INTERFACE_DESCRIPTOR_TYPE then
          if negb (bLength =? sizeof_USB_INTERFACE_DESCRIPTOR) &&
             negb (bLength =? sizeof_USB_INTERFACE_DESCRIPTOR2) then Some false
          else if negb (peek mem (commonDesc + off_iInterface) =? 0) then Some true
          else AreUsbDescriptorsCorrect_loop fuel' mem (commonDesc + bLength) descEnd
        else AreUsbDescriptorsCorrect_loop fuel' mem (commonDesc + bLength) descEnd
      else Some false
  end.

Definition AreUsbDescriptorsCorrect (fuel : nat)
    (UsbDeviceDescriptor : USB_DEVICE_DESCRIPTOR)
    (UsbConfigurationDescriptor : Memory) : option bool :=
  if negb (iManufacturer UsbDeviceDescriptor =? 0) ||
     negb (iProduct UsbDeviceDescriptor =? 0) ||
     negb (iSerialNumber UsbDeviceDescriptor =? 0) then Some true
  else
    let descEnd := 0 + wTotalLength_at UsbConfigurationDescriptor in
    AreUsbDescriptorsCorrect_loop fuel UsbConfigurationDescriptor 0 descEnd.

(** The loop of [FillConfigDescriptor] that looks for the first
    interface descriptor.  [interfaceDesc->bInterfaceClass] is loaded
    at offset 5 of a descriptor of which the loop condition has only
    established that its [bLength] bytes end before [descEnd]: for a
    short descriptor tagged as interface the load is behind
    [descEnd]. *)
Fixpoint first_interface_class (fuel : nat) (mem : Memory) (commonDesc descEnd : N)
    : option (option N) :=
  match fuel with
  | O => None
  | S fuel' =>
      if walk_condition mem commonDesc descEnd then
        if peek mem (commonDesc + off_bDescriptorType) =? USB_INTERFACE_DESCRIPTOR_TYPE
        then Some (Some (peek mem (commonDesc + off_bInterfaceClass)))
        else first_interface_class fuel' mem
               (commonDesc + peek mem (commonDesc + off_bLength)) descEnd
      else Some None
  end.

(** The [WCHAR]s of [bString]: little-endian pairs after the two
    header bytes; the node is zero-filled behind the descriptor. *)
Fixpoint wchars_of_bytes (bs : list byte) : list N :=
  match bs with
  | lo :: hi :: rest => (Byte.to_N lo + 256 * Byte.to_N hi) :: wchars_of_bytes rest
  | _ => []
  end.

Definition bString (node : STRING_DESCRIPTOR_NODE) : list N :=
  wchars_of_bytes (drop 2 (StringDescriptor node)).

(** One of the optional fetches of [GetAllStringDescriptors]: the
    empty string unless the index is set and the descriptor arrives. *)
Definition fetch_string (comm : DeviceCommunication)
    (ConnectionIndex index languageId : N) : Result wstring :=
  if index =? 0 then Ok []
  else
    try pDescriptorNode <~ GetStringDescriptor comm ConnectionIndex index languageId;
    match pDescriptorNode with
    | Some node => Ok (wstring_of_wchars (bString node))
    | None => Ok []
    end.

Definition GetAllStringDescriptors (hub : UsbHub) (ConnectionIndex : N)
    (DeviceDesc : USB_DEVICE_DESCRIPTOR) (ConfigDesc : Mem)
    (DeviceInfo : UsbDeviceDescriptorInfo) : Result UsbDeviceDescriptorInfo :=
  let comm := _pDeviceCommunication hub in
  try supportedLanguagesString <~ GetStringDescriptor comm ConnectionIndex 0 0;
  let defaultLanguageID := 0x0409 in
  let languageID0 :=
    match supportedLanguagesString with
    | None => defaultLanguageID
    | Some node => nth 0 (bString node) 0
    end in
  try bDeviceClassName <~
    fetch_string comm ConnectionIndex (bDeviceClass DeviceDesc) languageID0;
  try sManufacturer <~
    fetch_string comm ConnectionIndex (iManufacturer DeviceDesc) languageID0;
  try sProduct <~
    fetch_string comm ConnectionIndex (iProduct DeviceDesc) languageID0;
  try sSerialNumber <~
    fetch_string comm ConnectionIndex (iSerialNumber DeviceDesc) languageID0;
  Ok (SetUsbDeviceInfo DeviceInfo sManufacturer sProduct sSerialNumber).

(** [std::map::emplace]: like [try_emplace], no effect on a present key. *)
Definition emplace {V} (key : N) (v : V) (m : gmap N V) : gmap N V :=
  try_emplace key v m.

(** [FillConfigDescriptor].  The outer [option] is [None] when one of
    the two descriptor walks does not end within the fuel.  The
    [DescriptorIndex] argument is not used by the source: it always
    asks for configuration [0]. *)
Definition FillConfigDescriptor (fuel : nat) (hub : UsbHub)
    (UsbDeviceDescriptor : USB_DEVICE_DESCRIPTOR)
    (ConnectionIndex DescriptorIndex : N) : option (Result UsbHub) :=
  match GetConfigDescriptor (_pDeviceCommunication hub) ConnectionIndex 0 with
  | Throw e => Some (Throw e)
  | Ok None => Some (Ok hub)
  | Ok (Some data) =>
      let configDesc := heap_view (_pDeviceCommunication hub) data in
      let descEnd := 0 + wTotalLength_at configDesc in
      match first_interface_class fuel configDesc
              (0 + peek configDesc off_bLength) descEnd with
      | None => None
      | Some cls =>
          let info0 :=
            match cls with
            | Some c => SetInterfaceClass default_UsbDeviceDescriptorInfo c
            | None => default_UsbDeviceDescriptorInfo
            end in
          match AreUsbDescriptorsCorrect fuel UsbDeviceDescriptor configDesc with
          | None => None
          | Some usable =>
              let strings :=
                if usable then
                  GetAllStringDescriptors hub ConnectionIndex UsbDeviceDescriptor
                    data info0
                else Ok info0 in
              Some (try info <~ strings;
                    Ok {| _hubName := _hubName hub;
                          _numberOfPorts := _numberOfPorts hub;
                          _pDeviceCommunication := _pDeviceCommunication hub;
                          _hubPortConnectorProperties := _hubPortConnectorProperties hub;
                          _hubPortConnectionInfo := _hubPortConnectionInfo hub;
                          _portUsbConfigurationDescriptor :=
                            emplace ConnectionIndex data
                              (_portUsbConfigurationDescriptor hub);
                          _usbDeviceDescriptionInfo :=
                            emplace ConnectionIndex info
                              (_usbDeviceDescriptionInfo hub) |})
          end
      end
  end.

End UsbHub.

(* ===================================================================== *)
(** * UsbHostController.cpp                                              *)
(* ===================================================================== *)

Module UsbHostController.
Import Sdk Exn DeviceCommunication.

Record UsbHostController : Type := {
  _numberOfPorts : N;
  _pciVendorId : N;
  _pciDeviceId : N;
  _pciRevision : N;
  _rootHubName : wstring;
  _driverKeyName : wstring
}.

(** [THROW_HR_IF_MSG(HRESULT_FROM_WIN32(GetLastError()), !result, ...)]. *)
Definition THROW_HR_IF_failed {T} (r : Ioctl T) : Result unit :=
  if negb (io_ok r) then Throw (ResultException (HRESULT_FROM_WIN32 (io_err r)))
  else Ok tt.

Definition zero_hcd_name : USB_HCD_NAME := {| hn_ActualLength := 0; hn_Name := [] |}.

Definition GetRootHubNameByHandle (comm : DeviceCommunication) : Result wstring :=
  let r1 := DeviceIoControl comm
              (fun d => IOCTL_USB_GET_ROOT_HUB_NAME d sizeof_USB_ROOT_HUB_NAME)
              zero_hcd_name in
  try _u <~ THROW_HR_IF_failed r1;
  let requiredSize := hn_ActualLength (io_out r1) in
  if negb (alloc_ok comm requiredSize) then Throw BadAlloc
  else
    let r2 := DeviceIoControl comm
                (fun d => IOCTL_USB_GET_ROOT_HUB_NAME d requiredSize) zero_hcd_name in
    try _v <~ THROW_HR_IF_failed r2;
    Ok (wstring_of_wchars (hn_Name (io_out r2))).

Definition GetDriverKeyName (comm : DeviceCommunication) : Result wstring :=
  let r1 := DeviceIoControl comm
              (fun d => IOCTL_GET_HCD_DRIVERKEY_NAME d sizeof_USB_HCD_DRIVERKEY_NAME)
              zero_hcd_name in
  try _u <~ THROW_HR_IF_failed r1;
  let neededSize := hn_ActualLength (io_out r1) in
  if neededSize <=? sizeof_USB_HCD_DRIVERKEY_NAME then
    Throw (ResultException E_INVALIDARG)
  else if negb (alloc_ok comm neededSize) then Throw BadAlloc
  else
    let r2 := DeviceIoControl comm
                (fun d => IOCTL_GET_HCD_DRIVERKEY_NAME d neededSize) zero_hcd_name in
    try _v <~ THROW_HR_IF_failed r2;
    Ok (wstring_of_wchars (hn_Name (io_out r2))).

Definition PopulateInfo (comm : DeviceCommunication) : Result UsbHostController :=
  let r := DeviceIoControl comm IOCTL_USB_USER_REQUEST
             {| NumberOfRootPorts := 0; PciVendorId := 0; PciDeviceId := 0;
                PciRevision := 0 |} in
  try _u <~ THROW_HR_IF_failed r;
  try rootHubName <~ GetRootHubNameByHandle comm;
  try driverKeyName <~ GetDriverKeyName comm;
  Ok {| _numberOfPorts := NumberOfRootPorts (io_out r);
        _pciVendorId := PciVendorId (io_out r);
        _pciDeviceId := PciDeviceId (io_out r);
        _pciRevision := PciRevision (io_out r);
        _rootHubName := rootHubName;
        _driverKeyName := driverKeyName |}.

End UsbHostController.

(* ===================================================================== *)
(** * UtilConvert.cpp, DevInfoData.h, DeviceResultantInfo.h              *)
(* ===================================================================== *)

Module UtilConvert.

Definition GetBaseClassById (value : N) : wstring :=
  match value with
  | 0x00 => L "USB interface class device"
  | 0x01 => L "Audio"
  | 0x02 => L "Communications and CDC Control"
  | 0x03 => L "HID (Human Interface Device)"
  | 0x05 => L "Physical"
  | 0x06 => L "Image"
  | 0x07 => L "Printer"
  | 0x08 => L "Mass Storage"
  | 0x09 => L "Hub"
  | 0x0A => L "CDC-Data"
  | 0x0B => L "Smart Card"
  | 0x0D => L "Content Security"
  | 0x0E => L "Video"
  | 0x0F => L "Personal Healthcare"
  | 0x10 => L "Audio/Video"
  | 0x11 => L "Billboard"
  | 0x12 => L "USB Type-C Bridge"
  | 0x13 => L "Bulk Display"
  | 0x14 => L "MCTP over USB"
  | 0x3C => L "I3C"
  | 0xDC => L "Diagnostic Device"
  | 0xE0 => L "Wireless Controller"
  | 0xEF => L "Miscellaneous"
  | 0xFE => L "Application Specific"
  | 0xFF => L "Vendor Specific"
  | _ => L "Unknown"
  end.

Definition GetUsbClassNameByDescId (DeviceClass : N) : wstring :=
  GetBaseClassById DeviceClass.

End UtilConvert.

Module DevInfoData.
Import Exn.

Definition GUID : Type := N.

(** One record of the device registry.  The last two fields are what
    SetupAPI answers when a [DeviceInfo] built on the record is asked
    for the device path of its hub or host-controller interface
    ([PopulateUsbInfo] or [PopulateUsbControllerInfo], then
    [GetDevicePath]). *)
Record DevInfoData : Type := {
  _hardwareId : wstring;
  _driverKeyName : wstring;
  _classGuid : GUID;
  _deviceDescription : wstring;
  PopulateUsbInfo_path : Result wstring;
  PopulateUsbControllerInfo_path : Result wstring
}.

Definition GetHardwareId := _hardwareId.
Definition GetDriverKeyName := _driverKeyName.
Definition GetClassGuid := _classGuid.
Definition GetDeviceDescription := _deviceDescription.

End DevInfoData.

Module DeviceResultantInfo.

Record DeviceResultantInfo : Type := {
  manufacturer_ : wstring;
  product_ : wstring;
  serialNumber_ : wstring;
  description_ : wstring;
  deviceId_ : wstring;
  friendlyName_ : wstring;
  devicePath_ : wstring;
  vendorName_ : wstring;
  interfaceClassName_ : wstring;
  deviceClass_ : N;
  interfaceClass_ : N;
  setupClassGuid_ : DevInfoData.GUID;
  vendorId_ : N;
  productId_ : N;
  isUsbDevice_ : bool;
  isConnected_ : bool
}.

End DeviceResultantInfo.

(* ===================================================================== *)
(** * DevicesManager.cpp                                                 *)
(* ===================================================================== *)

Module DevicesManager.
Import Sdk Exn DeviceCommunication.
Export DeviceResultantInfo.

Definition GUID_DEVINTERFACE_USB_DEVICE : DevInfoData.GUID :=
  0xA5DCBF10653011D2901F00C04FB951ED.

(** ** String helpers *)

Fixpoint starts_with (s prefix : wstring) : bool :=
  match prefix, s with
  | [], _ => true
  | _ :: _, [] => false
  | c :: prefix', d :: s' => (c =? d) && starts_with s' prefix'
  end.

(** [haystack.find(needle) != std::wstring::npos]. *)
Fixpoint wfind (haystack needle : wstring) : bool :=
  starts_with haystack needle ||
  match haystack with
  | [] => false
  | _ :: rest => wfind rest needle
  end.

(** [::towupper] in the "C" locale. *)
Definition towupper (c : N) : N :=
  if (97 <=? c) && (c <=? 122) then c - 32 else c.

Definition ContainsIgnoreCase (haystack needle : wstring) : bool :=
  match needle, haystack with
  | [], _ => true
  | _, [] => false
  | _, _ => wfind (map towupper haystack) (map towupper needle)
  end.

Definition hex_digit (d : N) : N := if d <? 10 then 48 + d else 55 + d.

(** [%04X] of a [USHORT]. *)
Definition hex4 (v : N) : wstring :=
  [hex_digit (v / 4096 mod 16); hex_digit (v / 256 mod 16);
   hex_digit (v / 16 mod 16); hex_digit (v mod 16)].

Definition BuildVidPidPattern (vendorId productId : N) : wstring :=
  L "VID_" ++ hex4 vendorId ++ L "&PID_" ++ hex4 productId.

(** ** The enumeration monad *)

(** State: [_devicesList].  Outcome: a value or an exception, or
    nothing at all when the fuel of a recursion or of a descriptor walk
    is used up.  The list survives an exception. *)
Definition Orch (A : Type) : Type :=
  list DeviceResultantInfo -> option (Result A * list DeviceResultantInfo).

Definition oret {A} (a : A) : Orch A := fun l => Some (Ok a, l).

Definition obind {A B} (c : Orch A) (k : A -> Orch B) : Orch B :=
  fun l =>
    match c l with
    | None => None
    | Some (Throw e, l') => Some (Throw e, l')
    | Some (Ok a, l') => k a l'
    end.

Definition lift {A} (r : Result A) : Orch A := fun l => Some (r, l).

Definition lift_fuel {A} (r : option (Result A)) : Orch A :=
  fun l => match r with Some x => Some (x, l) | None => None end.

Definition out_of_fuel {A} : Orch A := fun _ => None.

Definition AddDeviceInfo (deviceResultantInfo : DeviceResultantInfo) : Orch unit :=
  fun l => Some (Ok tt, l ++ [deviceResultantInfo]).

Definition ClearDevices : Orch unit := fun _ => Some (Ok tt, []).

End DevicesManager.

Notation "'orch' x <~ c ; k" := (DevicesManager.obind c (fun x => k))
  (at level 10, x name, c at level 99, k at level 200).

(** [DevicesManager::Impl]. *)
Module Impl.
Import Sdk Exn DeviceCommunication DevicesManager.

(** What the enumeration is run against: the operating system, the
    two device sets of the registry (a failed [DeviceEnumerator]
    throws), and the vendor table of UsbVendorList.h, which is not among
    the sources. *)
Record Env : Type := {
  os : World;
  allUsbDevices : Result (list DevInfoData.DevInfoData);
  controllers : Result (list DevInfoData.DevInfoData);
  GetVendorStringById : N -> wstring
}.

(** The four port-metadata maps of [EnumeratePortsFromRootHub]. *)
Record PortMaps : Type := {
  deviceClassMap : gmap N N;
  vendorIdMap : gmap N N;
  productIdMap : gmap N N;
  setupClassGuidMap : gmap N DevInfoData.GUID
}.

Definition empty_maps : PortMaps :=
  {| deviceClassMap := ∅; vendorIdMap := ∅; productIdMap := ∅;
     setupClassGuidMap := ∅ |}.

Definition set_setupClassGuidMap (m : PortMaps) (g : gmap N DevInfoData.GUID)
    : PortMaps :=
  {| deviceClassMap := deviceClassMap m; vendorIdMap := vendorIdMap m;
     productIdMap := productIdMap m; setupClassGuidMap := g |}.

(** Iteration over a [std::map]: ascending keys. *)
Definition key_le {V} (a b : N * V) : Prop := fst a <= fst b.

#[local] Instance key_le_dec {V} (a b : N * V) : Decision (key_le a b).
Proof. unfold key_le. apply _. Defined.

Definition ordered_entries {V} (m : gmap N V) : list (N * V) :=
  merge_sort key_le (map_to_list m).

(** A range-[for] whose body may throw. *)
Fixpoint for_each {A S} (l : list A) (s : S) (body : A -> S -> Orch S) : Orch S :=
  match l with
  | [] => oret s
  | a :: rest => orch s' <~ body a s; for_each rest s' body
  end.

(** The scan of [allDevices] for one port: the class identifiers of
    the records whose hardware id contains the pattern, and the last
    of them whose driver key is the port's. *)
Fixpoint match_devices (vidPidPattern driverKeyName : wstring)
    (allDevices : list DevInfoData.DevInfoData)
    (matchedGuids : list DevInfoData.GUID)
    (usbBusLayerDevice : option DevInfoData.DevInfoData)
    : list DevInfoData.GUID * option DevInfoData.DevInfoData :=
  match allDevices with
  | [] => (matchedGuids, usbBusLayerDevice)
  | device :: rest =>
      let hardwareId := DevInfoData.GetHardwareId device in
      if bool_decide (hardwareId = []) || negb (wfind hardwareId vidPidPattern) then
        match_devices vidPidPattern driverKeyName rest matchedGuids usbBusLayerDevice
      else
        match_devices vidPidPattern driverKeyName rest
          (matchedGuids ++ [DevInfoData.GetClassGuid device])
          (if negb (bool_decide (DevInfoData.GetDriverKeyName device = [])) &&
              bool_decide (driverKeyName = DevInfoData.GetDriverKeyName device)
           then Some device
           else usbBusLayerDevice)
  end.

Definition select_best_guid (matchedGuids : list DevInfoData.GUID)
    : option DevInfoData.GUID :=
  match matchedGuids with
  | [] => None
  | front :: _ =>
      if (1 <? length matchedGuids)%nat then
        match List.find (fun guid => negb (guid =? GUID_DEVINTERFACE_USB_DEVICE))
                matchedGuids with
        | Some guid => Some guid
        | None => Some front
        end
      else Some front
  end.

(** The body of the loop over the ports.  [recurse] is
    [EnumeratePortsFromRootHub] itself, for a child hub. *)
Definition process_port (fuel : nat) (recurse : wstring -> Orch unit)
    (allDevices : list DevInfoData.DevInfoData)
    (entry : N * HubConnectionInfo) (st : UsbHub.UsbHub * PortMaps)
    : Orch (UsbHub.UsbHub * PortMaps) :=
  let '(portNumber, connectionInfo) := entry in
  let '(usbHub, maps) := st in
  if _connectionStatus connectionInfo =? NoDeviceConnected then oret st
  else
    let descriptor := _deviceDescriptor connectionInfo in
    let vidPidPattern := BuildVidPidPattern (idVendor descriptor) (idProduct descriptor) in
    let '(matchedGuids, usbBusLayerDevice) :=
      match_devices vidPidPattern (_driverKeyName connectionInfo) allDevices [] None in
    let maps' :=
      {| deviceClassMap :=
           try_emplace portNumber (bDeviceClass descriptor) (deviceClassMap maps);
         vendorIdMap := try_emplace portNumber (idVendor descriptor) (vendorIdMap maps);
         productIdMap := try_emplace portNumber (idProduct descriptor) (productIdMap maps);
         setupClassGuidMap :=
           match select_best_guid matchedGuids with
           | Some bestGuid => UsbHub.emplace portNumber bestGuid (setupClassGuidMap maps)
           | None => setupClassGuidMap maps
           end |} in
    match usbBusLayerDevice with
    | Some busDevice =>
        if negb (_deviceIsHub connectionInfo =? 0) then
          orch devicePath <~ lift (DevInfoData.PopulateUsbInfo_path busDevice);
          orch _u <~ recurse devicePath;
          oret (usbHub, maps')
        else
          orch usbHub' <~
            lift_fuel (UsbHub.FillConfigDescriptor fuel usbHub descriptor
                         (_connectionIndex connectionInfo) 0);
          oret (usbHub', maps')
    | None => oret (usbHub, maps')
    end.

(** The registry fallback for the product name. *)
Fixpoint registry_description (pattern : wstring)
    (allDevices : list DevInfoData.DevInfoData) : option wstring :=
  match allDevices with
  | [] => None
  | device :: rest =>
      if ContainsIgnoreCase (DevInfoData.GetHardwareId device) pattern then
        let deviceDesc := DevInfoData.GetDeviceDescription device in
        if negb (bool_decide (deviceDesc = [])) then Some deviceDesc
        else registry_description pattern rest
      else registry_description pattern rest
  end.

(** The class identifier of the first record whose description
    contains the product name. *)
Fixpoint functional_guid (productName : wstring)
    (allDevices : list DevInfoData.DevInfoData) : option DevInfoData.GUID :=
  match allDevices with
  | [] => None
  | device :: rest =>
      let deviceDesc := DevInfoData.GetDeviceDescription device in
      if negb (bool_decide (deviceDesc = [])) && wfind deviceDesc productName
      then Some (DevInfoData.GetClassGuid device)
      else functional_guid productName rest
  end.

(** The body of the loop over the collected descriptor records. *)
Definition build_result (env : Env) (allDevices : list DevInfoData.DevInfoData)
    (entry : N * UsbHub.UsbDeviceDescriptorInfo) (maps : PortMaps) : Orch PortMaps :=
  let '(portNum, deviceDescInfo) := entry in
  let manufacturer := UsbHub._manufacturer deviceDescInfo in
  let product0 := UsbHub._product deviceDescInfo in
  let product :=
    if bool_decide (manufacturer = []) && bool_decide (product0 = []) then
      match vendorIdMap maps !! portNum, productIdMap maps !! portNum with
      | Some vendor, Some productId =>
          match registry_description (BuildVidPidPattern vendor productId) allDevices with
          | Some deviceDesc => deviceDesc
          | None => product0
          end
      | _, _ => product0
      end
    else product0 in
  let productName :=
    if bool_decide (product0 = []) && negb (bool_decide (product = [])) then product
    else product0 in
  let guids :=
    if negb (bool_decide (productName = [])) then
      match functional_guid productName allDevices with
      | Some functionalGuid => <[portNum := functionalGuid]> (setupClassGuidMap maps)
      | None => setupClassGuidMap maps
      end
    else setupClassGuidMap maps in
  let interfaceClass := UsbHub.GetInterfaceClass deviceDescInfo in
  let deviceClass :=
    match deviceClassMap maps !! portNum with Some c => c | None => 0 end in
  let resultInfo :=
    {| manufacturer_ := manufacturer;
       product_ := product;
       serialNumber_ := UsbHub._serialNumber deviceDescInfo;
       description_ := [];
       deviceId_ := [];
       friendlyName_ := [];
       devicePath_ := [];
       vendorName_ :=
         match vendorIdMap maps !! portNum with
         | Some v => GetVendorStringById env (to_USHORT v)
         | None => []
         end;
       interfaceClassName_ :=
         if negb (interfaceClass =? 0xFF) then
           UtilConvert.GetUsbClassNameByDescId interfaceClass
         else if negb (deviceClass =? 0) then
           UtilConvert.GetUsbClassNameByDescId deviceClass
         else [];
       deviceClass_ := deviceClass;
       interfaceClass_ := interfaceClass;
       setupClassGuid_ := match guids !! portNum with Some g => g | None => 0 end;
       vendorId_ := match vendorIdMap maps !! portNum with Some v => v | None => 0 end;
       productId_ := match productIdMap maps !! portNum with Some v => v | None => 0 end;
       isUsbDevice_ := true;
       isConnected_ := true |} in
  orch _u <~ AddDeviceInfo resultInfo;
  oret (set_setupClassGuidMap maps guids).

Fixpoint EnumeratePortsFromRootHub (fuel : nat) (env : Env) (hubName : wstring)
    (allDevices : list DevInfoData.DevInfoData) {struct fuel} : Orch unit :=
  match fuel with
  | O => out_of_fuel
  | S fuel' =>
      orch usbHub0 <~ lift (UsbHub.new (os env) hubName);
      orch usbHub <~ lift (UsbHub.PopulateInfo usbHub0);
      orch st <~
        for_each (ordered_entries (UsbHub._hubPortConnectionInfo usbHub))
          (usbHub, empty_maps)
          (process_port fuel'
             (fun devicePath => EnumeratePortsFromRootHub fuel' env devicePath allDevices)
             allDevices);
      orch _m <~
        for_each (ordered_entries (UsbHub._usbDeviceDescriptionInfo (fst st)))
          (snd st) (build_result env allDevices);
      oret tt
  end.

(** The body of the loop over the host controllers. *)
Definition process_controller (fuel : nat) (env : Env)
    (allUsbDevices : list DevInfoData.DevInfoData)
    (controller : DevInfoData.DevInfoData) (_s : unit) : Orch unit :=
  orch devicePath <~ lift (DevInfoData.PopulateUsbControllerInfo_path controller);
  orch deviceCommunication <~ lift (DeviceCommunication.open (os env) devicePath);
  orch hostController <~ lift (UsbHostController.PopulateInfo deviceCommunication);
  let rootHubPath :=
    [92; 92; 46; 92] ++ UsbHostController._rootHubName hostController in
  EnumeratePortsFromRootHub fuel env rootHubPath allUsbDevices.

Definition EnumerateUsbDevices (fuel : nat) (env : Env) : Orch unit :=
  orch _c <~ ClearDevices;
  orch allUsbDevices <~ lift (allUsbDevices env);
  orch controllers <~ lift (controllers env);
  for_each controllers tt (process_controller fuel env allUsbDevices).

End Impl.

(* ===================================================================== *)
(** * DeviceProperty.cpp, DeviceEnumerator.cpp                           *)
(* ===================================================================== *)

(** SetupAPI as the library sees it. *)
Module SetupApi.
Import Exn.

Definition ERROR_INSUFFICIENT_BUFFER : N := 122.
Definition ERROR_NO_MORE_ITEMS : N := 259.

Definition SPDRP_DEVICEDESC : N := 0x00.
Definition SPDRP_HARDWAREID : N := 0x01.
Definition SPDRP_DRIVER : N := 0x09.
Definition SPDRP_MFG : N := 0x0B.
Definition SPDRP_FRIENDLYNAME : N := 0x0C.

Definition DIGCF_PRESENT : N := 0x02.

Definition PowerDeviceUnspecified : N := 0.

(** The two answers of [SetupDiGetDeviceRegistryPropertyW] for one
    property of one device: the size probe (no buffer) leaves the
    required size and the last error; the call with a buffer of that
    size fails, or fills the buffer with wide characters. *)
Record RegistryProperty : Type := {
  rp_requiredSize : N;
  rp_probeError : N;
  rp_value : option (list N)
}.

(** [SP_DEVINFO_DATA] together with what SetupAPI answers about the
    device it names: its registry properties, its power data
    ([PD_MostRecentPowerState], when the query succeeds), and the
    device path of its hub or host-controller interface as
    [DeviceInfo] works it out. *)
Record SP_DEVINFO_DATA : Type := {
  ClassGuid : DevInfoData.GUID;
  registry_property : N -> RegistryProperty;
  power_data : option N;
  usb_interface_path : Result wstring;
  controller_interface_path : Result wstring
}.

(** A device information set: [SetupDiEnumDeviceInfo] by member
    index yields a device or fails with a last error; [zeroed] is
    what SetupAPI answers about a zero-filled [SP_DEVINFO_DATA]. *)
Record HDEVINFO : Type := {
  SetupDiEnumDeviceInfo : N -> SP_DEVINFO_DATA + N;
  zeroed : SP_DEVINFO_DATA
}.

(** [SetupDiGetClassDevsW] by class identifier and flags: a set, or
    [INVALID_HANDLE_VALUE] and a last error.  [heap size] tells
    whether [std::make_unique<BYTE[]>(size)] succeeds. *)
Record SetupApi : Type := {
  SetupDiGetClassDevsW : DevInfoData.GUID -> N -> HDEVINFO + N;
  heap : N -> bool
}.

End SetupApi.

Module DeviceProperty.
Import Exn SetupApi.

Definition GetPowerState (_deviceInfoData : SP_DEVINFO_DATA) : N :=
  match power_data _deviceInfoData with
  | Some PD_MostRecentPowerState => PD_MostRecentPowerState
  | None => PowerDeviceUnspecified
  end.

(** The lambda [queryRequiredSize]: both remaining cases give
    [std::nullopt]. *)
Definition queryRequiredSize (_deviceInfoData : SP_DEVINFO_DATA) (property : N)
    : option N :=
  let answer := registry_property _deviceInfoData property in
  if (0 <? rp_requiredSize answer) &&
     (rp_probeError answer =? ERROR_INSUFFICIENT_BUFFER)
  then Some (rp_requiredSize answer)
  else None.

(** [GetStringProperty(property, resultValue)]: the [bool] result
    and the value of [resultValue] afterwards. *)
Definition GetStringProperty (api : SetupApi) (_deviceInfoData : SP_DEVINFO_DATA)
    (property : N) (resultValue : wstring) : Result (bool * wstring) :=
  match queryRequiredSize _deviceInfoData property with
  | None => Ok (false, resultValue)
  | Some bufferSize =>
      if negb (heap api bufferSize) then Throw BadAlloc
      else
        match rp_value (registry_property _deviceInfoData property) with
        | None => Ok (false, resultValue)
        | Some buffer => Ok (true, wstring_of_wchars buffer)
        end
  end.

(** [if (std::wstring s; reader.GetStringProperty(property, s)) set(s)]
    on a field that is empty so far: the new value of the field. *)
Definition read_property (api : SetupApi) (_deviceInfoData : SP_DEVINFO_DATA)
    (property : N) : Result wstring :=
  try r <~ GetStringProperty api _deviceInfoData property [];
  Ok (if fst r then snd r else []).

End DeviceProperty.

Module DeviceEnumerator.
Import Sdk Exn SetupApi DeviceProperty.

(** A [DevInfoData] object as [GetDeviceInstances] makes it: the
    record that the enumeration reads, its power state, and the
    [SP_DEVINFO_DATA] it was made from. *)
Record DeviceInstance : Type := {
  data : DevInfoData.DevInfoData;
  _powerState : N;
  _devInfoData : SP_DEVINFO_DATA
}.

(** The constructor. *)
Definition new (api : SetupApi) (guid : DevInfoData.GUID) (options : N)
    : Result HDEVINFO :=
  match SetupDiGetClassDevsW api guid options with
  | inl devInfoHandle => Ok devInfoHandle
  | inr lastError => Throw (ResultException (HRESULT_FROM_WIN32 lastError))
  end.

(** [DevInfoData deviceData(...); populateDeviceProperties(...)]. *)
Definition populateDeviceProperties (api : SetupApi) (spDevInfo : SP_DEVINFO_DATA)
    : Result DeviceInstance :=
  try driverKey <~ read_property api spDevInfo SPDRP_DRIVER;
  try description <~ read_property api spDevInfo SPDRP_DEVICEDESC;
  try hardwareId <~ read_property api spDevInfo SPDRP_HARDWAREID;
  Ok {| data :=
          {| DevInfoData._hardwareId := hardwareId;
             DevInfoData._driverKeyName := driverKey;
             DevInfoData._classGuid := ClassGuid spDevInfo;
             DevInfoData._deviceDescription := description;
             DevInfoData.PopulateUsbInfo_path := usb_interface_path spDevInfo;
             DevInfoData.PopulateUsbControllerInfo_path :=
               controller_interface_path spDevInfo |};
        _powerState := GetPowerState spDevInfo;
        _devInfoData := spDevInfo |}.

(** The loop of [GetDeviceInstances]; [deviceIndex] is a [ULONG].
    [THROW_IF_WIN32_ERROR_MSG] throws on any value other than zero; on
    zero the loop goes on with the zero-filled structure.  [None]:
    the set has more members than the fuel allows for. *)
Fixpoint GetDeviceInstances_loop (fuel : nat) (api : SetupApi) (_hDevInfo : HDEVINFO)
    (deviceIndex : N) (deviceInstances : list DeviceInstance)
    : option (Result (list DeviceInstance)) :=
  match fuel with
  | O => None
  | S fuel' =>
      let next spDevInfoData :=
        match populateDeviceProperties api spDevInfoData with
        | Throw e => Some (Throw e)
        | Ok deviceData =>
            GetDeviceInstances_loop fuel' api _hDevInfo (to_ULONG (deviceIndex + 1))
              (deviceInstances ++ [deviceData])
        end in
      match SetupDiEnumDeviceInfo _hDevInfo deviceIndex with
      | inl spDevInfoData => next spDevInfoData
      | inr errorCode =>
          if errorCode =? ERROR_NO_MORE_ITEMS then Some (Ok deviceInstances)
          else if negb (errorCode =? 0) then
            Some (Throw (ResultException (HRESULT_FROM_WIN32 errorCode)))
          else next (zeroed _hDevInfo)
      end
  end.

Definition GetDeviceInstances (fuel : nat) (api : SetupApi) (_hDevInfo : HDEVINFO)
    : option (Result (list DeviceInstance)) :=
  GetDeviceInstances_loop fuel api _hDevInfo 0 [].

End DeviceEnumerator.

(** [DevicesManager::Impl::EnumerateByDeviceClass]. *)
Module ImplByClass.
Import Sdk Exn DevicesManager Impl SetupApi DeviceProperty DeviceEnumerator.

(** A default-constructed [DeviceResultantInfo]. *)
Definition default_DeviceResultantInfo : DeviceResultantInfo :=
  {| manufacturer_ := []; product_ := []; serialNumber_ := []; description_ := [];
     deviceId_ := []; friendlyName_ := []; devicePath_ := []; vendorName_ := [];
     interfaceClassName_ := []; deviceClass_ := 0; interfaceClass_ := 0xFF;
     setupClassGuid_ := 0; vendorId_ := 0; productId_ := 0;
     isUsbDevice_ := false; isConnected_ := false |}.

(** The body of the inner [try] up to [AddDeviceInfo]: the record of
    one device.  The nested [try] around [PopulateUsbInfo] turns its
    failure into [isUsbDevice = false]. *)
Definition class_device_record (api : SetupApi) (deviceClassGuid : DevInfoData.GUID)
    (devInfoData : DeviceInstance) : Result DeviceResultantInfo :=
  let spDevInfo := _devInfoData devInfoData in
  try desc <~ read_property api spDevInfo SPDRP_DEVICEDESC;
  try friendlyName <~ read_property api spDevInfo SPDRP_FRIENDLYNAME;
  try mfg <~ read_property api spDevInfo SPDRP_MFG;
  try hwId <~ read_property api spDevInfo SPDRP_HARDWAREID;
  let usb := usb_interface_path spDevInfo in
  Ok {| manufacturer_ := mfg;
        product_ := [];
        serialNumber_ := [];
        description_ := desc;
        deviceId_ := hwId;
        friendlyName_ := friendlyName;
        devicePath_ := match usb with Ok devicePath => devicePath | Throw _ => [] end;
        vendorName_ := [];
        interfaceClassName_ := [];
        deviceClass_ := 0;
        interfaceClass_ := 0xFF;
        setupClassGuid_ := deviceClassGuid;
        vendorId_ := 0;
        productId_ := 0;
        isUsbDevice_ := match usb with Ok _ => true | Throw _ => false end;
        isConnected_ := true |}.

(** The body of the loop over the devices: the inner
    [catch (const std::exception&)] drops the device. *)
Definition process_class_device (api : SetupApi) (deviceClassGuid : DevInfoData.GUID)
    (devInfoData : DeviceInstance) (_s : unit) : Orch unit :=
  match class_device_record api deviceClassGuid devInfoData with
  | Ok resultInfo => AddDeviceInfo resultInfo
  | Throw _ => oret tt
  end.

(** The outer [catch] logs and rethrows. *)
Definition EnumerateByDeviceClass (fuel : nat) (api : SetupApi)
    (deviceClassGuid : DevInfoData.GUID) : Orch unit :=
  orch _c <~ ClearDevices;
  orch enumerator <~ lift (DeviceEnumerator.new api deviceClassGuid DIGCF_PRESENT);
  orch devices <~ lift_fuel (GetDeviceInstances fuel api enumerator);
  for_each devices tt (process_class_device api deviceClassGuid).

End ImplByClass.

(* ===================================================================== *)
(** * UsbClassCodes.h, WinDevicesAPI.cpp                                 *)
(* ===================================================================== *)

Module UsbClassCodes.

Definition MassStorage : N := 0x08.

Definition IsMassStorageClass (usbClass : N) : bool := usbClass =? MassStorage.

End UsbClassCodes.

Module WinDevicesAPI.
Import Exn DevicesManager Impl UsbClassCodes.

Inductive WD_RESULT : Type :=
| WD_SUCCESS
| WD_ERROR_INVALID_HANDLE
| WD_ERROR_OUT_OF_MEMORY
| WD_ERROR_NO_DEVICES
| WD_ERROR_ENUM_FAILED
| WD_ERROR_INVALID_INDEX
| WD_ERROR_NULL_POINTER
| WD_ERROR_UNKNOWN.

(** [DeviceManagerWrapper].  [manager] is the device list of the
    manager object; [lastError] holds the exception whose text the
    wrapper stores, [None] for the empty string. *)
Record DeviceManagerWrapper : Type := {
  manager : list DeviceResultantInfo;
  devices : list DeviceResultantInfo;
  lastError : option exn;
  vendorIdFilter : N;
  deviceClassFilter : N
}.

(** [HDEVICE_MANAGER]: [None] is the null pointer. *)
Definition HDEVICE_MANAGER : Type := option DeviceManagerWrapper.

Definition IsValidHandle (handle : HDEVICE_MANAGER) : bool :=
  match handle with Some _ => true | None => false end.

(** The shape shared by the enumerating entry points:
    [devices.clear()], the enumeration on the manager, then [finish]
    on a copy of the manager's list; an exception is stored and
    reported as [WD_ERROR_UNKNOWN]. *)
Definition enumerate_with (wrapper : DeviceManagerWrapper)
    (enumeration : Orch unit)
    (finish : list DeviceResultantInfo -> list DeviceResultantInfo)
    : option (WD_RESULT * HDEVICE_MANAGER) :=
  match enumeration (manager wrapper) with
  | None => None
  | Some (Ok _, list) =>
      Some (WD_SUCCESS,
            Some {| manager := list; devices := finish list;
                    lastError := lastError wrapper;
                    vendorIdFilter := vendorIdFilter wrapper;
                    deviceClassFilter := deviceClassFilter wrapper |})
  | Some (Throw e, list) =>
      Some (WD_ERROR_UNKNOWN,
            Some {| manager := list; devices := [];
                    lastError := Some e;
                    vendorIdFilter := vendorIdFilter wrapper;
                    deviceClassFilter := deviceClassFilter wrapper |})
  end.

Definition WD_EnumerateUsbDevices (fuel : nat) (env : Env) (handle : HDEVICE_MANAGER)
    : option (WD_RESULT * HDEVICE_MANAGER) :=
  match handle with
  | None => Some (WD_ERROR_INVALID_HANDLE, None)
  | Some wrapper => enumerate_with wrapper (EnumerateUsbDevices fuel env) (fun l => l)
  end.

(** "For now, just enumerate USB devices". *)
Definition WD_EnumerateAllDevices (fuel : nat) (env : Env) (handle : HDEVICE_MANAGER)
    : option (WD_RESULT * HDEVICE_MANAGER) :=
  match handle with
  | None => Some (WD_ERROR_INVALID_HANDLE, None)
  | Some wrapper => enumerate_with wrapper (EnumerateUsbDevices fuel env) (fun l => l)
  end.

(** [classGuid] is a pointer: [None] is null. *)
Definition WD_EnumerateByDeviceClass (fuel : nat) (api : SetupApi.SetupApi)
    (handle : HDEVICE_MANAGER) (classGuid : option DevInfoData.GUID)
    : option (WD_RESULT * HDEVICE_MANAGER) :=
  match handle with
  | None => Some (WD_ERROR_INVALID_HANDLE, None)
  | Some wrapper =>
      match classGuid with
      | None => Some (WD_ERROR_NULL_POINTER, handle)
      | Some deviceClassGuid =>
          enumerate_with wrapper
            (ImplByClass.EnumerateByDeviceClass fuel api deviceClassGuid) (fun l => l)
      end
  end.

Definition WD_EnumerateUsbMassStorage (fuel : nat) (env : Env)
    (handle : HDEVICE_MANAGER) : option (WD_RESULT * HDEVICE_MANAGER) :=
  match handle with
  | None => Some (WD_ERROR_INVALID_HANDLE, None)
  | Some wrapper =>
      enumerate_with wrapper (EnumerateUsbDevices fuel env)
        (List.filter (fun device =>
                        IsMassStorageClass (interfaceClass_ device) ||
                        IsMassStorageClass (deviceClass_ device)))
  end.

(** [static_cast<int>]. *)
Definition to_int (n : N) : Z :=
  let z := (Z.of_N n mod 2 ^ 32)%Z in
  if (z <? 2 ^ 31)%Z then z else (z - 2 ^ 32)%Z.

(** [count] is a pointer: the second argument tells whether it is
    non-null; the result carries the value written through it. *)
Definition WD_GetDeviceCount (handle : HDEVICE_MANAGER) (count : bool)
    : WD_RESULT * option Z :=
  match handle with
  | None => (WD_ERROR_INVALID_HANDLE, None)
  | Some wrapper =>
      if negb count then (WD_ERROR_NULL_POINTER, None)
      else (WD_SUCCESS, Some (to_int (N.of_nat (length (devices wrapper)))))
  end.

Definition WD_ClearDevices (handle : HDEVICE_MANAGER) : WD_RESULT * HDEVICE_MANAGER :=
  match handle with
  | None => (WD_ERROR_INVALID_HANDLE, None)
  | Some wrapper =>
      (WD_SUCCESS,
       Some {| manager := manager wrapper; devices := []; lastError := None;
               vendorIdFilter := vendorIdFilter wrapper;
               deviceClassFilter := deviceClassFilter wrapper |})
  end.

Definition WD_FilterByVendorId (handle : HDEVICE_MANAGER) (vendorId : N)
    : WD_RESULT * HDEVICE_MANAGER :=
  match handle with
  | None => (WD_ERROR_INVALID_HANDLE, None)
  | Some wrapper =>
      (WD_SUCCESS,
       Some {| manager := manager wrapper; devices := devices wrapper;
               lastError := lastError wrapper;
               vendorIdFilter := vendorId;
               deviceClassFilter := deviceClassFilter wrapper |})
  end.

Definition WD_FilterByDeviceClass (handle : HDEVICE_MANAGER) (deviceClass : N)
    : WD_RESULT * HDEVICE_MANAGER :=
  match handle with
  | None => (WD_ERROR_INVALID_HANDLE, None)
  | Some wrapper =>
      (WD_SUCCESS,
       Some {| manager := manager wrapper; devices := devices wrapper;
               lastError := lastError wrapper;
               vendorIdFilter := vendorIdFilter wrapper;
               deviceClassFilter := deviceClass |})
  end.

End WinDevicesAPI.

(* ===================================================================== *)
(** * Vocabulary of the statements                                       *)
(* ===================================================================== *)

Module ParserProps.
Import Sdk Rd UsbDescriptorParser.

(** A buffer from the values of its bytes. *)
Definition bytes (l : list N) : Mem :=
  map (fun n => match Byte.of_N n with Some b => b | None => x00 end) l.

(** The verdict of [IsDescriptorInBounds] as a function of the buffer,
    and what it adds to the log. *)
Definition in_bounds (mem : Mem) (p e : N) : bool :=
  (p + 2 <=? e) && (p + byte_at mem p <=? e) && negb (byte_at mem p =? 0).

Definition in_bounds_log (mem : Mem) (p e : N) (log : list N) : list N :=
  if e <? p + 2 then log
  else if e <? p + byte_at mem p then p :: log
  else p :: p :: log.

(** The sub-descriptor chain of a buffer: [reaches mem e over p q]
    when stepping from [p] by declared lengths, over descriptors that
    lie within the end [e] and satisfy [over], arrives at [q]. *)
Inductive reaches (mem : Mem) (e : N) (over : N -> bool) : N -> N -> Prop :=
| reaches_here p : reaches mem e over p p
| reaches_step p q :
    in_bounds mem p e = true ->
    over p = true ->
    reaches mem e over (p + byte_at mem p) q ->
    reaches mem e over p q.

(** [q] is a position of the chain that starts at [p]. *)
Definition chain_reaches (mem : Mem) (e : N) : N -> N -> Prop :=
  reaches mem e (fun _ => true).

(** [q] is a position of the chain, and no descriptor before it is
    tagged as an interface: the walk of [ExtractInterfaceClass] gets
    as far as [q]. *)
Definition not_interface (mem : Mem) (p : N) : bool :=
  negb (byte_at mem (p + 1) =? USB_INTERFACE_DESCRIPTOR_TYPE).

Definition walk_reaches (mem : Mem) (e : N) : N -> N -> Prop :=
  reaches mem e (not_interface mem).

(** The offset of the first sub-descriptor: the header's [bLength]. *)
Definition first_sub_descriptor (mem : Mem) : N := byte_at mem 0.

(** Every logged read lies below the declared end of the buffer. *)
Definition reads_within (declared_end : N) (log : list N) : Prop :=
  Forall (fun off => off < declared_end) log.

(** A 9-byte configuration header declaring 11 bytes, followed by a
    2-byte descriptor tagged as an interface; five more bytes of
    memory lie behind the declared end. *)
Definition truncated_interface : Mem :=
  bytes [9; 2; 11; 0; 1; 1; 0; 0x80; 50;   2; 4;   0; 0; 0; 8; 0].

(** The same with the 2-byte descriptor tagged as a configuration. *)
Definition truncated_configuration : Mem :=
  bytes [9; 2; 11; 0; 1; 1; 0; 0x80; 50;   2; 2;   0; 0; 0; 0; 7].

(** Header, a HID interface descriptor, then a descriptor of length 0;
    29 bytes declared. *)
Definition interface_then_zero_length : Mem :=
  bytes [9; 2; 29; 0; 1; 1; 0; 0x80; 50;
         9; 4; 0; 0; 1; 3; 1; 1; 0;
         0; 5; 0; 0; 0; 0; 0; 0; 0; 0; 0].

(** Header, an endpoint descriptor, then a descriptor of length 0. *)
Definition endpoint_then_zero_length : Mem :=
  bytes [9; 2; 27; 0; 1; 1; 0; 0x80; 50;
         7; 5; 0x81; 3; 8; 0; 10;
         0; 4; 0; 0; 0; 3; 0; 0; 0; 0; 0].

End ParserProps.

Module TransportProps.
Import Sdk Exn DeviceCommunication.

(** The kernel's answers to the three connection queries of a port. *)
Definition primary_answer (comm : DeviceCommunication) (p : N)
    : Ioctl USB_NODE_CONNECTION_INFORMATION_EX :=
  DeviceIoControl comm
    (fun d => IOCTL_USB_GET_NODE_CONNECTION_INFORMATION_EX d (to_ULONG p))
    (zero_connection_information_ex p).

Definition legacy_answer (comm : DeviceCommunication) (p : N)
    : Ioctl USB_NODE_CONNECTION_INFORMATION :=
  DeviceIoControl comm
    (fun d => IOCTL_USB_GET_NODE_CONNECTION_INFORMATION d (to_ULONG p))
    (zero_connection_information p).

(** The primary or the legacy query of the port succeeds. *)
Definition port_answers (comm : DeviceCommunication) (p : N) : bool :=
  io_ok (primary_answer comm p) || io_ok (legacy_answer comm p).

(** The kernel's answer to the V2 query of a port. *)
Definition v2_answer (comm : DeviceCommunication) (p : N)
    : Ioctl USB_NODE_CONNECTION_INFORMATION_EX_V2 :=
  DeviceIoControl comm
    (fun d => IOCTL_USB_GET_NODE_CONNECTION_INFORMATION_EX_V2 d (to_ULONG p))
    {| v2_ConnectionIndex := to_ULONG p; v2_Length := 16;
       v2_SupportedUsbProtocols := 4; v2_Flags := 0 |}.

(** The V2 query of the port succeeded: the kernel call returned true
    and at least the 16 bytes of the structure. *)
Definition v2_query_succeeded (comm : DeviceCommunication) (p : N) : bool :=
  io_ok (v2_answer comm p) && (16 <=? io_bytes (v2_answer comm p)).

(** The V2 query of the port succeeded, and bit 0
    (SuperSpeed-or-higher) or bit 2 (SuperSpeedPlus-or-higher) of the
    flags the kernel returned is set. *)
Definition v2_reports_super_speed (comm : DeviceCommunication) (p : N) : bool :=
  v2_query_succeeded comm p &&
  (N.testbit (v2_Flags (io_out (v2_answer comm p))) 0 ||
   N.testbit (v2_Flags (io_out (v2_answer comm p))) 2).

(** The device address in the answer that fills the port's entry. *)
Definition reported_address (comm : DeviceCommunication) (p : N) : N :=
  if io_ok (primary_answer comm p) then ex_DeviceAddress (io_out (primary_answer comm p))
  else ci_DeviceAddress (io_out (legacy_answer comm p)).

(** What the loop stores for a port, if anything. *)
Definition stored_entry (comm : DeviceCommunication) (p : N)
    : option HubConnectionInfo :=
  let r := primary_answer comm p in
  if io_ok r then
    match populateConnectionInfo comm default_HubConnectionInfo (io_out r) p
            (queryConnectionInfoV2 comm p) with
    | Ok info =>
        Some (resolve_driver_key comm p info
                (negb (ex_ConnectionStatus (io_out r) =? NoDeviceConnected)))
    | Throw _ => None
    end
  else
    match queryLegacyConnectionInfo comm p with
    | Ok (Some (info, connected)) => Some (resolve_driver_key comm p info connected)
    | _ => None
    end.

(** An unsupported query: the call fails or returns fewer bytes than
    the structure has. *)
Definition unsupported {T} (r : Ioctl T) (size : N) : bool :=
  negb (io_ok r) || (io_bytes r <? size).

Definition hub_information_ex_answer (comm : DeviceCommunication) :=
  DeviceIoControl comm IOCTL_USB_GET_HUB_INFORMATION_EX {| HighestPortNumber := 0 |}.

Definition hub_capabilities_ex_answer (comm : DeviceCommunication) :=
  DeviceIoControl comm IOCTL_USB_GET_HUB_CAPABILITIES_EX {| CapabilityFlags := 0 |}.

Definition external_hub_name_probe (comm : DeviceCommunication) (index : N) :=
  DeviceIoControl comm
    (fun d => IOCTL_USB_GET_NODE_CONNECTION_NAME d index sizeof_USB_NODE_CONNECTION_NAME)
    (zero_name index).

(** ** Sample drivers *)

Definition failed {T} (lastError : N) (buffer : T) : Ioctl T :=
  mkIoctl false 0 buffer lastError.

Definition succeeded {T} (bytes : N) (out : T) : Ioctl T := mkIoctl true bytes out 0.

Definition ERROR_INVALID_FUNCTION : N := 1.
Definition ERROR_GEN_FAILURE : N := 31.

(** A driver that rejects every request. *)
Definition deaf_driver : Driver :=
  {| IOCTL_USB_GET_NODE_INFORMATION := failed ERROR_INVALID_FUNCTION zero_node_information;
     IOCTL_USB_GET_HUB_INFORMATION_EX :=
       failed ERROR_INVALID_FUNCTION {| HighestPortNumber := 0 |};
     IOCTL_USB_GET_HUB_CAPABILITIES_EX :=
       failed ERROR_INVALID_FUNCTION {| CapabilityFlags := 0 |};
     IOCTL_USB_GET_PORT_CONNECTOR_PROPERTIES :=
       fun p _ => failed ERROR_INVALID_FUNCTION (zero_connector_properties p);
     IOCTL_USB_GET_NODE_CONNECTION_INFORMATION_EX_V2 :=
       fun p => failed ERROR_INVALID_FUNCTION
                  {| v2_ConnectionIndex := p; v2_Length := 16;
                     v2_SupportedUsbProtocols := 4; v2_Flags := 0 |};
     IOCTL_USB_GET_NODE_CONNECTION_INFORMATION_EX :=
       fun p => failed ERROR_GEN_FAILURE (zero_connection_information_ex p);
     IOCTL_USB_GET_NODE_CONNECTION_INFORMATION :=
       fun p => failed ERROR_GEN_FAILURE (zero_connection_information p);
     IOCTL_USB_GET_NODE_CONNECTION_DRIVERKEY_NAME :=
       fun p _ => failed ERROR_GEN_FAILURE (zero_name p);
     IOCTL_USB_GET_NODE_CONNECTION_NAME :=
       fun p _ => failed ERROR_GEN_FAILURE (zero_name p);
     IOCTL_USB_GET_DESCRIPTOR_FROM_NODE_CONNECTION :=
       fun _ _ _ _ => failed ERROR_GEN_FAILURE [];
     IOCTL_USB_USER_REQUEST :=
       failed ERROR_INVALID_FUNCTION
         {| NumberOfRootPorts := 0; PciVendorId := 0; PciDeviceId := 0;
            PciRevision := 0 |};
     IOCTL_USB_GET_ROOT_HUB_NAME :=
       fun _ => failed ERROR_INVALID_FUNCTION {| hn_ActualLength := 0; hn_Name := [] |};
     IOCTL_GET_HCD_DRIVERKEY_NAME :=
       fun _ => failed ERROR_INVALID_FUNCTION {| hn_ActualLength := 0; hn_Name := [] |} |}.

(** [d] with other answers to the primary, V2 and legacy connection
    queries. *)
Definition with_connections (d : Driver)
    (v2 : N -> Ioctl USB_NODE_CONNECTION_INFORMATION_EX_V2)
    (ex : N -> Ioctl USB_NODE_CONNECTION_INFORMATION_EX)
    (legacy : N -> Ioctl USB_NODE_CONNECTION_INFORMATION) : Driver :=
  {| IOCTL_USB_GET_NODE_INFORMATION := IOCTL_USB_GET_NODE_INFORMATION d;
     IOCTL_USB_GET_HUB_INFORMATION_EX := IOCTL_USB_GET_HUB_INFORMATION_EX d;
     IOCTL_USB_GET_HUB_CAPABILITIES_EX := IOCTL_USB_GET_HUB_CAPABILITIES_EX d;
     IOCTL_USB_GET_PORT_CONNECTOR_PROPERTIES := IOCTL_USB_GET_PORT_CONNECTOR_PROPERTIES d;
     IOCTL_USB_GET_NODE_CONNECTION_INFORMATION_EX_V2 := v2;
     IOCTL_USB_GET_NODE_CONNECTION_INFORMATION_EX := ex;
     IOCTL_USB_GET_NODE_CONNECTION_INFORMATION := legacy;
     IOCTL_USB_GET_NODE_CONNECTION_DRIVERKEY_NAME :=
       IOCTL_USB_GET_NODE_CONNECTION_DRIVERKEY_NAME d;
     IOCTL_USB_GET_NODE_CONNECTION_NAME := IOCTL_USB_GET_NODE_CONNECTION_NAME d;
     IOCTL_USB_GET_DESCRIPTOR_FROM_NODE_CONNECTION :=
       IOCTL_USB_GET_DESCRIPTOR_FROM_NODE_CONNECTION d;
     IOCTL_USB_USER_REQUEST := IOCTL_USB_USER_REQUEST d;
     IOCTL_USB_GET_ROOT_HUB_NAME := IOCTL_USB_GET_ROOT_HUB_NAME d;
     IOCTL_GET_HCD_DRIVERKEY_NAME := IOCTL_GET_HCD_DRIVERKEY_NAME d |}.

Definition on (drv : Driver) : DeviceCommunication :=
  {| _hFile := Some drv; alloc_ok := fun _ => true;
     behind_block := fun _ _ => x00 |}.

Definition unopened : DeviceCommunication :=
  {| _hFile := None; alloc_ok := fun _ => true;
     behind_block := fun _ _ => x00 |}.

(** An answer of the primary query: a device with the given status,
    speed and address, and no open pipe. *)
Definition ex_record (p status speed address : N) : USB_NODE_CONNECTION_INFORMATION_EX :=
  {| ex_ConnectionIndex := p; ex_DeviceDescriptor := zero_device_descriptor;
     ex_CurrentConfigurationValue := 1; ex_Speed := speed; ex_DeviceIsHub := 0;
     ex_DeviceAddress := address; ex_NumberOfOpenPipes := 0;
     ex_ConnectionStatus := status; ex_PipeList := [] |}.

Definition legacy_record (p status lowSpeed address : N)
    : USB_NODE_CONNECTION_INFORMATION :=
  {| ci_ConnectionIndex := p; ci_DeviceDescriptor := zero_device_descriptor;
     ci_CurrentConfigurationValue := 1; ci_LowSpeed := lowSpeed; ci_DeviceIsHub := 0;
     ci_DeviceAddress := address; ci_NumberOfOpenPipes := 0;
     ci_ConnectionStatus := status; ci_PipeList := [] |}.

Definition no_v2 (p : N) : Ioctl USB_NODE_CONNECTION_INFORMATION_EX_V2 :=
  failed ERROR_INVALID_FUNCTION
    {| v2_ConnectionIndex := p; v2_Length := 16; v2_SupportedUsbProtocols := 4;
       v2_Flags := 0 |}.

(** A three-port hub whose port 2 answers neither the primary nor the
    legacy query; ports 1 and 3 are empty. *)
Definition hub_with_silent_port : DeviceCommunication :=
  on (with_connections deaf_driver no_v2
        (fun p => if p =? 2 then failed ERROR_GEN_FAILURE (zero_connection_information_ex p)
                  else succeeded 35 (ex_record p NoDeviceConnected 0 0))
        (fun p => failed ERROR_GEN_FAILURE (zero_connection_information p))).

(** A two-port hub that reports a connected device with address 0 on
    both ports. *)
Definition hub_with_address_zero : DeviceCommunication :=
  on (with_connections deaf_driver no_v2
        (fun p => succeeded 35 (ex_record p DeviceConnected UsbFullSpeed 0))
        (fun p => failed ERROR_GEN_FAILURE (zero_connection_information p))).

(** A two-port hub whose ports are reported at high speed by the
    primary query.  The V2 buffer comes back with the SuperSpeed flag
    set on both, but the V2 call fails for port 1 and returns only 12
    bytes for port 2. *)
Definition hub_with_unusable_v2 : DeviceCommunication :=
  on (with_connections deaf_driver
        (fun p =>
           let record := {| v2_ConnectionIndex := p; v2_Length := 16;
                            v2_SupportedUsbProtocols := 7; v2_Flags := 1 |} in
           if p =? 1 then mkIoctl false 16 record ERROR_GEN_FAILURE
           else succeeded 12 record)
        (fun p => succeeded 35 (ex_record p DeviceConnected UsbHighSpeed p))
        (fun p => failed ERROR_GEN_FAILURE (zero_connection_information p))).

(** A two-port hub: port 1 is reported at high speed by the primary
    query and at SuperSpeed by the V2 query; port 2 answers only the
    legacy query, with the low-speed flag set. *)
Definition hub_with_mixed_speeds : DeviceCommunication :=
  on (with_connections deaf_driver
        (fun p => succeeded 16 {| v2_ConnectionIndex := p; v2_Length := 16;
                                  v2_SupportedUsbProtocols := 7; v2_Flags := 1 |})
        (fun p => if p =? 1 then succeeded 35 (ex_record p DeviceConnected UsbHighSpeed 5)
                  else failed ERROR_GEN_FAILURE (zero_connection_information_ex p))
        (fun p => succeeded 35 (legacy_record p DeviceConnected 1 6))).

End TransportProps.

Module HubProps.
Import Sdk Rd DeviceCommunication UsbHub.

(** The memory that holds the bytes of [l], and zeros behind them. *)
Definition memory_of (l : Mem) : Memory := fun off => nth (N.to_nat off) l x00.

(** A device descriptor whose three string indices are zero. *)
Definition device_without_strings : USB_DEVICE_DESCRIPTOR :=
  mkDeviceDescriptor 18 1 0x0200 0 0x0951 0x172B 0 0 0.

Definition is_configuration_type (ty : N) : bool :=
  (ty =? USB_CONFIGURATION_DESCRIPTOR_TYPE) ||
  (ty =? USB_OTHER_SPEED_CONFIGURATION_DESCRIPTOR_TYPE).

Definition interface_length_ok (len : N) : bool :=
  (len =? sizeof_USB_INTERFACE_DESCRIPTOR) || (len =? sizeof_USB_INTERFACE_DESCRIPTOR2).

(** The descriptor at [p] is stepped over by the walk of
    [AreUsbDescriptorsCorrect]: a configuration or interface
    descriptor of the expected length whose string index is zero, or
    a descriptor of any other type. *)
Definition stepped_over (mem : Memory) (p : N) : bool :=
  let len := peek mem p in
  let ty := peek mem (p + 1) in
  if is_configuration_type ty then
    (len =? sizeof_USB_CONFIGURATION_DESCRIPTOR) && (peek mem (p + 6) =? 0)
  else if ty =? USB_INTERFACE_DESCRIPTOR_TYPE then
    interface_length_ok len && (peek mem (p + 8) =? 0)
  else true.

(** The answer at a descriptor that ends the walk: true for a
    configuration or interface descriptor of the expected length with
    a non-zero string index, false otherwise and when the loop
    condition fails. *)
Definition verdict (mem : Memory) (p e : N) : bool :=
  let len := peek mem p in
  let ty := peek mem (p + 1) in
  walk_condition mem p e &&
  (if is_configuration_type ty then
     (len =? sizeof_USB_CONFIGURATION_DESCRIPTOR) && negb (peek mem (p + 6) =? 0)
   else if ty =? USB_INTERFACE_DESCRIPTOR_TYPE then
     interface_length_ok len && negb (peek mem (p + 8) =? 0)
   else false).

(** [walk_steps mem e p q k]: from [p] the walk steps over [k]
    descriptors, each inside the loop condition, and then stands at
    [q]. *)
Inductive walk_steps (mem : Memory) (e : N) : N -> N -> nat -> Prop :=
| walk_stands p : walk_steps mem e p p 0
| walk_over p q k :
    walk_condition mem p e = true ->
    stepped_over mem p = true ->
    walk_steps mem e (p + peek mem p) q k ->
    walk_steps mem e p q (S k).

(** A configuration of 27 bytes: the header and two interface
    descriptors; only the last byte, the string index of the second
    interface, differs between the two buffers. *)
Definition second_interface_named : Mem :=
  ParserProps.bytes [9; 2; 27; 0; 2; 1; 0; 0x80; 50;
                     9; 4; 0; 0; 1; 3; 1; 1; 0;
                     9; 4; 1; 0; 1; 3; 1; 2; 5].

Definition second_interface_unnamed : Mem :=
  ParserProps.bytes [9; 2; 27; 0; 2; 1; 0; 0x80; 50;
                     9; 4; 0; 0; 1; 3; 1; 1; 0;
                     9; 4; 1; 0; 1; 3; 1; 2; 0].

(** A configuration of 30 bytes: the header, an interface descriptor
    of the long form (12 bytes) without a string, and one of the short
    form (9 bytes) that names string 5. *)
Definition long_interface_named : Mem :=
  ParserProps.bytes [9; 2; 30; 0; 2; 1; 0; 0x80; 50;
                     12; 4; 0; 0; 1; 3; 1; 1; 0; 0; 0; 0;
                     9; 4; 1; 0; 1; 3; 1; 2; 5].

End HubProps.

Module TopologyProps.
Import Sdk Exn DeviceCommunication TransportProps DevicesManager Impl.

(** ** A sample machine *)

(** A device descriptor with the given class and identifiers and no
    string. *)
Definition plain_device (cls vendor product : N) : USB_DEVICE_DESCRIPTOR :=
  mkDeviceDescriptor 18 1 0x0200 cls vendor product 0 0 0.

Definition connected (p isHub address : N) (d : USB_DEVICE_DESCRIPTOR)
    : USB_NODE_CONNECTION_INFORMATION_EX :=
  {| ex_ConnectionIndex := p; ex_DeviceDescriptor := d;
     ex_CurrentConfigurationValue := 1; ex_Speed := UsbHighSpeed;
     ex_DeviceIsHub := isHub; ex_DeviceAddress := address;
     ex_NumberOfOpenPipes := 0; ex_ConnectionStatus := DeviceConnected;
     ex_PipeList := [] |}.

(** The two-phase answer of a name query: the probe reports the
    length, the fetch delivers the NUL-terminated name. *)
Definition name_answer (probe_size : N) (p : N) (name : wstring) (size : N)
    : Ioctl USB_NAME_RECORD :=
  let record :=
    {| nm_ConnectionIndex := p;
       nm_ActualLength := probe_size + 2 * N.of_nat (length name);
       nm_Name := name ++ [0] |} in
  succeeded (N.min size (nm_ActualLength record)) record.

(** A hub driver: [ports] ports, the given answers of the primary
    connection query, driver keys and configuration descriptors; no
    string descriptor, no V2, legacy or connector-properties answer. *)
Definition hub_driver (ports : N)
    (ex : N -> Ioctl USB_NODE_CONNECTION_INFORMATION_EX)
    (driverKey : N -> wstring) (configuration : N -> list byte) : Driver :=
  {| IOCTL_USB_GET_NODE_INFORMATION :=
       succeeded 76 {| NodeType := 0; bNumberOfPorts := ports |};
     IOCTL_USB_GET_HUB_INFORMATION_EX :=
       succeeded sizeof_USB_HUB_INFORMATION_EX {| HighestPortNumber := ports |};
     IOCTL_USB_GET_HUB_CAPABILITIES_EX :=
       succeeded sizeof_USB_HUB_CAPABILITIES_EX {| CapabilityFlags := 16 |};
     IOCTL_USB_GET_PORT_CONNECTOR_PROPERTIES :=
       IOCTL_USB_GET_PORT_CONNECTOR_PROPERTIES deaf_driver;
     IOCTL_USB_GET_NODE_CONNECTION_INFORMATION_EX_V2 := no_v2;
     IOCTL_USB_GET_NODE_CONNECTION_INFORMATION_EX := ex;
     IOCTL_USB_GET_NODE_CONNECTION_INFORMATION :=
       IOCTL_USB_GET_NODE_CONNECTION_INFORMATION deaf_driver;
     IOCTL_USB_GET_NODE_CONNECTION_DRIVERKEY_NAME :=
       fun p size =>
         name_answer sizeof_USB_NODE_CONNECTION_DRIVERKEY_NAME p (driverKey p) size;
     IOCTL_USB_GET_NODE_CONNECTION_NAME :=
       IOCTL_USB_GET_NODE_CONNECTION_NAME deaf_driver;
     IOCTL_USB_GET_DESCRIPTOR_FROM_NODE_CONNECTION :=
       fun p wValue wIndex wLength =>
         if wValue =? 0x0200 then
           let data := take (N.to_nat wLength) (configuration p) in
           succeeded (sizeof_USB_DESCRIPTOR_REQUEST + N.of_nat (length data)) data
         else failed ERROR_GEN_FAILURE [];
     IOCTL_USB_USER_REQUEST := IOCTL_USB_USER_REQUEST deaf_driver;
     IOCTL_USB_GET_ROOT_HUB_NAME := IOCTL_USB_GET_ROOT_HUB_NAME deaf_driver;
     IOCTL_GET_HCD_DRIVERKEY_NAME := IOCTL_GET_HCD_DRIVERKEY_NAME deaf_driver |}.

Definition hcd_name_answer (name : wstring) (size : N) : Ioctl USB_HCD_NAME :=
  let record :=
    {| hn_ActualLength := 6 + 2 * N.of_nat (length name); hn_Name := name ++ [0] |} in
  succeeded (N.min size (hn_ActualLength record)) record.

(** A host-controller driver with the given root hub name. *)
Definition controller_driver (rootHubName : wstring) : Driver :=
  {| IOCTL_USB_GET_NODE_INFORMATION := IOCTL_USB_GET_NODE_INFORMATION deaf_driver;
     IOCTL_USB_GET_HUB_INFORMATION_EX := IOCTL_USB_GET_HUB_INFORMATION_EX deaf_driver;
     IOCTL_USB_GET_HUB_CAPABILITIES_EX := IOCTL_USB_GET_HUB_CAPABILITIES_EX deaf_driver;
     IOCTL_USB_GET_PORT_CONNECTOR_PROPERTIES :=
       IOCTL_USB_GET_PORT_CONNECTOR_PROPERTIES deaf_driver;
     IOCTL_USB_GET_NODE_CONNECTION_INFORMATION_EX_V2 := no_v2;
     IOCTL_USB_GET_NODE_CONNECTION_INFORMATION_EX :=
       IOCTL_USB_GET_NODE_CONNECTION_INFORMATION_EX deaf_driver;
     IOCTL_USB_GET_NODE_CONNECTION_INFORMATION :=
       IOCTL_USB_GET_NODE_CONNECTION_INFORMATION deaf_driver;
     IOCTL_USB_GET_NODE_CONNECTION_DRIVERKEY_NAME :=
       IOCTL_USB_GET_NODE_CONNECTION_DRIVERKEY_NAME deaf_driver;
     IOCTL_USB_GET_NODE_CONNECTION_NAME :=
       IOCTL_USB_GET_NODE_CONNECTION_NAME deaf_driver;
     IOCTL_USB_GET_DESCRIPTOR_FROM_NODE_CONNECTION :=
       IOCTL_USB_GET_DESCRIPTOR_FROM_NODE_CONNECTION deaf_driver;
     IOCTL_USB_USER_REQUEST :=
       succeeded 24 {| NumberOfRootPorts := 2; PciVendorId := 0x8086;
                       PciDeviceId := 0x1E31; PciRevision := 4 |};
     IOCTL_USB_GET_ROOT_HUB_NAME := hcd_name_answer rootHubName;
     IOCTL_GET_HCD_DRIVERKEY_NAME := hcd_name_answer (L "{36fc9e60}/0000") |}.

Definition hub_key : wstring := L "{36fc9e60}/0001".
Definition stick_key : wstring := L "{36fc9e60}/0002".

(** The configuration of the memory stick: header and one
    mass-storage interface. *)
Definition stick_configuration : list byte :=
  ParserProps.bytes [9; 2; 18; 0; 1; 1; 0; 0x80; 50;
                     9; 4; 0; 0; 2; 8; 6; 0x50; 0].

(** The root hub: an external hub on port 1, a memory stick on
    port 2. *)
Definition root_hub : Driver :=
  hub_driver 2
    (fun p => if p =? 1 then succeeded 35 (connected 1 1 1 (plain_device 9 0x05E3 0x0608))
              else if p =? 2 then
                succeeded 35 (connected 2 0 2 (plain_device 0 0x0951 0x172B))
              else failed ERROR_GEN_FAILURE (zero_connection_information_ex p))
    (fun p => if p =? 1 then hub_key else stick_key)
    (fun _ => stick_configuration).

(** The external hub: one empty port. *)
Definition external_hub : Driver :=
  hub_driver 1
    (fun p => succeeded 35 (ex_record p NoDeviceConnected 0 0))
    (fun _ => []) (fun _ => []).

Definition controller_path : wstring := L "pci#ven_8086&dev_1e31".
Definition root_hub_name : wstring := L "USB#ROOT_HUB30#4&380cfd04".
Definition root_hub_path : wstring := [92; 92; 46; 92] ++ root_hub_name.
Definition external_hub_path : wstring := L "usb#vid_05e3&pid_0608#5&1b2c".

Definition ERROR_FILE_NOT_FOUND : N := 2.

(** The machine; [hub_opens] tells whether the external hub can be
    opened. *)
Definition machine (hub_opens : bool) : World :=
  {| CreateFileW := fun path =>
       if bool_decide (path = controller_path) then inl (controller_driver root_hub_name)
       else if bool_decide (path = root_hub_path) then inl root_hub
       else if bool_decide (path = external_hub_path) && hub_opens then inl external_hub
       else inr ERROR_FILE_NOT_FOUND;
     heap := fun _ => true;
     behind := fun _ _ => x00 |}.

Definition GUID_DEVCLASS_USB : DevInfoData.GUID := 0x36FC9E60C46511CF8056444553540000.

Definition hub_record : DevInfoData.DevInfoData :=
  {| DevInfoData._hardwareId := L "USB\VID_05E3&PID_0608&REV_8537";
     DevInfoData._driverKeyName := hub_key;
     DevInfoData._classGuid := GUID_DEVCLASS_USB;
     DevInfoData._deviceDescription := L "Generic USB Hub";
     DevInfoData.PopulateUsbInfo_path := Ok external_hub_path;
     DevInfoData.PopulateUsbControllerInfo_path := Throw OutOfRange |}.

Definition stick_record : DevInfoData.DevInfoData :=
  {| DevInfoData._hardwareId := L "USB\VID_0951&PID_172B&REV_0110";
     DevInfoData._driverKeyName := stick_key;
     DevInfoData._classGuid := GUID_DEVCLASS_USB;
     DevInfoData._deviceDescription := L "USB Mass Storage Device";
     DevInfoData.PopulateUsbInfo_path := Throw OutOfRange;
     DevInfoData.PopulateUsbControllerInfo_path := Throw OutOfRange |}.

Definition controller_record : DevInfoData.DevInfoData :=
  {| DevInfoData._hardwareId := L "PCI\VEN_8086&DEV_1E31";
     DevInfoData._driverKeyName := L "{36fc9e60}/0000";
     DevInfoData._classGuid := GUID_DEVCLASS_USB;
     DevInfoData._deviceDescription := L "USB 3.0 eXtensible Host Controller";
     DevInfoData.PopulateUsbInfo_path := Throw OutOfRange;
     DevInfoData.PopulateUsbControllerInfo_path := Ok controller_path |}.

Definition registry : list DevInfoData.DevInfoData := [hub_record; stick_record].

Definition environment (hub_opens : bool) : Env :=
  {| os := machine hub_opens;
     allUsbDevices := Ok registry;
     controllers := Ok [controller_record];
     GetVendorStringById := fun v => if v =? 0x0951 then L "Kingston" else [] |}.

(** The record of the memory stick in the final list. *)
Definition stick_result : DeviceResultantInfo :=
  {| manufacturer_ := []; product_ := L "USB Mass Storage Device";
     serialNumber_ := []; description_ := []; deviceId_ := []; friendlyName_ := [];
     devicePath_ := []; vendorName_ := L "Kingston";
     interfaceClassName_ := L "Mass Storage";
     deviceClass_ := 0; interfaceClass_ := 8; setupClassGuid_ := GUID_DEVCLASS_USB;
     vendorId_ := 0x0951; productId_ := 0x172B;
     isUsbDevice_ := true; isConnected_ := true |}.

End TopologyProps.

(* ===================================================================== *)
(** * Vocabulary of the further statements                               *)
(* ===================================================================== *)

Module WalkProps.
Import Sdk Rd UsbDescriptorParser ParserProps.

(** The positions that the walks of the parser visit from [p]: each
    lies within the end [e], the next one is a declared length
    further. *)
Fixpoint chain (fuel : nat) (mem : Mem) (e p : N) : list N :=
  match fuel with
  | O => []
  | S fuel' =>
      if in_bounds mem p e then p :: chain fuel' mem e (p + byte_at mem p) else []
  end.

(** The sub-descriptors of a configuration: the chain behind the
    header, up to the declared total length. *)
Definition sub_descriptors (mem : Mem) : list N :=
  chain (S (N.to_nat (declared_total mem))) mem (declared_total mem)
    (first_sub_descriptor mem).

Definition is_interface (mem : Mem) (p : N) : bool :=
  byte_at mem (p + 1) =? USB_INTERFACE_DESCRIPTOR_TYPE.

(** The positions of the sub-descriptors tagged as interfaces. *)
Definition interfaces (mem : Mem) : list N :=
  filter (fun p => is_interface mem p = true) (sub_descriptors mem).

Definition class_at (mem : Mem) (p : N) : N := byte_at mem (p + off_bInterfaceClass).

(** Header, an endpoint descriptor, a HID interface, a mass-storage
    interface; 34 bytes. *)
Definition endpoint_then_two_interfaces : Mem :=
  bytes [9; 2; 34; 0; 2; 1; 0; 0x80; 50;
         7; 5; 0x81; 3; 8; 0; 10;
         9; 4; 0; 0; 1; 3; 1; 1; 0;
         9; 4; 1; 0; 2; 8; 6; 0x50; 0].

End WalkProps.

Module PortProps.
Import Sdk Exn DeviceCommunication TransportProps.






(** The driver key that [GetDriverKeyName] delivers for a port, empty
    when it throws. *)
Definition resolved_driver_key (comm : DeviceCommunication) (p : N) : wstring :=
  match GetDriverKeyName comm (to_ULONG p) with
  | Ok name => name
  | Throw _ => []
  end.

(** The first request of the two-phase driver-key query. *)
Definition driver_key_probe (comm : DeviceCommunication) (index : N) :=
  DeviceIoControl comm
    (fun d => IOCTL_USB_GET_NODE_CONNECTION_DRIVERKEY_NAME d index
                sizeof_USB_NODE_CONNECTION_DRIVERKEY_NAME)
    (zero_name index).

(** The data area after the first, header-sized configuration request. *)
Definition configuration_probe (comm : DeviceCommunication)
    (connectionIndex descriptorIndex : N) : Rd.Mem :=
  snd (executeDescriptorRequest comm connectionIndex descriptorIndex
         (sizeof_USB_DESCRIPTOR_REQUEST + sizeof_USB_CONFIGURATION_DESCRIPTOR)).

(** The kernel's answer to the string-descriptor request. *)
Definition string_answer (comm : DeviceCommunication)
    (connectionIndex descriptorIndex languageId : N) : Ioctl (list byte) :=
  DeviceIoControl comm
    (fun d => IOCTL_USB_GET_DESCRIPTOR_FROM_NODE_CONNECTION d connectionIndex
                (to_USHORT (N.lor (N.shiftl USB_STRING_DESCRIPTOR_TYPE 8) descriptorIndex))
                languageId
                (to_USHORT MAXIMUM_USB_STRING_LENGTH))
    [].

(** [d] with other answers to the connector-properties and descriptor
    requests. *)
Definition with_port_answers (d : Driver)
    (connector : N -> N -> Ioctl USB_PORT_CONNECTOR_PROPERTIES)
    (descriptor : N -> N -> N -> N -> Ioctl (list byte)) : Driver :=
  {| IOCTL_USB_GET_NODE_INFORMATION := IOCTL_USB_GET_NODE_INFORMATION d;
     IOCTL_USB_GET_HUB_INFORMATION_EX := IOCTL_USB_GET_HUB_INFORMATION_EX d;
     IOCTL_USB_GET_HUB_CAPABILITIES_EX := IOCTL_USB_GET_HUB_CAPABILITIES_EX d;
     IOCTL_USB_GET_PORT_CONNECTOR_PROPERTIES := connector;
     IOCTL_USB_GET_NODE_CONNECTION_INFORMATION_EX_V2 :=
       IOCTL_USB_GET_NODE_CONNECTION_INFORMATION_EX_V2 d;
     IOCTL_USB_GET_NODE_CONNECTION_INFORMATION_EX :=
       IOCTL_USB_GET_NODE_CONNECTION_INFORMATION_EX d;
     IOCTL_USB_GET_NODE_CONNECTION_INFORMATION :=
       IOCTL_USB_GET_NODE_CONNECTION_INFORMATION d;
     IOCTL_USB_GET_NODE_CONNECTION_DRIVERKEY_NAME :=
       IOCTL_USB_GET_NODE_CONNECTION_DRIVERKEY_NAME d;
     IOCTL_USB_GET_NODE_CONNECTION_NAME := IOCTL_USB_GET_NODE_CONNECTION_NAME d;
     IOCTL_USB_GET_DESCRIPTOR_FROM_NODE_CONNECTION := descriptor;
     IOCTL_USB_USER_REQUEST := IOCTL_USB_USER_REQUEST d;
     IOCTL_USB_GET_ROOT_HUB_NAME := IOCTL_USB_GET_ROOT_HUB_NAME d;
     IOCTL_GET_HCD_DRIVERKEY_NAME := IOCTL_GET_HCD_DRIVERKEY_NAME d |}.



(** A hub whose devices deliver the language table (English) for
    string index 0 and the string "ABC" for string index 1. *)
Definition hub_with_strings : DeviceCommunication :=
  on (with_port_answers deaf_driver
        (IOCTL_USB_GET_PORT_CONNECTOR_PROPERTIES deaf_driver)
        (fun _ wValue _ _ =>
           if wValue =? 0x0300 then
             succeeded 16 (ParserProps.bytes [4; 3; 9; 4])
           else if wValue =? 0x0301 then
             succeeded 20 (ParserProps.bytes [8; 3; 65; 0; 66; 0; 67; 0])
           else failed ERROR_GEN_FAILURE [])).

End PortProps.

Module HubWalkProps.
Import Sdk Exn Rd DeviceCommunication UsbHub ParserProps HubProps TransportProps.

(** The descriptor at [p] is not tagged as an interface. *)
Definition not_an_interface (mem : Memory) (p : N) : bool :=
  negb (peek mem (p + 1) =? USB_INTERFACE_DESCRIPTOR_TYPE).

(** [search_steps mem e p q k]: from [p] the loop of
    [FillConfigDescriptor] that looks for the first interface steps
    over [k] descriptors, each inside the loop condition and none
    tagged as an interface, and then stands at [q]. *)
Inductive search_steps (mem : Memory) (e : N) : N -> N -> nat -> Prop :=
| search_stands p : search_steps mem e p p 0
| search_over p q k :
    walk_condition mem p e = true ->
    not_an_interface mem p = true ->
    search_steps mem e (p + peek mem p) q k ->
    search_steps mem e p q (S k).

(** A descriptor of declared length zero inside the loop condition:
    stepping over it leaves the walk where it is. *)
Definition zero_length_inside (mem : Memory) (e q : N) : bool :=
  walk_condition mem q e && (peek mem q =? 0).

(** A configuration of 13 bytes: the header, then a descriptor of
    length 0 tagged as an endpoint. *)
Definition zero_length_after_header : Mem :=
  bytes [9; 2; 13; 0; 1; 1; 0; 0x80; 50;   0; 5; 0; 0].

(** A configuration of 25 bytes: the header, an interface descriptor
    of the long form (12 bytes) without a string, then a descriptor of
    length 0 tagged as an endpoint. *)
Definition zero_length_after_long_interface : Mem :=
  bytes [9; 2; 25; 0; 1; 1; 0; 0x80; 50;
         12; 4; 0; 0; 0; 3; 0; 0; 0; 0; 0; 0;
         0; 5; 0; 0].

(** A configuration of 12 bytes: the header, then a descriptor of 3
    bytes tagged as an interface.  Offset 5 of that descriptor is two
    bytes behind the configuration. *)
Definition short_interface_at_end : Mem :=
  bytes [9; 2; 12; 0; 1; 1; 0; 0x80; 50;   3; 4; 0].

(** What the walks of [FillConfigDescriptor] see of the configuration
    [data] that was delivered to [hub]. *)
Definition seen_by (hub : UsbHub) (data : Mem) : Memory :=
  heap_view (_pDeviceCommunication hub) data.

(** A transport on [drv] whose heap never refuses and holds [stray]
    behind every block. *)
Definition on_heap (drv : Driver) (stray : N -> byte) : DeviceCommunication :=
  {| _hFile := Some drv; alloc_ok := fun _ => true;
     behind_block := fun _ k => stray k |}.

(** A hub with one port on such a heap; the device on the port answers
    the configuration request with the given bytes. *)
Definition hub_serving_on_heap (configuration : list byte) (stray : N -> byte)
    : UsbHub :=
  {| _hubName := L "hub"; _numberOfPorts := 1;
     _pDeviceCommunication :=
       on_heap (TopologyProps.hub_driver 1
                  (fun p => succeeded 35
                              (TopologyProps.connected p 0 1
                                 (TopologyProps.plain_device 0 0x0951 0x172B)))
                  (fun _ => TopologyProps.stick_key) (fun _ => configuration))
               stray;
     _hubPortConnectorProperties := ∅; _hubPortConnectionInfo := ∅;
     _portUsbConfigurationDescriptor := ∅; _usbDeviceDescriptionInfo := ∅ |}.

(** The search of [FillConfigDescriptor] for the first interface gets
    to a descriptor of declared length zero that lies inside the loop
    condition and is not tagged as an interface. *)
Definition search_stalls_on (mem : Memory) : Prop :=
  exists q k,
    search_steps mem (wTotalLength_at mem) (peek mem 0) q k /\
    zero_length_inside mem (wTotalLength_at mem) q = true /\
    not_an_interface mem q = true.

(** The device descriptor names no string, and the walk of
    [AreUsbDescriptorsCorrect] gets to a descriptor of declared length
    zero that lies inside the loop condition and is stepped over. *)
Definition check_stalls_on (dev : USB_DEVICE_DESCRIPTOR) (mem : Memory) : Prop :=
  iManufacturer dev = 0 /\ iProduct dev = 0 /\ iSerialNumber dev = 0 /\
  exists q k,
    walk_steps mem (wTotalLength_at mem) 0 q k /\
    zero_length_inside mem (wTotalLength_at mem) q = true /\
    stepped_over mem q = true.

(** The device on the port delivers a configuration on which one of
    the two walks of [FillConfigDescriptor] stalls. *)
Definition stalls (hub : UsbHub) (dev : USB_DEVICE_DESCRIPTOR) (ConnectionIndex : N)
    : Prop :=
  exists data,
    GetConfigDescriptor (_pDeviceCommunication hub) ConnectionIndex 0
      = Ok (Some data) /\
    (search_stalls_on (seen_by hub data) \/ check_stalls_on dev (seen_by hub data)).

(** A hub with one port; the device on it answers the configuration
    request with the given bytes. *)
Definition hub_serving (configuration : list byte) : UsbHub :=
  {| _hubName := L "hub"; _numberOfPorts := 1;
     _pDeviceCommunication :=
       on (TopologyProps.hub_driver 1
             (fun p => succeeded 35
                         (TopologyProps.connected p 0 1
                            (TopologyProps.plain_device 0 0x0951 0x172B)))
             (fun _ => TopologyProps.stick_key) (fun _ => configuration));
     _hubPortConnectorProperties := ∅; _hubPortConnectionInfo := ∅;
     _portUsbConfigurationDescriptor := ∅; _usbDeviceDescriptionInfo := ∅ |}.

(** The kernel's answer to the node-information request. *)
Definition node_information_answer (comm : DeviceCommunication)
    : Ioctl USB_NODE_INFORMATION :=
  DeviceIoControl comm IOCTL_USB_GET_NODE_INFORMATION zero_node_information.

(** A hub object on a hub driver that reports no port. *)
Definition hub_without_ports : UsbHub :=
  {| _hubName := L "hub"; _numberOfPorts := 0;
     _pDeviceCommunication :=
       on (TopologyProps.hub_driver 0
             (fun p => failed ERROR_GEN_FAILURE (zero_connection_information_ex p))
             (fun _ => []) (fun _ => []));
     _hubPortConnectorProperties := ∅; _hubPortConnectionInfo := ∅;
     _portUsbConfigurationDescriptor := ∅; _usbDeviceDescriptionInfo := ∅ |}.

(** A hub object on a driver that rejects every request. *)
Definition hub_on_deaf_driver : UsbHub :=
  {| _hubName := L "hub"; _numberOfPorts := 0;
     _pDeviceCommunication := on deaf_driver;
     _hubPortConnectorProperties := ∅; _hubPortConnectionInfo := ∅;
     _portUsbConfigurationDescriptor := ∅; _usbDeviceDescriptionInfo := ∅ |}.

(** A hub object whose devices deliver string descriptors. *)
Definition hub_of_named_devices : UsbHub :=
  {| _hubName := L "hub"; _numberOfPorts := 1;
     _pDeviceCommunication := PortProps.hub_with_strings;
     _hubPortConnectorProperties := ∅; _hubPortConnectionInfo := ∅;
     _portUsbConfigurationDescriptor := ∅; _usbDeviceDescriptionInfo := ∅ |}.

(** A device descriptor that names its manufacturer by string 1. *)
Definition device_with_manufacturer : USB_DEVICE_DESCRIPTOR :=
  mkDeviceDescriptor 18 1 0x0200 0 0x0951 0x172B 1 0 0.

(** The text taken from a string descriptor: at most 126 code units,
    none of them NUL. *)
Definition short_text (s : wstring) : Prop := (length s <= 126)%nat /\ 0 ∉ s.

End HubWalkProps.

Module ManagerProps.
Import Sdk Exn DeviceCommunication DevicesManager Impl.

(** A registry record whose hardware id is set and contains the
    pattern. *)
Definition hardware_id_matches (pattern : wstring) (d : DevInfoData.DevInfoData) : bool :=
  negb (bool_decide (DevInfoData.GetHardwareId d = [])) &&
  wfind (DevInfoData.GetHardwareId d) pattern.

(** Such a record whose driver key is set and is the port's. *)
Definition is_bus_layer_record (pattern driverKeyName : wstring)
    (d : DevInfoData.DevInfoData) : bool :=
  hardware_id_matches pattern d &&
  negb (bool_decide (DevInfoData.GetDriverKeyName d = [])) &&
  bool_decide (driverKeyName = DevInfoData.GetDriverKeyName d).

(** What every record made by the USB enumeration looks like. *)
Definition usb_record (r : DeviceResultantInfo) : Prop :=
  isConnected_ r = true /\ isUsbDevice_ r = true /\
  description_ r = [] /\ deviceId_ r = [] /\ friendlyName_ r = [] /\
  devicePath_ r = [] /\
  interfaceClassName_ r
    = (if negb (interfaceClass_ r =? 0xFF) then
         UtilConvert.GetUsbClassNameByDescId (interfaceClass_ r)
       else if negb (deviceClass_ r =? 0) then
         UtilConvert.GetUsbClassNameByDescId (deviceClass_ r)
       else []).

(** The list [l'] is [l] followed by records that satisfy [P]. *)
Definition appends_records (P : DeviceResultantInfo -> Prop)
    (l l' : list DeviceResultantInfo) : Prop :=
  exists added, l' = l ++ added /\ Forall P added.

(** A computation that only ever adds records that satisfy [P] at
    the end of the list, however it ends. *)
Definition only_appends (P : DeviceResultantInfo -> Prop) {A} (c : Orch A) : Prop :=
  forall l r l', c l = Some (r, l') -> appends_records P l l'.

(** [c'] returns whatever [c] returns. *)
Definition refines {A} (c c' : Orch A) : Prop :=
  forall l r, c l = Some r -> c' l = Some r.

(** A connected device whose driver key could not be read. *)
Definition connection_without_key (status : N) : HubConnectionInfo :=
  {| _connectionIndex := 1;
     _deviceDescriptor := TopologyProps.plain_device 0 0x0951 0x172B;
     _currentConfigurationValue := 1; _speed := UsbHighSpeed; _deviceIsHub := 0;
     _deviceAddress := 1; _numberOfOpenPipes := 0; _connectionStatus := status;
     _pipeList := []; _driverKeyName := [] |}.

(** A root hub with one port; the memory stick on it delivers a
    configuration with a descriptor of length zero behind the
    header. *)
Definition hub_with_bad_stick : Driver :=
  TopologyProps.hub_driver 1
    (fun p => TransportProps.succeeded 35
                (TopologyProps.connected p 0 2
                   (TopologyProps.plain_device 0 0x0951 0x172B)))
    (fun _ => TopologyProps.stick_key)
    (fun _ => HubWalkProps.zero_length_after_header).

Definition machine_with_bad_stick : Env :=
  {| os := {| CreateFileW := fun path =>
                if bool_decide (path = TopologyProps.root_hub_path)
                then inl hub_with_bad_stick
                else inr TopologyProps.ERROR_FILE_NOT_FOUND;
              heap := fun _ => true;
              behind := fun _ _ => x00 |};
     allUsbDevices := Ok [TopologyProps.stick_record];
     controllers := Ok [];
     GetVendorStringById := fun _ => [] |}.

End ManagerProps.

Module RegistryProps.
Import Sdk Exn DevicesManager SetupApi DeviceProperty DeviceEnumerator ImplByClass
  WinDevicesAPI.

(** The set's members with index below [length members] are
    [members], in this order. *)
Definition enumerates (set : HDEVINFO) (members : list SP_DEVINFO_DATA) : Prop :=
  forall i d, members !! i = Some d -> SetupDiEnumDeviceInfo set (N.of_nat i) = inl d.

(** The instance made from a member of the set. *)
Definition instance_of (api : SetupApi) (d : SP_DEVINFO_DATA) (i : DeviceInstance)
    : Prop :=
  populateDeviceProperties api d = Ok i /\ _devInfoData i = d /\
  DevInfoData._classGuid (data i) = ClassGuid d /\
  0 ∉ DevInfoData._driverKeyName (data i).

(** What every record made by the enumeration of a setup class looks
    like. *)
Definition class_record (deviceClassGuid : DevInfoData.GUID) (r : DeviceResultantInfo)
    : Prop :=
  isConnected_ r = true /\ setupClassGuid_ r = deviceClassGuid /\
  product_ r = [] /\ serialNumber_ r = [] /\ vendorName_ r = [] /\
  interfaceClassName_ r = [] /\ interfaceClass_ r = 0xFF /\ deviceClass_ r = 0 /\
  vendorId_ r = 0 /\ productId_ r = 0 /\
  (isUsbDevice_ r = false -> devicePath_ r = []).

(** The records of the instances whose processing does not throw. *)
Definition class_records (api : SetupApi) (deviceClassGuid : DevInfoData.GUID)
    (instances : list DeviceInstance) : list DeviceResultantInfo :=
  omap (fun instance =>
          match class_device_record api deviceClassGuid instance with
          | Ok r => Some r
          | Throw _ => None
          end) instances.

(** The device list of a handle, as [WD_GetDeviceInfo] indexes it. *)
Definition listed (handle : HDEVICE_MANAGER) : list DeviceResultantInfo :=
  match handle with Some wrapper => devices wrapper | None => [] end.

Definition is_mass_storage (r : DeviceResultantInfo) : Prop :=
  interfaceClass_ r = 0x08 \/ deviceClass_ r = 0x08.

(** A property that is present: the probe asks for the size of the
    text and its terminator, the fetch delivers them. *)
Definition present (text : wstring) : RegistryProperty :=
  {| rp_requiredSize := 2 * N.of_nat (length text) + 2;
     rp_probeError := ERROR_INSUFFICIENT_BUFFER;
     rp_value := Some (text ++ [0]) |}.

Definition ERROR_INVALID_DATA : N := 13.

Definition absent : RegistryProperty :=
  {| rp_requiredSize := 0; rp_probeError := ERROR_INVALID_DATA; rp_value := None |}.

Definition GUID_DEVCLASS_KEYBOARD : DevInfoData.GUID :=
  0x4D36E96BE32511CEBFC108002BE10318.

(** A keyboard in the registry: description, manufacturer and
    hardware id are set, the friendly name and the driver key are
    not; it has no hub interface. *)
Definition keyboard : SP_DEVINFO_DATA :=
  {| ClassGuid := GUID_DEVCLASS_KEYBOARD;
     registry_property := fun property =>
       if property =? SPDRP_DEVICEDESC then present (L "HID Keyboard Device")
       else if property =? SPDRP_MFG then present (L "(Standard keyboards)")
       else if property =? SPDRP_HARDWAREID then present (L "HID\VID_046D&PID_C31C")
       else absent;
     power_data := Some 1;
     usb_interface_path := Throw OutOfRange;
     controller_interface_path := Throw OutOfRange |}.

Definition no_device : SP_DEVINFO_DATA :=
  {| ClassGuid := 0; registry_property := fun _ => absent; power_data := None;
     usb_interface_path := Throw OutOfRange;
     controller_interface_path := Throw OutOfRange |}.

(** A set of two keyboards. *)
Definition two_keyboards : HDEVINFO :=
  {| SetupDiEnumDeviceInfo := fun i =>
       if i <? 2 then inl keyboard else inr ERROR_NO_MORE_ITEMS;
     zeroed := no_device |}.

Definition ERROR_ACCESS_DENIED : N := 5.

(** SetupAPI with the keyboard class only, on the given heap. *)
Definition keyboards_only (heap : N -> bool) : SetupApi :=
  {| SetupDiGetClassDevsW := fun guid _ =>
       if guid =? GUID_DEVCLASS_KEYBOARD then inl two_keyboards
       else inr ERROR_ACCESS_DENIED;
     heap := heap |}.

Definition roomy (size : N) : bool := true.

(** A heap on which exactly the buffer for the manufacturer text of
    the keyboard (42 bytes) cannot be allocated. *)
Definition tight (size : N) : bool := negb (size =? 42).

(** A fresh handle. *)
Definition fresh_handle : HDEVICE_MANAGER :=
  Some {| manager := []; devices := []; lastError := None;
          vendorIdFilter := 0; deviceClassFilter := 0 |}.

End RegistryProps.

(** The vocabulary of failures below a port. *)

Module SubtreeProps.
Import Sdk Exn DeviceCommunication TransportProps DevicesManager Impl TopologyProps
  ManagerProps.

(** The registry record that the scan of a port picks as its bus-layer
    device: the last record whose hardware id contains the port's
    pattern and whose driver key is set and is the port's. *)
Definition bus_layer_device (allDevices : list DevInfoData.DevInfoData)
    (connectionInfo : HubConnectionInfo) : option DevInfoData.DevInfoData :=
  let descriptor := _deviceDescriptor connectionInfo in
  last (List.filter
          (is_bus_layer_record
             (BuildVidPidPattern (idVendor descriptor) (idProduct descriptor))
             (_driverKeyName connectionInfo))
          allDevices).

(** The port holds a hub that the registry knows; [child] is its
    device path. *)
Definition child_hub_at (allDevices : list DevInfoData.DevInfoData)
    (connectionInfo : HubConnectionInfo) (child : wstring) : Prop :=
  _connectionStatus connectionInfo <> NoDeviceConnected /\
  _deviceIsHub connectionInfo <> 0 /\
  exists busDevice,
    bus_layer_device allDevices connectionInfo = Some busDevice /\
    DevInfoData.PopulateUsbInfo_path busDevice = Ok child.

(** The port holds a device that is no hub and that the registry
    knows. *)
Definition plain_device_at (allDevices : list DevInfoData.DevInfoData)
    (connectionInfo : HubConnectionInfo) : Prop :=
  _connectionStatus connectionInfo <> NoDeviceConnected /\
  _deviceIsHub connectionInfo = 0 /\
  is_Some (bus_layer_device allDevices connectionInfo).

(** The hub at [path] cannot be opened, or it can and its driver fails
    the node-information request, or answers that one and does not
    support the capabilities request; [e] carries the error code of
    the call that failed. *)
Definition hub_fails (w : World) (path : wstring) (e : exn) : Prop :=
  match CreateFileW w path with
  | inr lastError =>
      HRESULT_FROM_WIN32 lastError <> 0 /\
      e = ResultException (HRESULT_FROM_WIN32 (HRESULT_FROM_WIN32 lastError))
  | inl drv =>
      (io_ok (IOCTL_USB_GET_NODE_INFORMATION drv) = false /\
       e = ResultException
             (HRESULT_FROM_WIN32 (io_err (IOCTL_USB_GET_NODE_INFORMATION drv)))) \/
      (io_ok (IOCTL_USB_GET_NODE_INFORMATION drv) = true /\
       unsupported (IOCTL_USB_GET_HUB_CAPABILITIES_EX drv)
         sizeof_USB_HUB_CAPABILITIES_EX = true /\
       e = ResultException
             (HRESULT_FROM_WIN32 (io_err (IOCTL_USB_GET_HUB_CAPABILITIES_EX drv))))
  end.

(** There is such a failure in the tree of hubs below [path]: at the
    hub itself, or below a hub on one of its ports. *)
Inductive failure_below (env : Env) (allDevices : list DevInfoData.DevInfoData)
    : wstring -> Prop :=
| fails_here path e :
    hub_fails (os env) path e -> failure_below env allDevices path
| fails_deeper path usbHub0 usbHub portNumber connectionInfo child :
    UsbHub.new (os env) path = Ok usbHub0 ->
    UsbHub.PopulateInfo usbHub0 = Ok usbHub ->
    UsbHub._hubPortConnectionInfo usbHub !! portNumber = Some connectionInfo ->
    child_hub_at allDevices connectionInfo child ->
    failure_below env allDevices child ->
    failure_below env allDevices path.

(** The computation does not end normally, whatever the device list
    is: it throws, or it does not return. *)
Definition cannot_complete {A} (c : Orch A) : Prop :=
  forall devs r devs', c devs = Some (r, devs') -> exists e, r = Throw e.

(** The kernel's answer to the first, header-sized request for the
    configuration descriptor of the device on a port. *)
Definition configuration_request (comm : DeviceCommunication) (connectionIndex : N)
    : Ioctl (list byte) :=
  DeviceIoControl comm
    (fun d => IOCTL_USB_GET_DESCRIPTOR_FROM_NODE_CONNECTION d connectionIndex
                0x0200 0 sizeof_USB_CONFIGURATION_DESCRIPTOR)
    [].

(** The connection record of the external hub on port 1 of the sample
    root hub. *)
Definition hub_connection : HubConnectionInfo :=
  {| _connectionIndex := 1;
     _deviceDescriptor := plain_device 9 0x05E3 0x0608;
     _currentConfigurationValue := 1; _speed := UsbHighSpeed; _deviceIsHub := 1;
     _deviceAddress := 1; _numberOfOpenPipes := 0;
     _connectionStatus := DeviceConnected; _pipeList := [];
     _driverKeyName := hub_key |}.

(** ** A machine with a memory stick that does not answer *)

Definition mute_key : wstring := L "{36fc9e60}/0003".

(** A root hub with a memory stick of the same make on each of its two
    ports; the request for the configuration descriptor fails for the
    stick on port 1. *)
Definition root_hub_with_mute_stick : Driver :=
  let hub :=
    hub_driver 2
      (fun p => succeeded 35 (connected p 0 p (plain_device 0 0x0951 0x172B)))
      (fun p => if p =? 1 then mute_key else stick_key)
      (fun _ => stick_configuration) in
  PortProps.with_port_answers hub
    (IOCTL_USB_GET_PORT_CONNECTOR_PROPERTIES hub)
    (fun p wValue wIndex wLength =>
       if p =? 1 then failed ERROR_GEN_FAILURE []
       else IOCTL_USB_GET_DESCRIPTOR_FROM_NODE_CONNECTION hub p wValue wIndex wLength).

Definition mute_record : DevInfoData.DevInfoData :=
  {| DevInfoData._hardwareId := L "USB\VID_0951&PID_172B&REV_0110";
     DevInfoData._driverKeyName := mute_key;
     DevInfoData._classGuid := GUID_DEVCLASS_USB;
     DevInfoData._deviceDescription := L "USB Mass Storage Device";
     DevInfoData.PopulateUsbInfo_path := Throw OutOfRange;
     DevInfoData.PopulateUsbControllerInfo_path := Throw OutOfRange |}.

Definition machine_with_mute_stick : Env :=
  {| os := {| CreateFileW := fun path =>
                if bool_decide (path = controller_path)
                then inl (controller_driver root_hub_name)
                else if bool_decide (path = root_hub_path)
                then inl root_hub_with_mute_stick
                else inr ERROR_FILE_NOT_FOUND;
              heap := fun _ => true;
              behind := fun _ _ => x00 |};
     allUsbDevices := Ok [mute_record; stick_record];
     controllers := Ok [controller_record];
     GetVendorStringById := fun v => if v =? 0x0951 then L "Kingston" else [] |}.

(** The connection record of the stick on port 1, and the hub object
    before the port is processed. *)
Definition mute_stick_connection : HubConnectionInfo :=
  {| _connectionIndex := 1;
     _deviceDescriptor := plain_device 0 0x0951 0x172B;
     _currentConfigurationValue := 1; _speed := UsbHighSpeed; _deviceIsHub := 0;
     _deviceAddress := 1; _numberOfOpenPipes := 0;
     _connectionStatus := DeviceConnected; _pipeList := [];
     _driverKeyName := mute_key |}.

Definition hub_with_mute_stick : UsbHub.UsbHub :=
  {| UsbHub._hubName := root_hub_path; UsbHub._numberOfPorts := 2;
     UsbHub._pDeviceCommunication := on root_hub_with_mute_stick;
     UsbHub._hubPortConnectorProperties := ∅; UsbHub._hubPortConnectionInfo := ∅;
     UsbHub._portUsbConfigurationDescriptor := ∅;
     UsbHub._usbDeviceDescriptionInfo := ∅ |}.

End SubtreeProps.

(* ===================================================================== *)
(** * The descriptor parser: termination, bounds, zero-length entries    *)
(* ===================================================================== *)

Module UsbDescriptorParserFacts.
Import Sdk Rd UsbDescriptorParser ParserProps.

Lemma byte_at_lt mem off : byte_at mem off < 256.
Proof.
  unfold byte_at.
  pose proof (Byte.to_N_bounded (nth (N.to_nat off) mem x00)). lia.
Qed.

Lemma IsDescriptorInBounds_eq p e mem log :
  IsDescriptorInBounds p e mem log = (in_bounds mem p e, in_bounds_log mem p e log).
Proof.
  unfold IsDescriptorInBounds, in_bounds, in_bounds_log, bind, load8, ret,
    sizeof_USB_COMMON_DESCRIPTOR, off_bLength.
  rewrite N.add_0_r.
  destruct (N.ltb_spec e (p + 2)) as [H1|H1];
    destruct (N.leb_spec (p + 2) e) as [H1'|H1']; try lia; cbn [andb]; [reflexivity|].
  destruct (N.ltb_spec e (p + byte_at mem p)) as [H2|H2];
    destruct (N.leb_spec (p + byte_at mem p) e) as [H2'|H2']; try lia; cbn [andb];
    [reflexivity|].
  destruct (byte_at mem p =? 0); reflexivity.
Qed.

Lemma in_bounds_true mem p e :
  in_bounds mem p e = true ->
  p + 2 <= e /\ p + byte_at mem p <= e /\ 0 < byte_at mem p.
Proof.
  unfold in_bounds. rewrite !andb_true_iff, negb_true_iff.
  intros [[H1 H2] H3].
  apply N.leb_le in H1. apply N.leb_le in H2. apply N.eqb_neq in H3. lia.
Qed.

Lemma in_bounds_zero_length mem p e : byte_at mem p = 0 -> in_bounds mem p e = false.
Proof.
  intros H. unfold in_bounds. rewrite H. cbn. now rewrite andb_false_r.
Qed.

(** ** Termination: the fuel of the entry points is never used up *)

Ltac loop_step IH :=
  unfold bind at 1; rewrite IsDescriptorInBounds_eq;
  match goal with
  | |- context [in_bounds ?m ?p ?e] =>
      let Hb := fresh "Hb" in
      destruct (in_bounds m p e) eqn:Hb; [apply in_bounds_true in Hb | discriminate]
  end;
  unfold bind, load8, ret, off_bLength;
  repeat match goal with
         | |- context [if ?c then _ else _] => destruct c
         end;
  try discriminate;
  apply IH; rewrite N.add_0_r; lia.

Lemma ExtractInterfaceClass_loop_total fuel : forall p e mem log,
  (N.to_nat (e - p) < fuel)%nat ->
  fst (ExtractInterfaceClass_loop fuel p e mem log) <> None.
Proof.
  induction fuel as [|fuel IH]; intros p e mem log Hf; [lia|].
  cbn [ExtractInterfaceClass_loop]. loop_step IH.
Qed.

Lemma HasStringDescriptors_loop_total fuel : forall p e mem log,
  (N.to_nat (e - p) < fuel)%nat ->
  fst (HasStringDescriptors_loop fuel p e mem log) <> None.
Proof.
  induction fuel as [|fuel IH]; intros p e mem log Hf; [lia|].
  cbn [HasStringDescriptors_loop]. loop_step IH.
Qed.

Lemma GetInterfaceCount_loop_total fuel : forall count p e mem log,
  (N.to_nat (e - p) < fuel)%nat ->
  fst (GetInterfaceCount_loop count fuel p e mem log) <> None.
Proof.
  induction fuel as [|fuel IH]; intros count p e mem log Hf; [lia|].
  cbn [GetInterfaceCount_loop]. loop_step IH.
Qed.

Lemma walk_from_header_total {A} (invalid : A) loop mem :
  (forall fuel p e log, (N.to_nat (e - p) < fuel)%nat ->
                        fst (loop fuel p e mem log) <> None) ->
  fst (run (walk_from_header invalid loop (S (N.to_nat (declared_total mem)))) mem)
    <> None.
Proof.
  intros Hloop. unfold run, walk_from_header, bind at 1.
  destruct (ValidateConfigurationDescriptor_at 0 mem []) as [ok log] eqn:Hv.
  destruct ok; cbn [negb]; [|discriminate].
  unfold bind, load16, load8, off_wTotalLength, off_bLength.
  apply Hloop. unfold declared_total. rewrite !N.add_0_l.
  change (2 + 1) with 3. lia.
Qed.

(** X1.  Every walk of the parser ends: the three entry points return a
    result on every buffer and on the null pointer. *)
Theorem parser_walks_terminate configDesc :
  fst (ExtractInterfaceClass configDesc) <> None /\
  fst (HasStringDescriptors configDesc) <> None /\
  fst (GetInterfaceCount configDesc) <> None.
Proof.
  destruct configDesc as [mem|]; [|repeat split; discriminate].
  unfold ExtractInterfaceClass, HasStringDescriptors, GetInterfaceCount,
    ExtractInterfaceClass_fuel, HasStringDescriptors_fuel, GetInterfaceCount_fuel,
    enough_fuel.
  repeat split; apply walk_from_header_total; intros.
  - now apply ExtractInterfaceClass_loop_total.
  - now apply HasStringDescriptors_loop_total.
  - now apply GetInterfaceCount_loop_total.
Qed.

(** ** Reads of [GetInterfaceCount] on a valid header *)

Lemma in_bounds_log_within mem p e log :
  reads_within e log -> reads_within e (in_bounds_log mem p e log).
Proof.
  intros H. unfold in_bounds_log.
  destruct (N.ltb_spec e (p + 2)); [assumption|].
  destruct (e <? p + byte_at mem p); repeat (constructor; [lia|]); assumption.
Qed.

Lemma GetInterfaceCount_loop_within e fuel : forall count p mem log,
  reads_within e log ->
  reads_within e (snd (GetInterfaceCount_loop count fuel p e mem log)).
Proof.
  induction fuel as [|fuel IH]; intros count p mem log Hlog; [assumption|].
  cbn [GetInterfaceCount_loop]. unfold bind at 1. rewrite IsDescriptorInBounds_eq.
  pose proof (in_bounds_log_within mem p e log Hlog) as Hlog'.
  destruct (in_bounds mem p e) eqn:Hb; [|assumption].
  apply in_bounds_true in Hb.
  unfold bind, load8, off_bLength, off_bDescriptorType.
  apply IH. repeat (constructor; [lia|]). assumption.
Qed.

Lemma validate_true mem log :
  fst (ValidateConfigurationDescriptor_at 0 mem log) = true ->
  9 <= byte_at mem 0 /\ byte_at mem 1 = 2 /\ 9 <= declared_total mem /\
  snd (ValidateConfigurationDescriptor_at 0 mem log) = 3 :: 2 :: 1 :: 0 :: log.
Proof.
  unfold ValidateConfigurationDescriptor_at, bind, load8, load16, ret, declared_total,
    off_bLength, off_bDescriptorType, off_wTotalLength,
    sizeof_USB_CONFIGURATION_DESCRIPTOR, USB_CONFIGURATION_DESCRIPTOR_TYPE.
  rewrite !N.add_0_l. change (2 + 1) with 3.
  destruct (N.ltb_spec (byte_at mem 0) 9); [discriminate|].
  destruct (N.eqb_spec (byte_at mem 1) 2); cbn [negb]; [|discriminate].
  destruct (N.ltb_spec (byte_at mem 2 + 256 * byte_at mem 3) 9); [discriminate|].
  cbn. auto.
Qed.

(** X2.  On a buffer with a valid header [GetInterfaceCount] reads only
    below the declared end: it looks at the two header bytes of each
    sub-descriptor and at nothing else. *)
Theorem GetInterfaceCount_reads_within mem :
  fst (ValidateConfigurationDescriptor (Some mem)) = true ->
  reads_within (declared_total mem) (snd (GetInterfaceCount (Some mem))).
Proof.
  unfold ValidateConfigurationDescriptor, GetInterfaceCount, GetInterfaceCount_fuel,
    run, walk_from_header. intros Hv.
  destruct (validate_true mem [] Hv) as (_ & _ & Htot & Hlog).
  unfold bind at 1.
  destruct (ValidateConfigurationDescriptor_at 0 mem []) as [ok log] eqn:E.
  cbn [fst snd] in Hv, Hlog. subst ok log. cbn [negb].
  unfold bind, load16, load8, off_wTotalLength, off_bLength.
  rewrite !N.add_0_l. change (2 + 1) with 3.
  fold (declared_total mem).
  apply GetInterfaceCount_loop_within.
  repeat (constructor; [lia|]). constructor.
Qed.

(** ** A descriptor of length zero *)

Lemma reaches_le mem e over p q : reaches mem e over p q -> p <= q.
Proof.
  induction 1 as [|p q Hb _ _ IH]; [lia|].
  apply in_bounds_true in Hb. lia.
Qed.

Lemma reaches_bound mem e over p q : reaches mem e over p q -> q = p \/ q <= e.
Proof.
  induction 1 as [|p q Hb _ _ IH]; [now left|].
  apply in_bounds_true in Hb. destruct IH; right; lia.
Qed.

Lemma ExtractInterfaceClass_loop_zero_length p e mem log :
  byte_at mem p = 0 ->
  fst (ExtractInterfaceClass_loop 1 p e mem log) = Some None.
Proof.
  intros Hz. cbn [ExtractInterfaceClass_loop]. unfold bind at 1.
  rewrite IsDescriptorInBounds_eq, (in_bounds_zero_length _ _ _ Hz). reflexivity.
Qed.

Lemma ExtractInterfaceClass_loop_reaches mem e p q :
  walk_reaches mem e p q ->
  byte_at mem q = 0 ->
  forall fuel log, (N.to_nat (q - p) < fuel)%nat ->
  fst (ExtractInterfaceClass_loop fuel p e mem log) = Some None.
Proof.
  unfold walk_reaches.
  induction 1 as [p|p q Hb Hty Hr IH]; intros Hz fuel log Hf.
  - destruct fuel as [|fuel]; [lia|].
    cbn [ExtractInterfaceClass_loop]. unfold bind at 1.
    rewrite IsDescriptorInBounds_eq, (in_bounds_zero_length _ _ _ Hz). reflexivity.
  - destruct fuel as [|fuel]; [lia|].
    cbn [ExtractInterfaceClass_loop]. unfold bind at 1.
    rewrite IsDescriptorInBounds_eq, Hb.
    unfold bind, load8, off_bDescriptorType, off_bLength.
    unfold not_interface in Hty. apply negb_true_iff in Hty. rewrite Hty.
    rewrite N.add_0_r. apply IH; [assumption|].
    apply in_bounds_true in Hb. apply reaches_le in Hr. lia.
Qed.

(** C6 (defect in the code).  The claim: no entry point reads a byte at
    or past the declared end of the buffer.  On a buffer that declares
    11 bytes and ends in a 2-byte descriptor tagged as an interface,
    [ExtractInterfaceClass] reads the class byte at offset 14 and
    returns it; on the same buffer with the tag of a configuration,
    [HasStringDescriptors] reads the string index at offset 15. *)
Theorem parser_reads_past_declared_end :
  declared_total truncated_interface = 11 /\
  ExtractInterfaceClass (Some truncated_interface)
    = (Some (Some 8), [14; 10; 9; 9; 0; 3; 2; 3; 2; 1; 0]) /\
  ~ reads_within (declared_total truncated_interface)
      (snd (ExtractInterfaceClass (Some truncated_interface))) /\
  declared_total truncated_configuration = 11 /\
  HasStringDescriptors (Some truncated_configuration)
    = (Some true, [15; 10; 9; 9; 0; 3; 2; 3; 2; 1; 0]) /\
  ~ reads_within (declared_total truncated_configuration)
      (snd (HasStringDescriptors (Some truncated_configuration))).
Proof.
  repeat split; try reflexivity.
  - intros H. apply Forall_inv in H. vm_compute in H. discriminate.
  - intros H. apply Forall_inv in H. vm_compute in H. discriminate.
Qed.

(** C7 as stated fails: the chain of this buffer contains a
    descriptor of length 0 at offset 18, inside the declared 29 bytes,
    yet the walk returns the class of the interface descriptor that
    precedes it. *)
Lemma interface_before_zero_length_is_found :
  fst (ValidateConfigurationDescriptor (Some interface_then_zero_length)) = true /\
  chain_reaches interface_then_zero_length
    (declared_total interface_then_zero_length)
    (first_sub_descriptor interface_then_zero_length) 18 /\
  18 + 2 <= declared_total interface_then_zero_length /\
  byte_at interface_then_zero_length 18 = 0 /\
  fst (ExtractInterfaceClass (Some interface_then_zero_length)) = Some (Some 3) /\
  fst (ExtractInterfaceClass (Some interface_then_zero_length)) <> Some None.
Proof.
  repeat split; try reflexivity; try discriminate.
  apply (reaches_step _ _ _ 9 18); [reflexivity | reflexivity | apply reaches_here].
Qed.

(** C7, amended.  When the walk of [ExtractInterfaceClass] gets as far
    as a sub-descriptor of declared length 0 (no descriptor before it
    in the chain is tagged as an interface), the loop ends at that
    descriptor without a further iteration, and the result is "not
    found". *)
Theorem zero_length_descriptor_ends_walk mem p :
  walk_reaches mem (declared_total mem) (first_sub_descriptor mem) p ->
  byte_at mem p = 0 ->
  (forall log,
     fst (ExtractInterfaceClass_loop 1 p (declared_total mem) mem log) = Some None) /\
  fst (ExtractInterfaceClass (Some mem)) = Some None.
Proof.
  intros Hr Hz. split.
  - intros log. now apply ExtractInterfaceClass_loop_zero_length.
  - unfold ExtractInterfaceClass, ExtractInterfaceClass_fuel, enough_fuel, run,
      walk_from_header, bind at 1.
    destruct (ValidateConfigurationDescriptor_at 0 mem []) as [ok log] eqn:Hv.
    destruct ok; cbn [negb]; [|reflexivity].
    unfold bind, load16, load8, off_wTotalLength, off_bLength.
    rewrite !N.add_0_l. change (2 + 1) with 3. fold (declared_total mem).
    apply (ExtractInterfaceClass_loop_reaches _ _ _ p); [exact Hr | exact Hz |].
    destruct (reaches_bound _ _ _ _ _ Hr) as [->| Hle];
      unfold first_sub_descriptor; lia.
Qed.

Lemma zero_length_descriptor_ends_walk_witness :
  walk_reaches endpoint_then_zero_length (declared_total endpoint_then_zero_length)
    (first_sub_descriptor endpoint_then_zero_length) 16 /\
  byte_at endpoint_then_zero_length 16 = 0 /\
  fst (ExtractInterfaceClass (Some endpoint_then_zero_length)) = Some None.
Proof.
  assert (Hr : walk_reaches endpoint_then_zero_length
                 (declared_total endpoint_then_zero_length)
                 (first_sub_descriptor endpoint_then_zero_length) 16).
  { apply (reaches_step _ _ _ 9 16); [reflexivity | reflexivity | apply reaches_here]. }
  split; [exact Hr|]. split; [reflexivity|].
  exact (proj2 (zero_length_descriptor_ends_walk endpoint_then_zero_length 16 Hr eq_refl)).
Defined.

End UsbDescriptorParserFacts.

(* ===================================================================== *)
(** * The transport: what the port enumeration stores                    *)
(* ===================================================================== *)

Module DeviceCommunicationFacts.
Import Sdk Exn DeviceCommunication TransportProps.

Lemma try_emplace_fresh {V} (k : N) (v : V) (m : gmap N V) :
  m !! k = None -> try_emplace k v m = <[k := v]> m.
Proof. intros H. unfold try_emplace. now rewrite H. Qed.

Lemma elem_of_ports_upto n p : p ∈ ports_upto n <-> 1 <= p <= n.
Proof.
  unfold ports_upto. rewrite list_elem_of_fmap. split.
  - intros (k & -> & Hk). apply elem_of_seq in Hk. lia.
  - intros H. exists (N.to_nat p). split; [lia|]. apply elem_of_seq. lia.
Qed.

Lemma NoDup_ports_upto n : NoDup (ports_upto n).
Proof.
  unfold ports_upto. apply NoDup_fmap_2; [|apply NoDup_seq].
  intros a b H. lia.
Qed.

Lemma length_ports_upto n : length (ports_upto n) = N.to_nat n.
Proof. unfold ports_upto. now rewrite length_map, length_seq. Qed.

Lemma to_ULONG_small p : p <= 255 -> to_ULONG p = p.
Proof. intros H. unfold to_ULONG. apply N.mod_small. lia. Qed.

(** The loop, port by port: every listed port gets the entry
    [stored_entry] describes, nothing else changes, and the map grows
    by the number of ports that answer. *)
Lemma EnumeratePortsConnectionInfo_loop_spec comm : forall ports m0 m,
  NoDup ports ->
  (forall p, p ∈ ports -> m0 !! p = None) ->
  EnumeratePortsConnectionInfo_loop comm ports m0 = Ok m ->
  (forall p, p ∈ ports -> m !! p = stored_entry comm p) /\
  (forall p, p ∉ ports -> m !! p = m0 !! p) /\
  (forall p, p ∈ ports -> is_Some (stored_entry comm p) <-> port_answers comm p = true) /\
  size m = (size m0 + length (filter (fun p => port_answers comm p = true) ports))%nat.
Proof.
  induction ports as [|p rest IH]; intros m0 m Hnd Hfresh Hrun.
  - cbn in Hrun. injection Hrun as <-. repeat split;
      try (intros; match goal with H : _ ∈ [] |- _ => now inversion H end).
    rewrite filter_nil. simpl length. lia.
  - apply NoDup_cons in Hnd as [Hp Hnd].
    cbn [EnumeratePortsConnectionInfo_loop] in Hrun.
    unfold THROW_IF_NULL_ALLOC at 1 in Hrun.
    destruct (alloc_ok comm _); [|discriminate]. cbn [Exn.bind] in Hrun.
    fold (primary_answer comm p) in Hrun.
    assert (Hfresh' : forall v q, q ∈ rest -> <[p := v]> m0 !! q = None).
    { intros v q Hq. rewrite lookup_insert_ne; [|intros ->; contradiction].
      apply Hfresh. now right. }
    assert (Hstore : forall (info : HubConnectionInfo) c m',
              EnumeratePortsConnectionInfo_loop comm rest
                (store_connection comm p info c m0) = Ok m' ->
              stored_entry comm p = Some (resolve_driver_key comm p info c) ->
              port_answers comm p = true ->
              (forall q, q ∈ p :: rest -> m' !! q = stored_entry comm q) /\
              (forall q, q ∉ p :: rest -> m' !! q = m0 !! q) /\
              (forall q, q ∈ p :: rest ->
                 is_Some (stored_entry comm q) <-> port_answers comm q = true) /\
              size m' = (size m0 +
                 length (filter (fun q => port_answers comm q = true) (p :: rest)))%nat).
    { intros info c m' Hrun' Hst Hans.
      unfold store_connection in Hrun'.
      rewrite try_emplace_fresh in Hrun' by (apply Hfresh; now left).
      destruct (IH _ _ Hnd (Hfresh' _) Hrun') as (H1 & H2 & H3 & H4).
      repeat split.
      - intros q Hq. apply elem_of_cons in Hq as [->|Hq]; [|now apply H1].
        rewrite (H2 _ Hp), lookup_insert_eq. now rewrite Hst.
      - intros q Hq. apply not_elem_of_cons in Hq as [Hne Hq].
        rewrite (H2 _ Hq). now rewrite lookup_insert_ne.
      - apply elem_of_cons in H as [->|Hq]; [now rewrite Hans | now apply H3].
      - apply elem_of_cons in H as [->|Hq]; [rewrite Hst; eauto | now apply H3].
      - rewrite H4, map_size_insert_None by (apply Hfresh; now left).
        rewrite filter_cons_True by exact Hans. cbn. lia. }
    destruct (io_ok (primary_answer comm p)) eqn:Hex.
    + destruct (populateConnectionInfo comm default_HubConnectionInfo
                  (io_out (primary_answer comm p)) p (queryConnectionInfoV2 comm p))
        as [info|e] eqn:Hpop; [|discriminate].
      cbn [Exn.bind] in Hrun.
      eapply Hstore; [exact Hrun | | ].
      * unfold stored_entry. now rewrite Hex, Hpop.
      * unfold port_answers. now rewrite Hex.
    + unfold queryLegacyConnectionInfo in Hrun.
      unfold THROW_IF_NULL_ALLOC at 1 in Hrun.
      destruct (alloc_ok comm (connection_buffer_size
                                 sizeof_USB_NODE_CONNECTION_INFORMATION)) eqn:Ha;
        [|discriminate].
      cbn [Exn.bind] in Hrun. fold (legacy_answer comm p) in Hrun.
      destruct (io_ok (legacy_answer comm p)) eqn:Hleg; cbn [negb Exn.bind] in Hrun.
      * destruct (copy_pipes comm sizeof_USB_NODE_CONNECTION_INFORMATION
                    (ci_NumberOfOpenPipes (io_out (legacy_answer comm p)))
                    (ci_PipeList (io_out (legacy_answer comm p))))
          as [pipes|e] eqn:Hcp; [|discriminate].
        cbn [Exn.bind] in Hrun.
        eapply Hstore; [exact Hrun | | ].
        -- unfold stored_entry, queryLegacyConnectionInfo, THROW_IF_NULL_ALLOC.
           rewrite Hex, Ha. cbn [Exn.bind]. fold (legacy_answer comm p).
           now rewrite Hleg, Hcp.
        -- unfold port_answers. now rewrite Hex, Hleg.
      * assert (Hst : stored_entry comm p = None).
        { unfold stored_entry, queryLegacyConnectionInfo, THROW_IF_NULL_ALLOC.
          rewrite Hex, Ha. cbn [Exn.bind]. fold (legacy_answer comm p).
          now rewrite Hleg. }
        assert (Hans : port_answers comm p <> true).
        { unfold port_answers. rewrite Hex, Hleg. discriminate. }
        assert (Hfr : forall q, q ∈ rest -> m0 !! q = None).
        { intros q Hq. apply Hfresh. now right. }
        destruct (IH _ _ Hnd Hfr Hrun) as (H1 & H2 & H3 & H4).
        repeat split.
        -- intros q Hq. apply elem_of_cons in Hq as [->|Hq]; [|now apply H1].
           rewrite (H2 _ Hp), Hst. apply Hfresh. now left.
        -- intros q Hq. apply not_elem_of_cons in Hq as [Hne Hq]. now apply H2.
        -- apply elem_of_cons in H as [->|Hq]; [|now apply H3].
           rewrite Hst. intros [? ?]. discriminate.
        -- apply elem_of_cons in H as [->|Hq]; [|now apply H3].
           intros; contradiction.
        -- rewrite H4, filter_cons_False by exact Hans. reflexivity.
Qed.

(** A successful run: the arguments were accepted, and the map holds
    exactly what [stored_entry] describes for the ports [1 .. n]. *)
Lemma EnumeratePortsConnectionInfo_Ok comm n m0 m :
  EnumeratePortsConnectionInfo comm n m0 = Ok m ->
  1 <= n <= MaxPortsPerHub /\
  (forall p, 1 <= p <= n -> m !! p = stored_entry comm p) /\
  (forall p, ~ 1 <= p <= n -> m !! p = None) /\
  (forall p, 1 <= p <= n ->
     is_Some (stored_entry comm p) <-> port_answers comm p = true) /\
  size m = length (filter (fun p => port_answers comm p = true) (ports_upto n)).
Proof.
  unfold EnumeratePortsConnectionInfo, check_enumeration_arguments, MaxPortsPerHub.
  destruct (N.eqb_spec n 0); [discriminate|].
  destruct (N.ltb_spec 255 n); [discriminate|].
  destruct (handle_invalid comm); [discriminate|]. cbn [Exn.bind].
  intros Hrun.
  apply EnumeratePortsConnectionInfo_loop_spec in Hrun as (H1 & H2 & H3 & H4);
    [|apply NoDup_ports_upto|intros; apply lookup_empty].
  split; [lia|]. repeat split.
  - intros p Hp. apply H1. now apply elem_of_ports_upto.
  - intros p Hp. rewrite H2; [apply lookup_empty|]. now rewrite elem_of_ports_upto.
  - apply H3. now apply elem_of_ports_upto.
  - apply H3. now apply elem_of_ports_upto.
  - rewrite H4, map_size_empty. reflexivity.
Qed.

Lemma filter_all {A} (P : A -> Prop) `{forall x, Decision (P x)} (l : list A) :
  (forall x, x ∈ l -> P x) -> filter P l = l.
Proof.
  induction l as [|a l IH]; intros Hall; [reflexivity|].
  rewrite filter_cons_True by (apply Hall; now left).
  f_equal. apply IH. intros x Hx. apply Hall. now right.
Qed.

(** [resolve_driver_key] touches the driver key only. *)
Lemma resolve_driver_key_fields comm p info c :
  let info' := resolve_driver_key comm p info c in
  _connectionIndex info' = _connectionIndex info /\
  _speed info' = _speed info /\
  _deviceAddress info' = _deviceAddress info /\
  _numberOfOpenPipes info' = _numberOfOpenPipes info /\
  _pipeList info' = _pipeList info /\
  _connectionStatus info' = _connectionStatus info.
Proof.
  unfold resolve_driver_key. destruct c; [|cbn; auto 10].
  destruct (GetDriverKeyName comm (to_ULONG p)); cbn; auto 10.
Qed.

Lemma length_copy_pipes comm header n l pipes :
  copy_pipes comm header n l = Ok pipes -> N.of_nat (length pipes) = n.
Proof.
  unfold copy_pipes. destruct (reserve comm n); [|discriminate].
  intros [= <-]. rewrite length_map, length_seq. lia.
Qed.

(** [queryConnectionInfoV2] in terms of the kernel's answer. *)
Lemma queryConnectionInfoV2_answer comm p :
  queryConnectionInfoV2 comm p
    = if v2_query_succeeded comm p then Some (io_out (v2_answer comm p)) else None.
Proof. reflexivity. Qed.

(** The entry of a port, field by field. *)
Lemma stored_entry_fields comm p info :
  stored_entry comm p = Some info ->
  _connectionIndex info = to_ULONG p /\
  N.of_nat (length (_pipeList info)) = _numberOfOpenPipes info /\
  _deviceAddress info = reported_address comm p /\
  (io_ok (primary_answer comm p) = true ->
   _speed info =
     if (ex_Speed (io_out (primary_answer comm p)) =? UsbHighSpeed) &&
        v2_reports_super_speed comm p
     then UsbSuperSpeed
     else ex_Speed (io_out (primary_answer comm p))) /\
  (io_ok (primary_answer comm p) = false ->
   _speed info =
     if negb (ci_LowSpeed (io_out (legacy_answer comm p)) =? 0)
     then UsbLowSpeed else UsbFullSpeed).
Proof.
  unfold stored_entry, reported_address.
  rewrite queryConnectionInfoV2_answer. unfold v2_reports_super_speed.
  destruct (io_ok (primary_answer comm p)) eqn:Hex.
  - unfold populateConnectionInfo.
    destruct (copy_pipes comm _ _ _) as [pipes|e] eqn:Hcp; cbn [Exn.bind];
      [|discriminate].
    intros [= <-].
    match goal with
    | |- context [resolve_driver_key comm p ?i ?c] =>
        destruct (resolve_driver_key_fields comm p i c) as (-> & -> & -> & -> & -> & _)
    end.
    cbn [_connectionIndex _pipeList _numberOfOpenPipes _deviceAddress _speed].
    repeat split; try discriminate.
    + exact (length_copy_pipes _ _ _ _ _ Hcp).
    + intros _. destruct (ex_Speed _ =? UsbHighSpeed);
        destruct (v2_query_succeeded comm p); cbn [andb]; reflexivity.
  - unfold queryLegacyConnectionInfo.
    destruct (THROW_IF_NULL_ALLOC comm _); cbn [Exn.bind]; [|discriminate].
    fold (legacy_answer comm p).
    destruct (io_ok (legacy_answer comm p)); cbn [negb]; [|discriminate].
    destruct (copy_pipes comm _ _ _) as [pipes|e] eqn:Hcp; cbn [Exn.bind];
      [|discriminate].
    intros [= <-].
    match goal with
    | |- context [resolve_driver_key comm p ?i ?c] =>
        destruct (resolve_driver_key_fields comm p i c) as (-> & -> & -> & -> & -> & _)
    end.
    cbn [_connectionIndex _pipeList _numberOfOpenPipes _deviceAddress _speed].
    repeat split; try discriminate.
    exact (length_copy_pipes _ _ _ _ _ Hcp).
Qed.

(** C1 as stated fails: on a three-port hub whose port 2 answers
    neither connection query, the enumeration completes and the map
    has two entries; key 2 is missing. *)
Lemma silent_port_is_skipped :
  exists m,
    EnumeratePortsConnectionInfo hub_with_silent_port 3 ∅ = Ok m /\
    size m = 2%nat /\ m !! 2 = None /\ is_Some (m !! 1) /\ is_Some (m !! 3).
Proof.
  destruct (EnumeratePortsConnectionInfo hub_with_silent_port 3 ∅) as [m|e] eqn:E;
    [|vm_compute in E; discriminate].
  exists m. split; [reflexivity|].
  assert (Hm : (size m, m !! 2, bool_decide (is_Some (m !! 1)),
                bool_decide (is_Some (m !! 3)))
               = (2%nat, None, true, true)).
  { assert (Hc : match EnumeratePortsConnectionInfo hub_with_silent_port 3 ∅ with
                 | Ok m => (size m, m !! 2, bool_decide (is_Some (m !! 1)),
                            bool_decide (is_Some (m !! 3)))
                          = (2%nat, None, true, true)
                 | Throw _ => False
                 end) by (vm_compute; reflexivity).
    now rewrite E in Hc. }
  injection Hm as H1 H2 H3 H4.
  repeat split; try assumption; eapply bool_decide_eq_true_1; eassumption.
Qed.

(** C1, amended.  After a successful [EnumeratePortsConnectionInfo] on
    [n] ports ([1 <= n <= 255]) the keys of the map are exactly the
    ports of [1 .. n] whose primary or legacy connection query
    succeeded; a port that answers neither is skipped.  Each entry's
    stored connection index equals its key.  The map has at most [n]
    entries, and exactly [n] when every port answers. *)
Theorem connection_map_keys comm n m0 m :
  EnumeratePortsConnectionInfo comm n m0 = Ok m ->
  1 <= n <= MaxPortsPerHub /\
  (forall p, is_Some (m !! p) <-> 1 <= p <= n /\ port_answers comm p = true) /\
  (forall p info, m !! p = Some info -> _connectionIndex info = p) /\
  (size m <= N.to_nat n)%nat /\
  ((forall p, 1 <= p <= n -> port_answers comm p = true) -> size m = N.to_nat n).
Proof.
  intros Hrun.
  destruct (EnumeratePortsConnectionInfo_Ok _ _ _ _ Hrun) as (Hn & Hin & Hout & Hans & Hsz).
  unfold MaxPortsPerHub in *.
  split; [exact Hn|]. split; [|split; [|split]].
  - intros p. split.
    + intros Hs. destruct (decide (1 <= p <= n)) as [Hp|Hp].
      * split; [exact Hp|]. apply Hans; [exact Hp|]. now rewrite <- Hin.
      * rewrite (Hout _ Hp) in Hs. destruct Hs; discriminate.
    + intros [Hp Ha]. rewrite (Hin _ Hp). now apply Hans.
  - intros p info Hl.
    destruct (decide (1 <= p <= n)) as [Hp|Hp];
      [|rewrite (Hout _ Hp) in Hl; discriminate].
    rewrite (Hin _ Hp) in Hl.
    destruct (stored_entry_fields _ _ _ Hl) as (-> & _).
    apply to_ULONG_small. lia.
  - rewrite Hsz, <- length_ports_upto. apply length_filter.
  - intros Hall. rewrite Hsz, filter_all; [apply length_ports_upto|].
    intros p Hp. apply Hall. now apply elem_of_ports_upto.
Qed.

Lemma connection_map_keys_witness :
  exists m,
    EnumeratePortsConnectionInfo hub_with_silent_port 3 ∅ = Ok m /\
    (forall p info, m !! p = Some info -> _connectionIndex info = p) /\
    (size m <= 3)%nat.
Proof.
  destruct (EnumeratePortsConnectionInfo hub_with_silent_port 3 ∅) as [m|e] eqn:E;
    [|vm_compute in E; discriminate].
  exists m. split; [reflexivity|].
  destruct (connection_map_keys hub_with_silent_port 3 ∅ m E) as (_ & _ & Hidx & Hsz & _).
  split; [exact Hidx | exact Hsz].
Defined.

Lemma answering_port_has_entry comm n m0 m p :
  EnumeratePortsConnectionInfo comm n m0 = Ok m ->
  1 <= p <= n ->
  port_answers comm p = true ->
  exists info, m !! p = Some info /\ stored_entry comm p = Some info.
Proof.
  intros Hrun Hp Ha.
  destruct (EnumeratePortsConnectionInfo_Ok _ _ _ _ Hrun) as (_ & Hin & _ & Hans & _).
  destruct (proj2 (Hans p Hp) Ha) as [info Hi].
  exists info. now rewrite (Hin p Hp).
Qed.

(** C8.  For a port whose primary extended connection query succeeds,
    the stored speed is the speed that query reports, except when it
    reports high speed and the V2 query succeeded with its
    SuperSpeed-or-higher or SuperSpeedPlus-or-higher flag set: then,
    and only then, the stored speed is SuperSpeed instead.  That the
    V2 query succeeded is read off the kernel's answer: the call
    returned true and at least the 16 bytes of the structure, and the
    flags are bits 0 and 2 of the word it returned. *)
Theorem stored_speed_of_primary_query comm n m0 m p :
  EnumeratePortsConnectionInfo comm n m0 = Ok m ->
  1 <= p <= n ->
  io_ok (primary_answer comm p) = true ->
  exists info,
    m !! p = Some info /\
    _speed info =
      if (ex_Speed (io_out (primary_answer comm p)) =? UsbHighSpeed) &&
         v2_reports_super_speed comm p
      then UsbSuperSpeed
      else ex_Speed (io_out (primary_answer comm p)).
Proof.
  intros Hrun Hp Hex.
  destruct (answering_port_has_entry comm n m0 m p Hrun Hp) as (info & Hl & Hs).
  { unfold port_answers. now rewrite Hex. }
  exists info. split; [exact Hl|].
  destruct (stored_entry_fields _ _ _ Hs) as (_ & _ & _ & Hspeed & _).
  now apply Hspeed.
Qed.

Lemma stored_speed_of_primary_query_witness :
  (exists m info,
     EnumeratePortsConnectionInfo hub_with_mixed_speeds 2 ∅ = Ok m /\
     m !! 1 = Some info /\ _speed info = UsbSuperSpeed) /\
  (exists m info1 info2,
     EnumeratePortsConnectionInfo hub_with_unusable_v2 2 ∅ = Ok m /\
     m !! 1 = Some info1 /\ _speed info1 = UsbHighSpeed /\
     m !! 2 = Some info2 /\ _speed info2 = UsbHighSpeed).
Proof.
  split.
  - destruct (EnumeratePortsConnectionInfo hub_with_mixed_speeds 2 ∅) as [m|e] eqn:E;
      [|vm_compute in E; discriminate].
    destruct (stored_speed_of_primary_query hub_with_mixed_speeds 2 ∅ m 1 E)
      as (info & Hl & Hs); [lia | reflexivity |].
    exists m, info. split; [reflexivity|]. split; [exact Hl | exact Hs].
  - destruct (EnumeratePortsConnectionInfo hub_with_unusable_v2 2 ∅) as [m|e] eqn:E;
      [|vm_compute in E; discriminate].
    destruct (stored_speed_of_primary_query hub_with_unusable_v2 2 ∅ m 1 E)
      as (info1 & Hl1 & Hs1); [lia | reflexivity |].
    destruct (stored_speed_of_primary_query hub_with_unusable_v2 2 ∅ m 2 E)
      as (info2 & Hl2 & Hs2); [lia | reflexivity |].
    exists m, info1, info2. repeat split; assumption.
Defined.

(** C10.  For a port filled by the legacy fallback (the primary query
    fails, the legacy query succeeds) the stored speed is low speed
    when the low-speed flag of the legacy record is set and full speed
    otherwise; it is never high speed or SuperSpeed. *)
Theorem stored_speed_of_legacy_query comm n m0 m p :
  EnumeratePortsConnectionInfo comm n m0 = Ok m ->
  1 <= p <= n ->
  io_ok (primary_answer comm p) = false ->
  io_ok (legacy_answer comm p) = true ->
  exists info,
    m !! p = Some info /\
    _speed info =
      (if negb (ci_LowSpeed (io_out (legacy_answer comm p)) =? 0)
       then UsbLowSpeed else UsbFullSpeed) /\
    _speed info <> UsbHighSpeed /\ _speed info <> UsbSuperSpeed.
Proof.
  intros Hrun Hp Hex Hleg.
  destruct (answering_port_has_entry comm n m0 m p Hrun Hp) as (info & Hl & Hs).
  { unfold port_answers. now rewrite Hex, Hleg. }
  exists info. split; [exact Hl|].
  destruct (stored_entry_fields _ _ _ Hs) as (_ & _ & _ & _ & Hspeed).
  rewrite (Hspeed Hex).
  destruct (negb _); repeat split; discriminate.
Qed.

Lemma stored_speed_of_legacy_query_witness :
  exists m info,
    EnumeratePortsConnectionInfo hub_with_mixed_speeds 2 ∅ = Ok m /\
    m !! 2 = Some info /\ _speed info = UsbLowSpeed.
Proof.
  destruct (EnumeratePortsConnectionInfo hub_with_mixed_speeds 2 ∅) as [m|e] eqn:E;
    [|vm_compute in E; discriminate].
  destruct (stored_speed_of_legacy_query hub_with_mixed_speeds 2 ∅ m 2 E)
    as (info & Hl & Hs & _); [lia | reflexivity | reflexivity |].
  exists m, info. split; [reflexivity|]. split; [exact Hl | exact Hs].
Defined.

(** C9 as stated fails: the library stores the address the kernel
    reports.  On a hub that reports a connected device with address 0
    on both of its ports, both entries are connected, carry address 0
    (outside [1,127]) and share it. *)
Lemma address_zero_is_stored_twice :
  exists m i1 i2,
    EnumeratePortsConnectionInfo hub_with_address_zero 2 ∅ = Ok m /\
    m !! 1 = Some i1 /\ m !! 2 = Some i2 /\
    _connectionStatus i1 = DeviceConnected /\ _connectionStatus i2 = DeviceConnected /\
    _deviceAddress i1 = 0 /\ _deviceAddress i2 = 0 /\
    ~ 1 <= _deviceAddress i1 <= 127 /\
    _deviceAddress i1 = _deviceAddress i2.
Proof.
  destruct (EnumeratePortsConnectionInfo hub_with_address_zero 2 ∅) as [m|e] eqn:E;
    [|vm_compute in E; discriminate].
  assert (Hc : match EnumeratePortsConnectionInfo hub_with_address_zero 2 ∅ with
               | Ok m =>
                   ((fun i => (_connectionStatus i, _deviceAddress i)) <$> m !! 1,
                    (fun i => (_connectionStatus i, _deviceAddress i)) <$> m !! 2)
                   = (Some (DeviceConnected, 0), Some (DeviceConnected, 0))
               | Throw _ => False
               end) by (vm_compute; reflexivity).
  rewrite E in Hc.
  destruct (m !! 1) as [i1|] eqn:H1; [|discriminate].
  destruct (m !! 2) as [i2|] eqn:H2; [|discriminate].
  cbn in Hc. injection Hc as Hs1 Ha1 Hs2 Ha2.
  exists m, i1, i2. rewrite Ha1, Ha2, Hs1, Hs2.
  split; [reflexivity|]. split; [exact H1|]. split; [exact H2|].
  do 4 (split; [reflexivity|]). split; [|reflexivity].
  intros [Hlo _]. now apply Hlo.
Qed.

(** C9, amended.  For every entry of a populated map (connected or
    not) the stored number of open pipes equals the length of the
    stored pipe list, and the stored device address is the address the
    kernel reported for that port in the query that filled the entry.
    The library establishes neither the range [1,127] nor
    uniqueness. *)
Theorem stored_pipes_and_address comm n m0 m p info :
  EnumeratePortsConnectionInfo comm n m0 = Ok m ->
  m !! p = Some info ->
  N.of_nat (length (_pipeList info)) = _numberOfOpenPipes info /\
  _deviceAddress info = reported_address comm p.
Proof.
  intros Hrun Hl.
  destruct (EnumeratePortsConnectionInfo_Ok _ _ _ _ Hrun) as (_ & Hin & Hout & _).
  destruct (decide (1 <= p <= n)) as [Hp|Hp];
    [|rewrite (Hout _ Hp) in Hl; discriminate].
  rewrite (Hin _ Hp) in Hl.
  destruct (stored_entry_fields _ _ _ Hl) as (_ & Hpipes & Haddr & _).
  now split.
Qed.

Lemma stored_pipes_and_address_witness :
  exists m info,
    EnumeratePortsConnectionInfo hub_with_mixed_speeds 2 ∅ = Ok m /\
    m !! 1 = Some info /\
    N.of_nat (length (_pipeList info)) = _numberOfOpenPipes info /\
    _deviceAddress info = 5.
Proof.
  destruct (EnumeratePortsConnectionInfo hub_with_mixed_speeds 2 ∅) as [m|e] eqn:E;
    [|vm_compute in E; discriminate].
  destruct (answering_port_has_entry hub_with_mixed_speeds 2 ∅ m 1 E)
    as (info & Hl & _); [lia | reflexivity |].
  destruct (stored_pipes_and_address hub_with_mixed_speeds 2 ∅ m 1 info E Hl)
    as [Hp Ha].
  exists m, info. split; [reflexivity|]. split; [exact Hl|]. split; [exact Hp | exact Ha].
Defined.

(** C3 as stated fails for [GetUsbHubNodeCapabilitiesEx]: on a driver
    that rejects the capabilities query it throws. *)
Lemma capabilities_query_throws_when_unsupported :
  unsupported (hub_capabilities_ex_answer (on deaf_driver))
    sizeof_USB_HUB_CAPABILITIES_EX = true /\
  GetUsbHubNodeCapabilitiesEx (on deaf_driver) {| _hubIsRoot := false |}
    = Throw (ResultException 0x80070001).
Proof. split; reflexivity. Qed.

(** C3, amended.  When the kernel query is unsupported (the call fails
    or returns fewer bytes than the structure has),
    [GetUsbHubNodeInformationEx] returns normally with the support
    flag false and the port number defaulted to 0, and it returns
    normally in every other case too; [GetUsbHubNodeCapabilitiesEx]
    instead raises the typed I/O error that carries the OS error
    code. *)
Theorem unsupported_hub_queries comm nodeInfoEx capabilities :
  (exists r, GetUsbHubNodeInformationEx comm nodeInfoEx = Ok r) /\
  (unsupported (hub_information_ex_answer comm) sizeof_USB_HUB_INFORMATION_EX = true ->
   GetUsbHubNodeInformationEx comm nodeInfoEx
     = Ok {| _highestPortNumber := 0; _isHubInfoExSupport := false |}) /\
  (unsupported (hub_capabilities_ex_answer comm) sizeof_USB_HUB_CAPABILITIES_EX = true ->
   GetUsbHubNodeCapabilitiesEx comm capabilities
     = Throw (ResultException
                (HRESULT_FROM_WIN32 (io_err (hub_capabilities_ex_answer comm)))) /\
   is_IoError (ResultException
                 (HRESULT_FROM_WIN32 (io_err (hub_capabilities_ex_answer comm)))) = true).
Proof.
  split; [eexists; reflexivity|]. split.
  - unfold unsupported, GetUsbHubNodeInformationEx.
    fold (hub_information_ex_answer comm). intros Hu.
    assert (Hs : io_ok (hub_information_ex_answer comm) &&
                 (sizeof_USB_HUB_INFORMATION_EX <=? io_bytes (hub_information_ex_answer comm))
                 = false).
    { destruct (io_ok _); cbn in *; [|reflexivity].
      apply N.ltb_lt in Hu. apply N.leb_gt. exact Hu. }
    now rewrite Hs.
  - unfold unsupported, GetUsbHubNodeCapabilitiesEx.
    fold (hub_capabilities_ex_answer comm). intros ->. split; reflexivity.
Qed.

Lemma unsupported_hub_queries_witness :
  GetUsbHubNodeInformationEx (on deaf_driver)
    {| _highestPortNumber := 7; _isHubInfoExSupport := true |}
    = Ok {| _highestPortNumber := 0; _isHubInfoExSupport := false |} /\
  GetUsbHubNodeCapabilitiesEx (on deaf_driver) {| _hubIsRoot := false |}
    = Throw (ResultException (HRESULT_FROM_WIN32 ERROR_INVALID_FUNCTION)).
Proof.
  destruct (unsupported_hub_queries (on deaf_driver)
              {| _highestPortNumber := 7; _isHubInfoExSupport := true |}
              {| _hubIsRoot := false |}) as (_ & Hex & Hcap).
  split; [exact (Hex eq_refl) | exact (proj1 (Hcap eq_refl))].
Defined.

(** C4 as stated fails for [GetDriverKeyName]: index 0 and an unset
    handle are reported by the two typed errors of argument and handle
    validation, which are not I/O errors. *)
Lemma driver_key_validation_errors_are_not_io_errors :
  GetDriverKeyName unopened 0 = Throw InvalidDeviceArgumentException /\
  is_IoError InvalidDeviceArgumentException = false /\
  GetDriverKeyName unopened 1 = Throw InvalidDeviceHandleException /\
  is_IoError InvalidDeviceHandleException = false.
Proof. repeat split; reflexivity. Qed.

(** C4, amended.  [GetDriverKeyName] fails with the typed
    invalid-argument error when the connection index is 0, and with
    the typed invalid-handle error when the index is not 0 and the
    handle is invalid or unset; no kernel call is made in either case.
    [GetUsbExternalHubName] checks neither: it hands the index to the
    kernel and fails with the typed I/O error carrying the OS error
    code when the first kernel call fails, which is what happens on
    an invalid or unset handle. *)
Theorem name_query_failures comm index hubName :
  GetDriverKeyName comm 0 = Throw InvalidDeviceArgumentException /\
  (index <> 0 -> _hFile comm = None ->
   GetDriverKeyName comm index = Throw InvalidDeviceHandleException) /\
  (io_ok (external_hub_name_probe comm index) = false ->
   GetUsbExternalHubName comm index hubName
     = Throw (ResultException
                (HRESULT_FROM_WIN32 (io_err (external_hub_name_probe comm index))))) /\
  (_hFile comm = None ->
   GetUsbExternalHubName comm index hubName
     = Throw (ResultException (HRESULT_FROM_WIN32 ERROR_INVALID_HANDLE)) /\
   is_IoError (ResultException (HRESULT_FROM_WIN32 ERROR_INVALID_HANDLE)) = true).
Proof.
  split; [reflexivity|]. split; [|split].
  - intros Hi Hh. unfold GetDriverKeyName, handle_invalid.
    apply N.eqb_neq in Hi. now rewrite Hi, Hh.
  - intros Hf. unfold GetUsbExternalHubName.
    fold (external_hub_name_probe comm index). now rewrite Hf.
  - intros Hh. split; [|reflexivity].
    unfold GetUsbExternalHubName, DeviceIoControl. now rewrite Hh.
Qed.

Lemma name_query_failures_witness :
  GetDriverKeyName unopened 3 = Throw InvalidDeviceHandleException /\
  GetUsbExternalHubName (on deaf_driver) 0 []
    = Throw (ResultException (HRESULT_FROM_WIN32 ERROR_GEN_FAILURE)) /\
  GetUsbExternalHubName unopened 0 []
    = Throw (ResultException (HRESULT_FROM_WIN32 ERROR_INVALID_HANDLE)).
Proof.
  split; [|split].
  - destruct (name_query_failures unopened 3 []) as (_ & H & _).
    apply H; [discriminate | reflexivity].
  - destruct (name_query_failures (on deaf_driver) 0 []) as (_ & _ & H & _).
    apply H. reflexivity.
  - destruct (name_query_failures unopened 0 []) as (_ & _ & _ & H).
    apply H. reflexivity.
Defined.

End DeviceCommunicationFacts.

(* ===================================================================== *)
(** * The hub model: the walk of AreUsbDescriptorsCorrect                *)
(* ===================================================================== *)

Module UsbHubFacts.
Import Sdk Rd DeviceCommunication UsbHub HubProps.

Lemma AreUsbDescriptorsCorrect_zero_indices fuel dev mem :
  iManufacturer dev = 0 -> iProduct dev = 0 -> iSerialNumber dev = 0 ->
  AreUsbDescriptorsCorrect fuel dev mem
    = AreUsbDescriptorsCorrect_loop fuel mem 0 (wTotalLength_at mem).
Proof.
  intros H1 H2 H3. unfold AreUsbDescriptorsCorrect. now rewrite H1, H2, H3.
Qed.

(** One iteration at a descriptor that is stepped over: the loop goes
    on with the next descriptor. *)
Lemma loop_steps_over fuel mem p e :
  walk_condition mem p e = true ->
  stepped_over mem p = true ->
  AreUsbDescriptorsCorrect_loop (S fuel) mem p e
    = AreUsbDescriptorsCorrect_loop fuel mem (p + peek mem p) e.
Proof.
  intros Hc Hs. cbn [AreUsbDescriptorsCorrect_loop]. rewrite Hc.
  unfold stepped_over, is_configuration_type, interface_length_ok in Hs.
  unfold off_bLength, off_bDescriptorType, off_iConfiguration, off_iInterface.
  rewrite N.add_0_r.
  destruct ((peek mem (p + 1) =? USB_CONFIGURATION_DESCRIPTOR_TYPE) ||
            (peek mem (p + 1) =? USB_OTHER_SPEED_CONFIGURATION_DESCRIPTOR_TYPE)).
  - apply andb_true_iff in Hs as [-> ->]. reflexivity.
  - destruct (peek mem (p + 1) =? USB_INTERFACE_DESCRIPTOR_TYPE); [|reflexivity].
    apply andb_true_iff in Hs as [Hl ->].
    apply orb_true_iff in Hl as [->| ->]; cbn; [reflexivity|].
    now rewrite andb_false_r.
Qed.

(** One iteration at a descriptor that is not stepped over, or where
    the loop condition fails: the loop ends with the verdict. *)
Lemma loop_ends fuel mem p e :
  walk_condition mem p e = false \/ stepped_over mem p = false ->
  AreUsbDescriptorsCorrect_loop (S fuel) mem p e = Some (verdict mem p e).
Proof.
  intros H. cbn [AreUsbDescriptorsCorrect_loop]. unfold verdict.
  destruct (walk_condition mem p e); [|reflexivity].
  destruct H as [H|Hs]; [discriminate|]. cbn [andb].
  unfold stepped_over, is_configuration_type, interface_length_ok in *.
  unfold off_bLength, off_bDescriptorType, off_iConfiguration, off_iInterface.
  rewrite N.add_0_r.
  destruct ((peek mem (p + 1) =? USB_CONFIGURATION_DESCRIPTOR_TYPE) ||
            (peek mem (p + 1) =? USB_OTHER_SPEED_CONFIGURATION_DESCRIPTOR_TYPE)).
  - destruct (peek mem p =? sizeof_USB_CONFIGURATION_DESCRIPTOR); [|reflexivity].
    cbn [andb negb] in *. rewrite Hs. reflexivity.
  - destruct (peek mem (p + 1) =? USB_INTERFACE_DESCRIPTOR_TYPE); [|discriminate].
    destruct (peek mem p =? sizeof_USB_INTERFACE_DESCRIPTOR);
      destruct (peek mem p =? sizeof_USB_INTERFACE_DESCRIPTOR2);
      cbn [andb orb negb] in *; try reflexivity; rewrite Hs; reflexivity.
Qed.

Lemma loop_follows_steps mem e p q k :
  walk_steps mem e p q k ->
  walk_condition mem q e = false \/ stepped_over mem q = false ->
  forall fuel, (k < fuel)%nat ->
  AreUsbDescriptorsCorrect_loop fuel mem p e = Some (verdict mem q e).
Proof.
  induction 1 as [p|p q k Hc Hs _ IH]; intros Hend fuel Hf.
  - destruct fuel as [|fuel]; [lia|]. now apply loop_ends.
  - destruct fuel as [|fuel]; [lia|].
    rewrite loop_steps_over by assumption. apply IH; [assumption|lia].
Qed.

(** C5 as stated fails: the walk is not bounded to one iteration.  The
    two buffers agree on the header and on the first sub-descriptor;
    one iteration does not end the walk (fuel 1 runs out), and the
    result follows the second interface descriptor. *)
Lemma walk_goes_past_first_descriptor :
  iManufacturer device_without_strings = 0 /\
  iProduct device_without_strings = 0 /\
  iSerialNumber device_without_strings = 0 /\
  take 18 second_interface_named = take 18 second_interface_unnamed /\
  AreUsbDescriptorsCorrect 1 device_without_strings
    (memory_of second_interface_named) = None /\
  AreUsbDescriptorsCorrect 4 device_without_strings
    (memory_of second_interface_named) = Some true /\
  AreUsbDescriptorsCorrect 4 device_without_strings
    (memory_of second_interface_unnamed) = Some false.
Proof. repeat split; reflexivity. Qed.

(** C5, amended.  For a device descriptor whose manufacturer, product
    and serial-number indices are all zero, the walk, which starts at
    the configuration header itself, does not stop at the first
    descriptor: it steps over every descriptor that passes the length
    check with a zero string index (and every descriptor of another
    type), and its result is the verdict at the first descriptor of
    the chain that is not stepped over, however many come before it:
    true for a configuration or interface descriptor of the expected
    length with a non-zero string index, false for a wrong length or
    when the chain leaves the buffer. *)
Theorem result_is_verdict_of_first_decisive_descriptor dev mem q k fuel :
  iManufacturer dev = 0 -> iProduct dev = 0 -> iSerialNumber dev = 0 ->
  walk_steps mem (wTotalLength_at mem) 0 q k ->
  walk_condition mem q (wTotalLength_at mem) = false \/ stepped_over mem q = false ->
  (k < fuel)%nat ->
  AreUsbDescriptorsCorrect fuel dev mem = Some (verdict mem q (wTotalLength_at mem)).
Proof.
  intros H1 H2 H3 Hw Hend Hf.
  rewrite AreUsbDescriptorsCorrect_zero_indices by assumption.
  now apply (loop_follows_steps mem _ 0 q k).
Qed.

Lemma result_is_verdict_of_first_decisive_descriptor_witness :
  walk_steps (memory_of long_interface_named)
    (wTotalLength_at (memory_of long_interface_named)) 0 21 2 /\
  stepped_over (memory_of long_interface_named) 21 = false /\
  AreUsbDescriptorsCorrect 3 device_without_strings (memory_of long_interface_named)
    = Some true.
Proof.
  assert (Hw : walk_steps (memory_of long_interface_named)
                 (wTotalLength_at (memory_of long_interface_named)) 0 21 2).
  { apply (walk_over _ _ 0 21 1); [reflexivity | reflexivity |].
    apply (walk_over _ _ 9 21 0); [reflexivity | reflexivity |].
    apply walk_stands. }
  split; [exact Hw|]. split; [reflexivity|].
  exact (result_is_verdict_of_first_decisive_descriptor device_without_strings
           (memory_of long_interface_named) 21 2 3 eq_refl eq_refl eq_refl Hw
           (or_intror eq_refl) (le_n 3)).
Defined.

End UsbHubFacts.

(* ===================================================================== *)
(** * The topology walk: a failure under one port                        *)
(* ===================================================================== *)

Module ImplFacts.
Import Sdk Exn DeviceCommunication TransportProps DevicesManager Impl TopologyProps.

(** A loop whose body throws at some element throws there: the
    elements after it are not visited. *)
Lemma for_each_throws {A S} (body : A -> S -> Orch S) :
  forall before a after s devs s1 devs1 e devs2,
  for_each before s body devs = Some (Ok s1, devs1) ->
  body a s1 devs1 = Some (Throw e, devs2) ->
  for_each (before ++ a :: after) s body devs = Some (Throw e, devs2).
Proof.
  induction before as [|b before IH]; intros a after s devs s1 devs1 e devs2 Hb Ha.
  - cbn in Hb. injection Hb as <- <-. cbn. unfold obind. now rewrite Ha.
  - cbn in Hb |- *. unfold obind in Hb |- *.
    destruct (body b s devs) as [[[s'|e'] devs']|]; try discriminate.
    now apply (IH a after s' devs' s1 devs1).
Qed.

(** C2 as stated fails.  On the sample machine the memory stick on
    port 2 is listed when the external hub on port 1 can be opened;
    when it cannot, the failure leaves [EnumerateUsbDevices] as an
    exception and the list is empty: the sibling port contributes
    nothing. *)
Lemma failing_child_hub_aborts_enumeration :
  EnumerateUsbDevices 10 (environment true) [] = Some (Ok tt, [stick_result]) /\
  EnumerateUsbDevices 10 (environment false) []
    = Some (Throw (ResultException 0x80070002), []).
Proof. split; vm_compute; reflexivity. Qed.

(** The enumeration of a hub, when the processing of one of its ports
    throws. *)
Lemma EnumeratePortsFromRootHub_port_throws fuel env hubName allDevices devs
    usbHub0 usbHub before entry after st devs1 e devs2 :
  UsbHub.new (os env) hubName = Ok usbHub0 ->
  UsbHub.PopulateInfo usbHub0 = Ok usbHub ->
  ordered_entries (UsbHub._hubPortConnectionInfo usbHub) = before ++ entry :: after ->
  for_each before (usbHub, empty_maps)
    (process_port fuel
       (fun devicePath => EnumeratePortsFromRootHub fuel env devicePath allDevices)
       allDevices) devs = Some (Ok st, devs1) ->
  process_port fuel
    (fun devicePath => EnumeratePortsFromRootHub fuel env devicePath allDevices)
    allDevices entry st devs1 = Some (Throw e, devs2) ->
  EnumeratePortsFromRootHub (S fuel) env hubName allDevices devs
    = Some (Throw e, devs2).
Proof.
  intros Hnew Hpop Hports Hbefore Hfail.
  cbn [EnumeratePortsFromRootHub]. unfold obind at 1, lift at 1. rewrite Hnew.
  unfold obind at 1, lift at 1. rewrite Hpop.
  unfold obind at 1. rewrite Hports.
  now rewrite (for_each_throws _ before entry after _ _ st devs1 e devs2 Hbefore Hfail).
Qed.

(** The pass over the controllers, when the enumeration of one root hub
    throws. *)
Lemma EnumerateUsbDevices_root_hub_throws fuel env devs all before controller after
    devs1 devicePath comm hostController e devs2 :
  allUsbDevices env = Ok all ->
  controllers env = Ok (before ++ controller :: after) ->
  for_each before tt (process_controller fuel env all) [] = Some (Ok tt, devs1) ->
  DevInfoData.PopulateUsbControllerInfo_path controller = Ok devicePath ->
  DeviceCommunication.open (os env) devicePath = Ok comm ->
  UsbHostController.PopulateInfo comm = Ok hostController ->
  EnumeratePortsFromRootHub fuel env
    ([92; 92; 46; 92] ++ UsbHostController._rootHubName hostController) all devs1
    = Some (Throw e, devs2) ->
  EnumerateUsbDevices fuel env devs = Some (Throw e, devs2).
Proof.
  intros Hall Hctl Hbefore Hpath Hopen Hpop Hroot.
  unfold EnumerateUsbDevices, obind at 1, ClearDevices.
  unfold obind at 1, lift at 1. rewrite Hall.
  unfold obind at 1, lift at 1. rewrite Hctl.
  apply (for_each_throws _ before controller after tt [] tt devs1 e devs2 Hbefore).
  unfold process_controller, obind, lift. now rewrite Hpath, Hopen, Hpop.
Qed.

End ImplFacts.

(* ===================================================================== *)
(** * The descriptor parser: what the walks compute                      *)
(* ===================================================================== *)

Module ParserWalkFacts.
Import Sdk Rd UsbDescriptorParser ParserProps WalkProps UsbDescriptorParserFacts.

Lemma GetInterfaceCount_loop_chain mem e fuel : forall count p log,
  (N.to_nat (e - p) < fuel)%nat ->
  fst (GetInterfaceCount_loop count fuel p e mem log)
    = Some (count + N.of_nat (length (filter (fun q => is_interface mem q = true)
                                        (chain fuel mem e p)))).
Proof.
  induction fuel as [|fuel IH]; intros count p log Hf; [lia|].
  cbn [GetInterfaceCount_loop chain]. unfold bind at 1.
  rewrite IsDescriptorInBounds_eq.
  destruct (in_bounds mem p e) eqn:Hb.
  - apply in_bounds_true in Hb.
    unfold bind, load8, off_bLength, off_bDescriptorType.
    rewrite N.add_0_r, IH by lia.
    rewrite filter_cons.
    change (byte_at mem (p + 1) =? USB_INTERFACE_DESCRIPTOR_TYPE)
      with (is_interface mem p).
    destruct (is_interface mem p).
    + rewrite decide_True by reflexivity. cbn [length]. f_equal. lia.
    + rewrite decide_False by discriminate. reflexivity.
  - cbn. f_equal. lia.
Qed.

Lemma ExtractInterfaceClass_loop_chain mem e fuel : forall p log,
  (N.to_nat (e - p) < fuel)%nat ->
  fst (ExtractInterfaceClass_loop fuel p e mem log)
    = Some (class_at mem <$> head (filter (fun q => is_interface mem q = true)
                                     (chain fuel mem e p))).
Proof.
  induction fuel as [|fuel IH]; intros p log Hf; [lia|].
  cbn [ExtractInterfaceClass_loop chain]. unfold bind at 1.
  rewrite IsDescriptorInBounds_eq.
  destruct (in_bounds mem p e) eqn:Hb; [|reflexivity].
  apply in_bounds_true in Hb.
  rewrite filter_cons.
  unfold bind at 1, load8 at 1, off_bDescriptorType.
  change (byte_at mem (p + 1) =? USB_INTERFACE_DESCRIPTOR_TYPE)
    with (is_interface mem p).
  destruct (is_interface mem p).
  - rewrite decide_True by reflexivity. reflexivity.
  - rewrite decide_False by discriminate.
    unfold bind, load8, off_bLength. rewrite N.add_0_r. apply IH. lia.
Qed.

(** The prologue of the walks on a valid header. *)
Lemma walk_from_header_valid {A} (invalid : A) loop fuel mem :
  fst (ValidateConfigurationDescriptor (Some mem)) = true ->
  exists log,
    run (walk_from_header invalid loop fuel) mem
      = loop fuel (first_sub_descriptor mem) (declared_total mem) mem log.
Proof.
  unfold ValidateConfigurationDescriptor, run, walk_from_header. intros Hv.
  unfold bind at 1.
  destruct (ValidateConfigurationDescriptor_at 0 mem []) as [ok log] eqn:E.
  cbn [fst] in Hv. subst ok. cbn [negb].
  unfold bind, load16, load8, off_wTotalLength, off_bLength.
  rewrite !N.add_0_l. change (2 + 1) with 3.
  fold (declared_total mem). fold (first_sub_descriptor mem). eauto.
Qed.

Lemma walk_from_header_invalid {A} (invalid : A) loop fuel mem :
  fst (ValidateConfigurationDescriptor (Some mem)) = false ->
  fst (run (walk_from_header invalid loop fuel) mem) = Some invalid.
Proof.
  unfold ValidateConfigurationDescriptor, run, walk_from_header. intros Hv.
  unfold bind at 1.
  destruct (ValidateConfigurationDescriptor_at 0 mem []) as [ok log] eqn:E.
  cbn [fst] in Hv. subst ok. reflexivity.
Qed.

Lemma elem_of_chain mem e fuel : forall p q,
  (N.to_nat (e - p) < fuel)%nat ->
  q ∈ chain fuel mem e p <-> chain_reaches mem e p q /\ in_bounds mem q e = true.
Proof.
  unfold chain_reaches.
  induction fuel as [|fuel IH]; intros p q Hf; [lia|].
  cbn [chain]. destruct (in_bounds mem p e) eqn:Hb.
  - pose proof (in_bounds_true _ _ _ Hb) as Hb'.
    rewrite elem_of_cons, IH by lia. split.
    + intros [->|[Hr Hq]].
      * split; [apply reaches_here | exact Hb].
      * split; [|exact Hq]. now apply reaches_step with (p := p).
    + intros [Hr Hq]. inversion Hr as [|? ? _ _ Hr']; subst.
      * now left.
      * right. now split.
  - split; [intros H; inversion H|].
    intros [Hr Hq]. inversion Hr as [|? ? Hb' _ _]; subst; congruence.
Qed.

Lemma count_and_class_on_valid_header mem :
  fst (ValidateConfigurationDescriptor (Some mem)) = true ->
  fst (GetInterfaceCount (Some mem)) = Some (N.of_nat (length (interfaces mem))) /\
  fst (ExtractInterfaceClass (Some mem)) = Some (class_at mem <$> head (interfaces mem)).
Proof.
  intros Hv.
  assert (Hf : (N.to_nat (declared_total mem - first_sub_descriptor mem)
                < S (N.to_nat (declared_total mem)))%nat) by lia.
  unfold GetInterfaceCount, ExtractInterfaceClass, GetInterfaceCount_fuel,
    ExtractInterfaceClass_fuel, enough_fuel, interfaces, sub_descriptors.
  split.
  - destruct (walk_from_header_valid 0 (GetInterfaceCount_loop 0)
                (S (N.to_nat (declared_total mem))) mem Hv) as [log ->].
    now rewrite GetInterfaceCount_loop_chain.
  - destruct (walk_from_header_valid None ExtractInterfaceClass_loop
                (S (N.to_nat (declared_total mem))) mem Hv) as [log ->].
    now rewrite ExtractInterfaceClass_loop_chain.
Qed.

(** X3.  On a valid header [GetInterfaceCount] returns the number of
    sub-descriptors tagged as interfaces, and [ExtractInterfaceClass]
    the class byte of the first of them, or nothing when there is
    none; the sub-descriptors are the positions of the chain behind
    the header that lie within the declared end. *)
Theorem interface_count_and_first_class mem :
  fst (ValidateConfigurationDescriptor (Some mem)) = true ->
  fst (GetInterfaceCount (Some mem)) = Some (N.of_nat (length (interfaces mem))) /\
  fst (ExtractInterfaceClass (Some mem)) = Some (class_at mem <$> head (interfaces mem)) /\
  (forall q, q ∈ sub_descriptors mem <->
             chain_reaches mem (declared_total mem) (first_sub_descriptor mem) q /\
             in_bounds mem q (declared_total mem) = true).
Proof.
  intros Hv. destruct (count_and_class_on_valid_header mem Hv) as [Hcount Hclass].
  split; [exact Hcount|]. split; [exact Hclass|].
  intros q. unfold sub_descriptors. apply elem_of_chain. lia.
Qed.

Lemma interface_count_and_first_class_witness :
  fst (GetInterfaceCount (Some endpoint_then_two_interfaces)) = Some 2 /\
  fst (ExtractInterfaceClass (Some endpoint_then_two_interfaces)) = Some (Some 3).
Proof.
  destruct (interface_count_and_first_class endpoint_then_two_interfaces eq_refl)
    as (Hc & Hx & _).
  split; [exact Hc | exact Hx].
Defined.

(** [ExtractInterfaceClass] finds no interface exactly when
    [GetInterfaceCount] counts none, on every buffer and on the null
    pointer. *)
Theorem no_interface_iff_count_zero configDesc :
  fst (ExtractInterfaceClass configDesc) = Some None <->
  fst (GetInterfaceCount configDesc) = Some 0.
Proof.
  destruct configDesc as [mem|]; [|split; reflexivity].
  destruct (fst (ValidateConfigurationDescriptor (Some mem))) eqn:Hv.
  - destruct (count_and_class_on_valid_header mem Hv) as (-> & ->).
    destruct (interfaces mem) as [|q l]; cbn; split; try reflexivity;
      intros H; inversion H; lia.
  - unfold ExtractInterfaceClass, GetInterfaceCount, ExtractInterfaceClass_fuel,
      GetInterfaceCount_fuel.
    rewrite !walk_from_header_invalid by exact Hv. split; reflexivity.
Qed.

(** [GetInterfaceCount_reads_within] on a sample buffer. *)
Lemma GetInterfaceCount_reads_within_witness :
  reads_within (declared_total endpoint_then_two_interfaces)
    (snd (GetInterfaceCount (Some endpoint_then_two_interfaces))).
Proof.
  exact (GetInterfaceCount_reads_within endpoint_then_two_interfaces eq_refl).
Defined.

End ParserWalkFacts.

(* ===================================================================== *)
(** * The transport: validation, connector properties, two-phase queries *)
(* ===================================================================== *)

Module PortFacts.
Import Sdk Exn DeviceCommunication TransportProps PortProps DeviceCommunicationFacts.

Lemma lookup_try_emplace {V} (k j : N) (v : V) (m : gmap N V) :
  try_emplace k v m !! j
    = match m !! j with
      | Some w => Some w
      | None => if bool_decide (j = k) then Some v else None
      end.
Proof.
  unfold try_emplace. destruct (m !! k) eqn:Hk.
  - destruct (m !! j) eqn:Hj; [reflexivity|].
    case_bool_decide; [subst; congruence | reflexivity].
  - case_bool_decide as E.
    + subst. now rewrite lookup_insert_eq, Hk.
    + rewrite lookup_insert_ne by congruence. now destruct (m !! j).
Qed.




(** ** [EnumeratePorts] *)

Lemma EnumeratePorts_loop_lookup comm : forall ports m0 p,
  EnumeratePorts_loop comm ports m0 !! p
    = match m0 !! p with
      | Some v => Some v
      | None => if bool_decide (p ∈ ports) then queryPortConnectorProps comm p else None
      end.
Proof.
  induction ports as [|p0 rest IH]; intros m0 p.
  - cbn. rewrite bool_decide_eq_false_2 by (intros H; inversion H).
    now destruct (m0 !! p).
  - cbn [EnumeratePorts_loop]. rewrite IH.
    destruct (queryPortConnectorProps comm p0) as [info|] eqn:Hq.
    + rewrite lookup_try_emplace. destruct (m0 !! p); [reflexivity|].
      case_bool_decide as E.
      * subst. rewrite bool_decide_eq_true_2 by (left). now rewrite Hq.
      * destruct (decide (p ∈ rest)) as [Hin|Hin].
        -- rewrite !bool_decide_eq_true_2; [reflexivity | now right | exact Hin].
        -- rewrite !bool_decide_eq_false_2; [reflexivity | | exact Hin].
           rewrite elem_of_cons. intros [?|?]; contradiction.
    + destruct (m0 !! p); [reflexivity|].
      destruct (decide (p = p0)) as [->|E].
      * rewrite (bool_decide_eq_true_2 (p0 ∈ p0 :: rest)) by (left).
        rewrite Hq. now destruct (bool_decide (p0 ∈ rest)).
      * destruct (decide (p ∈ rest)) as [Hin|Hin].
        -- rewrite !bool_decide_eq_true_2; [reflexivity | now right | exact Hin].
        -- rewrite !bool_decide_eq_false_2; [reflexivity | | exact Hin].
           rewrite elem_of_cons. intros [?|?]; contradiction.
Qed.




(** ** The driver key of a stored connection *)

Lemma wstring_of_wchars_no_NUL buf : 0 ∉ wstring_of_wchars buf.
Proof.
  induction buf as [|c rest IH]; cbn; [intros H; inversion H|].
  destruct (N.eqb_spec c 0) as [E|E]; [intros H; inversion H|].
  rewrite elem_of_cons. intros [H|H]; [congruence | contradiction].
Qed.

Lemma GetDriverKeyName_no_NUL comm index name :
  GetDriverKeyName comm index = Ok name -> 0 ∉ name.
Proof.
  unfold GetDriverKeyName, THROW_LAST_ERROR_IF, THROW_IF_NULL_ALLOC.
  repeat match goal with
         | |- context [if ?c then _ else _] => destruct c; cbn [Exn.bind]; try discriminate
         end.
  intros [= <-]. apply wstring_of_wchars_no_NUL.
Qed.

Lemma resolved_driver_key_no_NUL comm p : 0 ∉ resolved_driver_key comm p.
Proof.
  unfold resolved_driver_key.
  destruct (GetDriverKeyName comm (to_ULONG p)) eqn:E.
  - now apply GetDriverKeyName_no_NUL in E.
  - intros H; inversion H.
Qed.

Lemma resolve_driver_key_name comm p info c :
  _driverKeyName info = [] ->
  _driverKeyName (resolve_driver_key comm p info c)
    = if c then resolved_driver_key comm p else [].
Proof.
  intros Hk. unfold resolve_driver_key, resolved_driver_key.
  destruct c; [|exact Hk].
  destruct (GetDriverKeyName comm (to_ULONG p)); cbn; [reflexivity | exact Hk].
Qed.

Lemma stored_entry_driver_key comm p info :
  stored_entry comm p = Some info ->
  _driverKeyName info
    = if _connectionStatus info =? NoDeviceConnected then []
      else resolved_driver_key comm p.
Proof.
  unfold stored_entry. destruct (io_ok (primary_answer comm p)).
  - unfold populateConnectionInfo.
    destruct (copy_pipes comm _ _ _) as [pipes|e]; cbn [Exn.bind]; [|discriminate].
    intros [= <-].
    rewrite resolve_driver_key_name by reflexivity.
    match goal with
    | |- context [resolve_driver_key ?c ?q ?i ?b] =>
        destruct (resolve_driver_key_fields c q i b) as (_ & _ & _ & _ & _ & ->)
    end.
    cbn [_connectionStatus].
    now destruct (ex_ConnectionStatus (io_out (primary_answer comm p))
                  =? NoDeviceConnected).
  - unfold queryLegacyConnectionInfo. fold (legacy_answer comm p).
    destruct (THROW_IF_NULL_ALLOC comm _); [|discriminate]. cbn [Exn.bind].
    destruct (io_ok (legacy_answer comm p)); [|discriminate]. cbn [negb].
    destruct (copy_pipes comm _ _ _) as [pipes|e]; cbn [Exn.bind]; [|discriminate].
    intros [= <-].
    rewrite resolve_driver_key_name by reflexivity.
    match goal with
    | |- context [resolve_driver_key ?c ?q ?i ?b] =>
        destruct (resolve_driver_key_fields c q i b) as (_ & _ & _ & _ & _ & ->)
    end.
    cbn [_connectionStatus].
    now destruct (ci_ConnectionStatus (io_out (legacy_answer comm p))
                  =? NoDeviceConnected).
Qed.

(** X6.  The driver key of a stored connection is best effort: it is empty
    for a port without a device (the kernel is not asked), and for a
    connected port it is what [GetDriverKeyName] delivers, or empty
    when that call throws; the entry is stored all the same.  A stored
    key contains no NUL. *)
Theorem stored_driver_key comm n m0 m p info :
  EnumeratePortsConnectionInfo comm n m0 = Ok m ->
  m !! p = Some info ->
  _driverKeyName info
    = (if _connectionStatus info =? NoDeviceConnected then []
       else resolved_driver_key comm p) /\
  0 ∉ _driverKeyName info.
Proof.
  intros H Hp.
  destruct (EnumeratePortsConnectionInfo_Ok _ _ _ _ H) as (_ & Hin & Hout & _).
  destruct (decide (1 <= p <= n)) as [Hr|Hr];
    [|rewrite (Hout p Hr) in Hp; discriminate].
  rewrite (Hin p Hr) in Hp. apply stored_entry_driver_key in Hp.
  split; [exact Hp|]. rewrite Hp.
  destruct (_connectionStatus info =? NoDeviceConnected).
  - intros E; inversion E.
  - apply resolved_driver_key_no_NUL.
Qed.

Lemma stored_driver_key_witness :
  exists m info,
    EnumeratePortsConnectionInfo (on TopologyProps.root_hub) 2 ∅ = Ok m /\
    m !! 1 = Some info /\
    _driverKeyName info = TopologyProps.hub_key /\
    0 ∉ _driverKeyName info.
Proof.
  destruct (EnumeratePortsConnectionInfo (on TopologyProps.root_hub) 2 ∅)
    as [m|e] eqn:E; [|vm_compute in E; discriminate].
  destruct (answering_port_has_entry (on TopologyProps.root_hub) 2 ∅ m 1 E)
    as (info & Hl & Hst); [lia | reflexivity |].
  destruct (stored_driver_key (on TopologyProps.root_hub) 2 ∅ m 1 info E Hl)
    as [Hk Hn].
  exists m, info. split; [reflexivity|]. split; [exact Hl|]. split; [|exact Hn].
  rewrite Hk. vm_compute in Hst. injection Hst as <-. reflexivity.
Defined.

(** ** The two descriptor requests *)

Lemma length_data_area bufferSize out :
  length (data_area bufferSize out)
    = N.to_nat (bufferSize - sizeof_USB_DESCRIPTOR_REQUEST).
Proof. unfold data_area. apply length_resize. Qed.

(** X7.  What a delivered configuration looks like: the connection index
    is not 0, the buffer holds exactly as many bytes as the header of
    the first, header-sized answer declared as total length (at least
    9, the size of the header), and the total length declared by the
    delivered header is at least 9 as well. *)
Theorem delivered_configuration comm connectionIndex descriptorIndex data :
  GetConfigDescriptor comm connectionIndex descriptorIndex = Ok (Some data) ->
  connectionIndex <> 0 /\
  _hFile comm <> None /\
  N.of_nat (length data)
    = wTotalLength_of (configuration_probe comm connectionIndex descriptorIndex) /\
  sizeof_USB_CONFIGURATION_DESCRIPTOR <= N.of_nat (length data) /\
  sizeof_USB_CONFIGURATION_DESCRIPTOR <= wTotalLength_of data.
Proof.
  unfold GetConfigDescriptor, configuration_probe, executeDescriptorRequest,
    handle_invalid, THROW_IF_NULL_ALLOC.
  cbn [snd].
  destruct (N.eqb_spec connectionIndex 0) as [|Hc]; [discriminate|].
  destruct (_hFile comm) as [drv|] eqn:Hh; [|discriminate].
  match goal with |- context [if ?c then _ else _] => destruct c; [discriminate|] end.
  match goal with
  | |- context [wTotalLength_of ?d <? _] =>
      set (probe := d); destruct (N.ltb_spec (wTotalLength_of probe)
                                    sizeof_USB_CONFIGURATION_DESCRIPTOR) as [|Ht];
      [discriminate|]
  end.
  destruct (alloc_ok comm _); [|discriminate]. cbn [Exn.bind].
  match goal with |- context [if ?c then _ else _] => destruct c; [discriminate|] end.
  match goal with
  | |- context [if wTotalLength_of ?d <? ?s then _ else _] =>
      destruct (N.ltb_spec (wTotalLength_of d) s) as [|Hd]; [discriminate|]
  end.
  intros [= <-]. rewrite length_data_area.
  repeat split; try assumption; try discriminate;
    unfold sizeof_USB_DESCRIPTOR_REQUEST, sizeof_USB_CONFIGURATION_DESCRIPTOR in *; lia.
Qed.

Lemma delivered_configuration_witness :
  exists data,
    GetConfigDescriptor (on TopologyProps.root_hub) 2 0 = Ok (Some data) /\
    N.of_nat (length data) = 18 /\
    9 <= wTotalLength_of data.
Proof.
  destruct (GetConfigDescriptor (on TopologyProps.root_hub) 2 0)
    as [[data|]|e] eqn:E; [|vm_compute in E; discriminate..].
  destruct (delivered_configuration _ _ _ _ E) as (_ & _ & Hlen & _ & Htot).
  exists data. split; [reflexivity|]. split; [exact Hlen | exact Htot].
Defined.

Lemma byte_at_take n (l : Rd.Mem) i :
  (N.to_nat i < n)%nat -> Rd.byte_at (take n l) i = Rd.byte_at l i.
Proof.
  intros H. unfold Rd.byte_at. now rewrite !nth_lookup, lookup_take_lt.
Qed.

Lemma GetStringDescriptor_Some comm connectionIndex descriptorIndex languageId node :
  GetStringDescriptor comm connectionIndex descriptorIndex languageId = Ok (Some node) ->
  let r := string_answer comm connectionIndex descriptorIndex languageId in
  let sd := data_area (sizeof_USB_DESCRIPTOR_REQUEST + MAXIMUM_USB_STRING_LENGTH)
              (io_out r) in
  connectionIndex <> 0 /\
  io_ok r = true /\
  sizeof_USB_DESCRIPTOR_REQUEST + 2 <= io_bytes r /\
  Rd.byte_at sd 1 = USB_STRING_DESCRIPTOR_TYPE /\
  Rd.byte_at sd 0 = io_bytes r - sizeof_USB_DESCRIPTOR_REQUEST /\
  Rd.byte_at sd 0 mod 2 = 0 /\
  node = {| DescriptorIndex := descriptorIndex; LanguageID := languageId;
            StringDescriptor := take (N.to_nat (Rd.byte_at sd 0)) sd |}.
Proof.
  unfold GetStringDescriptor, handle_invalid, THROW_IF_NULL_ALLOC.
  destruct (N.eqb_spec connectionIndex 0) as [|Hc]; [discriminate|].
  destruct (_hFile comm) as [drv|] eqn:Hh; [|discriminate].
  destruct (alloc_ok comm _); [|discriminate]. cbn [negb].
  change (to_USHORT (sizeof_USB_DESCRIPTOR_REQUEST + MAXIMUM_USB_STRING_LENGTH
                     - sizeof_USB_DESCRIPTOR_REQUEST))
    with (to_USHORT MAXIMUM_USB_STRING_LENGTH).
  fold (string_answer comm connectionIndex descriptorIndex languageId).
  set (r := string_answer comm connectionIndex descriptorIndex languageId).
  set (sd := data_area _ (io_out r)).
  destruct (io_ok r); [|discriminate]. cbn [negb].
  destruct (N.ltb_spec (io_bytes r) (sizeof_USB_DESCRIPTOR_REQUEST + 2)) as [|Hb];
    [discriminate|].
  destruct (N.eqb_spec (Rd.byte_at sd 1) USB_STRING_DESCRIPTOR_TYPE) as [Hty|];
    [|discriminate]. cbn [negb].
  destruct (N.eqb_spec (Rd.byte_at sd 0) (io_bytes r - sizeof_USB_DESCRIPTOR_REQUEST))
    as [Hlen|]; [|discriminate]. cbn [negb].
  destruct (N.eqb_spec (Rd.byte_at sd 0 mod 2) 0) as [Hev|]; [|discriminate].
  cbn [negb].
  destruct (alloc_ok comm _); [|discriminate]. cbn [Exn.bind].
  intros [= <-]. auto 10.
Qed.

Lemma length_StringDescriptor comm connectionIndex descriptorIndex languageId node :
  GetStringDescriptor comm connectionIndex descriptorIndex languageId = Ok (Some node) ->
  let r := string_answer comm connectionIndex descriptorIndex languageId in
  let sd := data_area (sizeof_USB_DESCRIPTOR_REQUEST + MAXIMUM_USB_STRING_LENGTH)
              (io_out r) in
  N.of_nat (length (StringDescriptor node)) = Rd.byte_at sd 0 /\
  2 <= Rd.byte_at sd 0 <= 254.
Proof.
  intros H r sd.
  pose proof (GetStringDescriptor_Some _ _ _ _ _ H) as G.
  cbv zeta in G. fold r in G. fold sd in G.
  destruct G as (_ & _ & Hb & _ & Hlen & Hev & ->). cbn [StringDescriptor].
  assert (Hlt : Rd.byte_at sd 0 < 256).
  { unfold Rd.byte_at. pose proof (Byte.to_N_bounded (nth (N.to_nat 0) sd x00)). lia. }
  assert (Hsd : length sd = 255%nat) by (subst sd; apply length_data_area).
  unfold sizeof_USB_DESCRIPTOR_REQUEST in *.
  assert (Hle : Rd.byte_at sd 0 <= 254).
  { destruct (N.eq_dec (Rd.byte_at sd 0) 255) as [E|E]; [|lia].
    rewrite E in Hev. vm_compute in Hev. discriminate. }
  split; [|lia]. rewrite length_take_le by lia. lia.
Qed.

(** X8.  What a delivered string descriptor looks like: its bytes are as
    many as its first byte declares, an even number from 2 to 254,
    equal to the number of bytes the kernel returned behind the
    request header, and its second byte is the string descriptor
    type.  The node records the index and the language of the
    request. *)
Theorem delivered_string_descriptor comm connectionIndex descriptorIndex languageId node :
  GetStringDescriptor comm connectionIndex descriptorIndex languageId = Ok (Some node) ->
  let sd := StringDescriptor node in
  connectionIndex <> 0 /\
  DescriptorIndex node = descriptorIndex /\
  LanguageID node = languageId /\
  Rd.byte_at sd 0 = N.of_nat (length sd) /\
  Rd.byte_at sd 1 = USB_STRING_DESCRIPTOR_TYPE /\
  2 <= N.of_nat (length sd) <= 254 /\
  N.of_nat (length sd) mod 2 = 0 /\
  io_ok (string_answer comm connectionIndex descriptorIndex languageId) = true /\
  io_bytes (string_answer comm connectionIndex descriptorIndex languageId)
    = sizeof_USB_DESCRIPTOR_REQUEST + N.of_nat (length sd).
Proof.
  intros H.
  pose proof (length_StringDescriptor _ _ _ _ _ H) as L.
  pose proof (GetStringDescriptor_Some _ _ _ _ _ H) as G.
  cbv zeta in L, G |- *.
  set (r := string_answer comm connectionIndex descriptorIndex languageId) in *.
  set (sd := data_area _ (io_out r)) in *.
  destruct L as [Hlen Hrange].
  destruct G as (Hc & Hok & Hb & Hty & Hbytes & Hev & Hnode).
  rewrite Hlen. subst node. cbn [StringDescriptor DescriptorIndex LanguageID].
  rewrite !byte_at_take by lia.
  unfold sizeof_USB_DESCRIPTOR_REQUEST in *.
  repeat split; try assumption; try reflexivity; lia.
Qed.

Lemma delivered_string_descriptor_witness :
  exists node,
    GetStringDescriptor hub_with_strings 1 1 0x0409 = Ok (Some node) /\
    N.of_nat (length (StringDescriptor node)) = 8 /\
    Rd.byte_at (StringDescriptor node) 1 = 3.
Proof.
  destruct (GetStringDescriptor hub_with_strings 1 1 0x0409)
    as [[node|]|e] eqn:E; [|vm_compute in E; discriminate..].
  destruct (delivered_string_descriptor _ _ _ _ _ E)
    as (_ & _ & _ & Hlen & Hty & _ & _ & _ & Hbytes).
  exists node. split; [reflexivity|]. split; [|exact Hty].
  change (io_bytes (string_answer hub_with_strings 1 1 0x0409)) with 20 in Hbytes.
  unfold sizeof_USB_DESCRIPTOR_REQUEST in Hbytes. lia.
Defined.

End PortFacts.

(* ===================================================================== *)
(** * The hub: the two descriptor walks of UsbHub.cpp                    *)
(* ===================================================================== *)

Module UsbHubWalkFacts.
Import Sdk Exn Rd DeviceCommunication UsbHub ParserProps HubProps TransportProps
  PortProps HubWalkProps DeviceCommunicationFacts UsbHubFacts PortFacts.

Lemma loop_stalls mem e q :
  zero_length_inside mem e q = true ->
  stepped_over mem q = true ->
  forall fuel, AreUsbDescriptorsCorrect_loop fuel mem q e = None.
Proof.
  unfold zero_length_inside. rewrite andb_true_iff, N.eqb_eq.
  intros [Hc Hz] Hs fuel. induction fuel as [|fuel IH]; [reflexivity|].
  rewrite (loop_steps_over _ _ _ _ Hc Hs), Hz, N.add_0_r. exact IH.
Qed.

Lemma loop_stalls_after_steps mem e p q k :
  walk_steps mem e p q k ->
  zero_length_inside mem e q = true ->
  stepped_over mem q = true ->
  forall fuel, AreUsbDescriptorsCorrect_loop fuel mem p e = None.
Proof.
  induction 1 as [p|p q k Hc Hs _ IH]; intros Hz Hq fuel.
  - now apply loop_stalls.
  - destruct fuel as [|fuel]; [reflexivity|].
    rewrite (loop_steps_over _ _ _ _ Hc Hs). now apply IH.
Qed.

(** From every position the walk either gets to a descriptor that
    decides the answer, or to a descriptor of length zero that it
    steps over. *)
Lemma walk_ends_or_stalls mem e n : forall p,
  (N.to_nat (e - p) <= n)%nat ->
  (exists q k, walk_steps mem e p q k /\
               (walk_condition mem q e = false \/ stepped_over mem q = false)) \/
  (exists q k, walk_steps mem e p q k /\
               zero_length_inside mem e q = true /\ stepped_over mem q = true).
Proof.
  induction n as [|n IH]; intros p Hn.
  - left. exists p, 0%nat. split; [constructor|]. left.
    unfold walk_condition, sizeof_USB_COMMON_DESCRIPTOR.
    destruct (N.ltb_spec (p + 2) e); [lia|reflexivity].
  - destruct (walk_condition mem p e) eqn:Hc;
      [|left; exists p, 0%nat; split; [constructor | now left]].
    destruct (stepped_over mem p) eqn:Hs;
      [|left; exists p, 0%nat; split; [constructor | now right]].
    destruct (N.eqb_spec (peek mem p) 0) as [Hz|Hz].
    + right. exists p, 0%nat. split; [constructor|]. split; [|exact Hs].
      unfold zero_length_inside. rewrite Hc, Hz. reflexivity.
    + assert (Hlt : p + 2 < e).
      { unfold walk_condition, sizeof_USB_COMMON_DESCRIPTOR in Hc.
        apply andb_true_iff in Hc. destruct Hc as [Hc _]. now apply N.ltb_lt in Hc. }
      destruct (IH (p + peek mem p)) as [(q & k & Hw & Hd)|(q & k & Hw & Hd)]; [lia|..].
      * left. exists q, (S k). split; [|exact Hd]. now apply walk_over.
      * right. exists q, (S k). split; [|exact Hd]. now apply walk_over.
Qed.

(** X9.  For a device descriptor without string indices, the walk of
    [AreUsbDescriptorsCorrect] never returns exactly when it gets to
    a descriptor of declared length zero that lies inside the loop
    condition and is stepped over (a descriptor of another type than
    configuration and interface): the position does not advance.  On
    every other buffer the walk returns. *)
Theorem descriptor_check_hangs_at_zero_length dev mem :
  iManufacturer dev = 0 -> iProduct dev = 0 -> iSerialNumber dev = 0 ->
  (forall fuel, AreUsbDescriptorsCorrect fuel dev mem = None) <->
  (exists q k,
     walk_steps mem (wTotalLength_at mem) 0 q k /\
     zero_length_inside mem (wTotalLength_at mem) q = true /\
     stepped_over mem q = true).
Proof.
  intros Hm Hp Hs. split.
  - intros Hnone.
    destruct (walk_ends_or_stalls mem (wTotalLength_at mem)
                (N.to_nat (wTotalLength_at mem - 0)) 0 (le_n _))
      as [(q & k & Hw & Hd)|H]; [|exact H].
    specialize (Hnone (S k)).
    rewrite (AreUsbDescriptorsCorrect_zero_indices _ _ _ Hm Hp Hs) in Hnone.
    rewrite (loop_follows_steps _ _ _ _ _ Hw Hd) in Hnone by lia. discriminate.
  - intros (q & k & Hw & Hz & Hq) fuel.
    rewrite (AreUsbDescriptorsCorrect_zero_indices _ _ _ Hm Hp Hs).
    exact (loop_stalls_after_steps _ _ _ _ _ Hw Hz Hq fuel).
Qed.

Lemma descriptor_check_hangs_at_zero_length_witness :
  zero_length_inside (memory_of zero_length_after_long_interface)
    (wTotalLength_at (memory_of zero_length_after_long_interface)) 21 = true /\
  (forall fuel,
     AreUsbDescriptorsCorrect fuel device_without_strings
       (memory_of zero_length_after_long_interface) = None).
Proof.
  split; [reflexivity|].
  apply (proj2 (descriptor_check_hangs_at_zero_length device_without_strings
                  (memory_of zero_length_after_long_interface)
                  eq_refl eq_refl eq_refl)).
  exists 21, 2%nat. split; [|split; reflexivity].
  apply (walk_over _ _ 0 21 1); [reflexivity | reflexivity |].
  apply (walk_over _ _ 9 21 0); [reflexivity | reflexivity | apply walk_stands].
Defined.

(** ** The search for the first interface in [FillConfigDescriptor] *)

Lemma search_stalls mem e q :
  zero_length_inside mem e q = true ->
  not_an_interface mem q = true ->
  forall fuel, first_interface_class fuel mem q e = None.
Proof.
  unfold zero_length_inside, not_an_interface.
  rewrite andb_true_iff, N.eqb_eq, negb_true_iff.
  intros [Hc Hz] Hn fuel. induction fuel as [|fuel IH]; [reflexivity|].
  cbn [first_interface_class]. unfold off_bDescriptorType, off_bLength.
  rewrite Hc, Hn, N.add_0_r, Hz, N.add_0_r. exact IH.
Qed.

Lemma search_stalls_after_steps mem e p q k :
  search_steps mem e p q k ->
  zero_length_inside mem e q = true ->
  not_an_interface mem q = true ->
  forall fuel, first_interface_class fuel mem p e = None.
Proof.
  induction 1 as [p|p q k Hc Hn _ IH]; intros Hz Hq fuel.
  - now apply search_stalls.
  - destruct fuel as [|fuel]; [reflexivity|].
    cbn [first_interface_class]. unfold off_bDescriptorType, off_bLength.
    unfold not_an_interface in Hn. apply negb_true_iff in Hn.
    rewrite Hc, Hn, N.add_0_r. now apply IH.
Qed.

Lemma search_finds mem e p q k :
  search_steps mem e p q k ->
  walk_condition mem q e = true ->
  not_an_interface mem q = false ->
  forall fuel r,
    first_interface_class fuel mem p e = Some r ->
    r = Some (peek mem (q + off_bInterfaceClass)).
Proof.
  induction 1 as [p|p q k Hc Hn _ IH]; intros Hq Hi fuel r;
    (destruct fuel as [|fuel]; [discriminate|]);
    cbn [first_interface_class]; unfold off_bDescriptorType, off_bLength.
  - unfold not_an_interface in Hi. apply negb_false_iff in Hi.
    rewrite Hq, Hi. now intros [= <-].
  - unfold not_an_interface in Hn. apply negb_true_iff in Hn.
    rewrite Hc, Hn, N.add_0_r. now apply IH.
Qed.

(** Inside the delivered data the walks see the data. *)
Lemma peek_heap_view comm data off :
  off < N.of_nat (length data) -> peek (heap_view comm data) off = byte_at data off.
Proof.
  intros H. unfold peek, heap_view, byte_at.
  destruct (N.ltb_spec off (N.of_nat (length data))); [reflexivity | lia].
Qed.

(** Behind it they see what the heap holds behind the block. *)
Lemma peek_heap_view_behind comm data off :
  N.of_nat (length data) <= off ->
  peek (heap_view comm data) off
    = Byte.to_N (behind_block comm
                   (sizeof_USB_DESCRIPTOR_REQUEST + N.of_nat (length data))
                   (off - N.of_nat (length data))).
Proof.
  intros H. unfold peek, heap_view.
  destruct (N.ltb_spec off (N.of_nat (length data))); [lia | reflexivity].
Qed.

Lemma FillConfigDescriptor_stalls hub dev ConnectionIndex DescriptorIndex data q k :
  GetConfigDescriptor (_pDeviceCommunication hub) ConnectionIndex 0
    = Ok (Some data) ->
  search_steps (seen_by hub data) (wTotalLength_at (seen_by hub data))
    (peek (seen_by hub data) 0) q k ->
  zero_length_inside (seen_by hub data) (wTotalLength_at (seen_by hub data)) q = true ->
  not_an_interface (seen_by hub data) q = true ->
  forall fuel,
    FillConfigDescriptor fuel hub dev ConnectionIndex DescriptorIndex = None.
Proof.
  intros Hg Hw Hz Hn fuel. unfold FillConfigDescriptor. rewrite Hg.
  unfold off_bLength. rewrite !N.add_0_l.
  fold (seen_by hub data).
  now rewrite (search_stalls_after_steps _ _ _ _ _ Hw Hz Hn fuel).
Qed.

(** X10.  [FillConfigDescriptor] never returns when the configuration that
    the device delivers has, behind the header, a descriptor of
    declared length zero that lies inside the loop condition and is
    not itself tagged as an interface, with no interface descriptor
    before it: the search for the first interface does not advance.
    (The parser's [ExtractInterfaceClass] ends on the same buffer.) *)
Theorem interface_search_hangs_at_zero_length hub dev ConnectionIndex DescriptorIndex
    data q k :
  GetConfigDescriptor (_pDeviceCommunication hub) ConnectionIndex 0
    = Ok (Some data) ->
  search_steps (seen_by hub data) (wTotalLength_at (seen_by hub data))
    (peek (seen_by hub data) 0) q k ->
  zero_length_inside (seen_by hub data) (wTotalLength_at (seen_by hub data)) q = true ->
  not_an_interface (seen_by hub data) q = true ->
  forall fuel,
    FillConfigDescriptor fuel hub dev ConnectionIndex DescriptorIndex = None.
Proof.
  intros Hg Hw Hz Hn fuel. unfold FillConfigDescriptor. rewrite Hg.
  unfold off_bLength. rewrite !N.add_0_l.
  fold (seen_by hub data).
  now rewrite (search_stalls_after_steps _ _ _ _ _ Hw Hz Hn fuel).
Qed.

Lemma interface_search_hangs_at_zero_length_witness :
  GetConfigDescriptor (_pDeviceCommunication (hub_serving zero_length_after_header)) 1 0
    = Ok (Some zero_length_after_header) /\
  (forall fuel,
     FillConfigDescriptor fuel (hub_serving zero_length_after_header)
       device_without_strings 1 0 = None).
Proof.
  split; [reflexivity|].
  apply (interface_search_hangs_at_zero_length (hub_serving zero_length_after_header)
           device_without_strings 1 0 zero_length_after_header 9 0).
  - reflexivity.
  - apply search_stands.
  - reflexivity.
  - reflexivity.
Defined.

(** ** What [FillConfigDescriptor] changes *)

Lemma GetAllStringDescriptors_interfaceClass hub ConnectionIndex dev mem info info' :
  GetAllStringDescriptors hub ConnectionIndex dev mem info = Ok info' ->
  _interfaceClass info' = _interfaceClass info.
Proof.
  unfold GetAllStringDescriptors.
  destruct (GetStringDescriptor _ _ 0 0) as [lang|]; [|discriminate]. cbn [Exn.bind].
  repeat match goal with
         | |- context [fetch_string ?c ?i ?x ?l] =>
             destruct (fetch_string c i x l); [|discriminate]; cbn [Exn.bind]
         end.
  now intros [= <-].
Qed.

(** X11.  A call of [FillConfigDescriptor] that returns normally leaves the
    hub's name, port count and the two port maps as they were, and
    touches the two descriptor maps at the connection index only; an
    entry that is already there is kept ([emplace] does not
    overwrite).  When the device delivers no configuration the hub is
    unchanged.  A new descriptor record carries the byte at offset 5
    of the first descriptor tagged as an interface that the search
    gets to.  The length of that descriptor is not looked at: when the
    byte lies inside the delivered data it is the class byte found
    there, and when the descriptor is so short that offset 5 lies
    behind the data, the record carries what the heap holds behind the
    block. *)
Theorem FillConfigDescriptor_changes fuel hub dev ConnectionIndex DescriptorIndex hub' :
  FillConfigDescriptor fuel hub dev ConnectionIndex DescriptorIndex = Some (Ok hub') ->
  _hubName hub' = _hubName hub /\
  _numberOfPorts hub' = _numberOfPorts hub /\
  _hubPortConnectorProperties hub' = _hubPortConnectorProperties hub /\
  _hubPortConnectionInfo hub' = _hubPortConnectionInfo hub /\
  (forall j, j <> ConnectionIndex ->
     _portUsbConfigurationDescriptor hub' !! j = _portUsbConfigurationDescriptor hub !! j /\
     _usbDeviceDescriptionInfo hub' !! j = _usbDeviceDescriptionInfo hub !! j) /\
  (forall info, _usbDeviceDescriptionInfo hub !! ConnectionIndex = Some info ->
     _usbDeviceDescriptionInfo hub' !! ConnectionIndex = Some info) /\
  (GetConfigDescriptor (_pDeviceCommunication hub) ConnectionIndex 0 = Ok None ->
   hub' = hub) /\
  (forall data q k,
     GetConfigDescriptor (_pDeviceCommunication hub) ConnectionIndex 0
       = Ok (Some data) ->
     _usbDeviceDescriptionInfo hub !! ConnectionIndex = None ->
     search_steps (seen_by hub data) (wTotalLength_at (seen_by hub data))
       (peek (seen_by hub data) 0) q k ->
     walk_condition (seen_by hub data) q (wTotalLength_at (seen_by hub data)) = true ->
     not_an_interface (seen_by hub data) q = false ->
     exists info,
       _usbDeviceDescriptionInfo hub' !! ConnectionIndex = Some info /\
       (q + 5 < N.of_nat (length data) ->
        _interfaceClass info = Some (byte_at data (q + 5))) /\
       (N.of_nat (length data) <= q + 5 ->
        _interfaceClass info
          = Some (Byte.to_N
                    (behind_block (_pDeviceCommunication hub)
                       (sizeof_USB_DESCRIPTOR_REQUEST + N.of_nat (length data))
                       (q + 5 - N.of_nat (length data)))))).
Proof.
  unfold FillConfigDescriptor. intros H.
  destruct (GetConfigDescriptor (_pDeviceCommunication hub) ConnectionIndex 0)
    as [[data|]|e] eqn:Hg; [| |discriminate].
  2:{ injection H as <-. repeat split; try reflexivity; try discriminate; auto. }
  unfold off_bLength in H. rewrite !N.add_0_l in H.
  fold (seen_by hub data) in H.
  destruct (first_interface_class fuel (seen_by hub data) (peek (seen_by hub data) 0)
              (wTotalLength_at (seen_by hub data))) as [cls|] eqn:Hcls;
    [|discriminate].
  destruct (AreUsbDescriptorsCorrect fuel dev (seen_by hub data)) as [usable|];
    [|discriminate].
  set (info0 := match cls with
                | Some c => SetInterfaceClass default_UsbDeviceDescriptorInfo c
                | None => default_UsbDeviceDescriptorInfo
                end) in H.
  set (strings := if usable then _ else _) in H.
  destruct strings as [info|e] eqn:Hstr; [|discriminate].
  cbn [Exn.bind] in H. injection H as <-. cbn.
  assert (Hclass : _interfaceClass info = _interfaceClass info0).
  { subst strings. destruct usable.
    - now apply GetAllStringDescriptors_interfaceClass in Hstr.
    - now injection Hstr as <-. }
  repeat split; try reflexivity.
  - unfold emplace. rewrite lookup_try_emplace.
    destruct (_portUsbConfigurationDescriptor hub !! j); [reflexivity|].
    now rewrite bool_decide_eq_false_2.
  - unfold emplace. rewrite lookup_try_emplace.
    destruct (_usbDeviceDescriptionInfo hub !! j); [reflexivity|].
    now rewrite bool_decide_eq_false_2.
  - intros old Hold. unfold emplace. now rewrite lookup_try_emplace, Hold.
  - discriminate.
  - intros data' q k [= <-] Hfree Hw Hq Hi.
    assert (Hfound : _interfaceClass info
                     = Some (peek (seen_by hub data) (q + off_bInterfaceClass))).
    { rewrite Hclass. subst info0.
      now rewrite (search_finds _ _ _ _ _ Hw Hq Hi _ _ Hcls). }
    exists info. split; [|split].
    + unfold emplace. rewrite lookup_try_emplace, Hfree.
      now rewrite bool_decide_eq_true_2.
    + intros Hin. rewrite Hfound. unfold seen_by, off_bInterfaceClass.
      now rewrite peek_heap_view.
    + intros Hout. rewrite Hfound. unfold seen_by, off_bInterfaceClass.
      now rewrite peek_heap_view_behind.
Qed.

Lemma FillConfigDescriptor_changes_witness :
  (exists hub' info,
     FillConfigDescriptor 4 (hub_serving TopologyProps.stick_configuration)
       device_without_strings 1 0 = Some (Ok hub') /\
     _hubPortConnectionInfo hub' = ∅ /\
     _usbDeviceDescriptionInfo hub' !! 1 = Some info /\
     _interfaceClass info = Some 8) /\
  (exists hub' info,
     FillConfigDescriptor 4
       (hub_serving_on_heap short_interface_at_end (fun k => if k =? 2 then x07 else x00))
       device_without_strings 1 0 = Some (Ok hub') /\
     _usbDeviceDescriptionInfo hub' !! 1 = Some info /\
     _interfaceClass info = Some 7).
Proof.
  split.
  - destruct (FillConfigDescriptor 4 (hub_serving TopologyProps.stick_configuration)
                device_without_strings 1 0) as [[hub'|e]|] eqn:E;
      [|vm_compute in E; discriminate..].
    destruct (FillConfigDescriptor_changes _ _ _ _ _ _ E)
      as (_ & _ & _ & Hconn & _ & _ & _ & Hfound).
    destruct (Hfound TopologyProps.stick_configuration 9 0%nat eq_refl eq_refl
                (search_stands _ _ _) eq_refl eq_refl) as (info & Hinfo & Hcls & _).
    exists hub', info. split; [reflexivity|]. split; [exact Hconn|].
    split; [exact Hinfo|]. apply Hcls. vm_compute. reflexivity.
  - destruct (FillConfigDescriptor 4
                (hub_serving_on_heap short_interface_at_end
                   (fun k => if k =? 2 then x07 else x00))
                device_without_strings 1 0) as [[hub'|e]|] eqn:E;
      [|vm_compute in E; discriminate..].
    destruct (FillConfigDescriptor_changes _ _ _ _ _ _ E)
      as (_ & _ & _ & _ & _ & _ & _ & Hfound).
    destruct (Hfound short_interface_at_end 9 0%nat eq_refl eq_refl
                (search_stands _ _ _) eq_refl eq_refl) as (info & Hinfo & _ & Hcls).
    exists hub', info. split; [reflexivity|]. split; [exact Hinfo|].
    apply Hcls. vm_compute. discriminate.
Defined.

(** ** [PopulateInfo] *)

Lemma EnumeratePortsConnectionInfo_keys comm n m0 m p :
  EnumeratePortsConnectionInfo comm n m0 = Ok m ->
  is_Some (m !! p) -> 1 <= p <= n.
Proof.
  intros H [info Hp].
  destruct (EnumeratePortsConnectionInfo_Ok _ _ _ _ H) as (_ & _ & Hout & _).
  destruct (decide (1 <= p <= n)) as [Hr|Hr]; [exact Hr|].
  rewrite (Hout p Hr) in Hp. discriminate.
Qed.

Lemma EnumeratePorts_keys comm n m0 m p :
  EnumeratePorts comm n m0 = Ok m ->
  is_Some (m !! p) -> is_Some (m0 !! p) \/ 1 <= p <= n.
Proof.
  unfold EnumeratePorts. intros H [info Hp].
  destruct (check_enumeration_arguments comm n) as [[]|e]; [|discriminate].
  cbn [Exn.bind] in H. injection H as <-.
  rewrite EnumeratePorts_loop_lookup in Hp.
  destruct (m0 !! p); [left; eauto|].
  case_bool_decide as Hin; [|discriminate].
  right. now apply elem_of_ports_upto.
Qed.

(** X12.  After a successful [PopulateInfo] the port count is the one the
    node-information request reported and lies in [1 .. 255], the
    capabilities request was supported, every key of the connection
    map lies in [1 .. port count], every key of the connector map was
    there before or lies in that range, and the name, the transport
    and the two descriptor maps are as before. *)
Theorem PopulateInfo_success hub hub' :
  PopulateInfo hub = Ok hub' ->
  let comm := _pDeviceCommunication hub in
  io_ok (node_information_answer comm) = true /\
  unsupported (hub_capabilities_ex_answer comm) sizeof_USB_HUB_CAPABILITIES_EX = false /\
  _numberOfPorts hub' = bNumberOfPorts (io_out (node_information_answer comm)) /\
  1 <= _numberOfPorts hub' <= MaxPortsPerHub /\
  (forall p, is_Some (_hubPortConnectionInfo hub' !! p) ->
             1 <= p <= _numberOfPorts hub') /\
  (forall p, is_Some (_hubPortConnectorProperties hub' !! p) ->
             is_Some (_hubPortConnectorProperties hub !! p) \/
             1 <= p <= _numberOfPorts hub') /\
  _hubName hub' = _hubName hub /\
  _pDeviceCommunication hub' = comm /\
  _portUsbConfigurationDescriptor hub' = _portUsbConfigurationDescriptor hub /\
  _usbDeviceDescriptionInfo hub' = _usbDeviceDescriptionInfo hub.
Proof.
  intros H comm. revert H.
  unfold PopulateInfo, GetUsbHubNodeInformation, GetUsbHubNodeInformationEx,
    GetUsbHubNodeCapabilitiesEx, THROW_LAST_ERROR_IF, unsupported.
  fold comm. fold (node_information_answer comm). fold (hub_capabilities_ex_answer comm).
  intros H.
  destruct (io_ok (node_information_answer comm)); [|discriminate].
  cbn [negb Exn.bind numbersOfPorts] in H.
  destruct (negb (io_ok (hub_capabilities_ex_answer comm)) ||
            (io_bytes (hub_capabilities_ex_answer comm) <? sizeof_USB_HUB_CAPABILITIES_EX));
    [discriminate|].
  cbn [Exn.bind] in H.
  destruct (EnumeratePorts comm _ _) as [props|e] eqn:Hp; [|discriminate].
  cbn [Exn.bind] in H.
  destruct (EnumeratePortsConnectionInfo comm _ _) as [conns|e] eqn:Hc; [|discriminate].
  cbn [Exn.bind] in H. injection H as <-. cbn.
  destruct (EnumeratePortsConnectionInfo_Ok _ _ _ _ Hc) as (Hn & _).
  split; [reflexivity|]. split; [reflexivity|]. split; [reflexivity|].
  split; [exact Hn|]. split; [|split].
  - intros p Hs. exact (EnumeratePortsConnectionInfo_keys _ _ _ _ _ Hc Hs).
  - intros p Hs. exact (EnumeratePorts_keys _ _ _ _ _ Hp Hs).
  - repeat split; reflexivity.
Qed.

Lemma PopulateInfo_success_witness :
  exists hub',
    PopulateInfo (hub_serving TopologyProps.stick_configuration) = Ok hub' /\
    _numberOfPorts hub' = 1 /\
    (forall p, is_Some (_hubPortConnectionInfo hub' !! p) -> 1 <= p <= 1).
Proof.
  destruct (PopulateInfo (hub_serving TopologyProps.stick_configuration))
    as [hub'|e] eqn:E; [|vm_compute in E; discriminate].
  destruct (PopulateInfo_success _ _ E) as (_ & _ & Hn & _ & Hk & _).
  exists hub'. split; [reflexivity|]. split; [exact Hn|].
  intros p Hp. specialize (Hk p Hp). now rewrite Hn in Hk.
Defined.

(** X13.  [PopulateInfo] fails with the I/O error of the node-information
    request when that fails, with the I/O error of the capabilities
    request when that is unsupported, and with the invalid-argument
    error when the hub reports no port: nothing of the hub is
    enumerated then. *)
Theorem PopulateInfo_failures hub :
  let comm := _pDeviceCommunication hub in
  (io_ok (node_information_answer comm) = false ->
   PopulateInfo hub
     = Throw (ResultException
                (HRESULT_FROM_WIN32 (io_err (node_information_answer comm))))) /\
  (io_ok (node_information_answer comm) = true ->
   unsupported (hub_capabilities_ex_answer comm) sizeof_USB_HUB_CAPABILITIES_EX = true ->
   PopulateInfo hub
     = Throw (ResultException
                (HRESULT_FROM_WIN32 (io_err (hub_capabilities_ex_answer comm))))) /\
  (io_ok (node_information_answer comm) = true ->
   unsupported (hub_capabilities_ex_answer comm) sizeof_USB_HUB_CAPABILITIES_EX = false ->
   bNumberOfPorts (io_out (node_information_answer comm)) = 0 ->
   PopulateInfo hub = Throw InvalidDeviceArgumentException).
Proof.
  intros comm.
  unfold PopulateInfo, GetUsbHubNodeInformation, GetUsbHubNodeInformationEx,
    GetUsbHubNodeCapabilitiesEx, THROW_LAST_ERROR_IF, unsupported.
  fold comm. fold (node_information_answer comm). fold (hub_capabilities_ex_answer comm).
  split; [|split].
  - now intros ->.
  - now intros -> ->.
  - intros -> -> Hz. cbn [negb Exn.bind numbersOfPorts]. rewrite Hz. reflexivity.
Qed.

Lemma PopulateInfo_failures_witness :
  PopulateInfo hub_on_deaf_driver
    = Throw (ResultException (HRESULT_FROM_WIN32 ERROR_INVALID_FUNCTION)) /\
  PopulateInfo hub_without_ports = Throw InvalidDeviceArgumentException.
Proof.
  split.
  - exact (proj1 (PopulateInfo_failures hub_on_deaf_driver) eq_refl).
  - exact (proj2 (proj2 (PopulateInfo_failures hub_without_ports))
             eq_refl eq_refl eq_refl).
Defined.

(** ** [GetAllStringDescriptors] *)

Lemma length_wchars_of_bytes n : forall bs,
  (length bs <= n)%nat -> (2 * length (wchars_of_bytes bs) <= length bs)%nat.
Proof.
  induction n as [|n IH]; intros bs Hn.
  - destruct bs; [cbn; lia | cbn in Hn; lia].
  - destruct bs as [|lo [|hi rest]]; cbn [wchars_of_bytes length]; try lia.
    specialize (IH rest). cbn [length] in Hn.
    assert (length rest <= n)%nat by lia. specialize (IH H). lia.
Qed.

Lemma length_wstring_of_wchars buf :
  (length (wstring_of_wchars buf) <= length buf)%nat.
Proof.
  induction buf as [|c rest IH]; cbn; [lia|].
  destruct (c =? 0); cbn; lia.
Qed.

Lemma short_text_nil : short_text [].
Proof. split; [cbn; lia | intros H; inversion H]. Qed.

Lemma fetch_string_total comm ConnectionIndex index languageId :
  ConnectionIndex <> 0 ->
  _hFile comm <> None ->
  (forall size, alloc_ok comm size = true) ->
  exists s,
    fetch_string comm ConnectionIndex index languageId = Ok s /\
    short_text s /\ (index = 0 -> s = []).
Proof.
  intros Hc Hh Ha. unfold fetch_string.
  destruct (N.eqb_spec index 0) as [Hi|Hi].
  - exists []. split; [reflexivity|]. split; [apply short_text_nil | reflexivity].
  - destruct (GetStringDescriptor comm ConnectionIndex index languageId)
      as [[node|]|e] eqn:E; cbn [Exn.bind].
    + exists (wstring_of_wchars (bString node)). split; [reflexivity|].
      split; [|contradiction]. split; [|apply wstring_of_wchars_no_NUL].
      destruct (length_StringDescriptor _ _ _ _ _ E) as [Hlen Hrange].
      pose proof (length_wstring_of_wchars (bString node)).
      unfold bString in *.
      pose proof (length_wchars_of_bytes _ (drop 2 (StringDescriptor node)) (le_n _)).
      rewrite length_drop in *. lia.
    + exists []. split; [reflexivity|]. split; [apply short_text_nil | contradiction].
    + exfalso. revert E.
      unfold GetStringDescriptor, handle_invalid, THROW_IF_NULL_ALLOC.
      destruct (N.eqb_spec ConnectionIndex 0); [contradiction|].
      destruct (_hFile comm); [|contradiction].
      rewrite !Ha. cbn [negb].
      match goal with |- context [if ?c then _ else _] => destruct c end; discriminate.
Qed.

(** X14.  On a valid handle, with a connection index other than 0 and while
    allocations succeed, [GetAllStringDescriptors] never throws: a
    string the device does not deliver is left empty.  The interface
    class of the record is kept, every stored string has at most 126
    code units and no NUL, and a string whose index in the device
    descriptor is 0 is empty (it is not asked for). *)
Theorem GetAllStringDescriptors_total hub ConnectionIndex dev mem info :
  ConnectionIndex <> 0 ->
  _hFile (_pDeviceCommunication hub) <> None ->
  (forall size, alloc_ok (_pDeviceCommunication hub) size = true) ->
  exists info',
    GetAllStringDescriptors hub ConnectionIndex dev mem info = Ok info' /\
    _interfaceClass info' = _interfaceClass info /\
    short_text (_manufacturer info') /\
    short_text (_product info') /\
    short_text (_serialNumber info') /\
    (iManufacturer dev = 0 -> _manufacturer info' = []) /\
    (iProduct dev = 0 -> _product info' = []) /\
    (iSerialNumber dev = 0 -> _serialNumber info' = []).
Proof.
  intros Hc Hh Ha. unfold GetAllStringDescriptors.
  destruct (GetStringDescriptor (_pDeviceCommunication hub) ConnectionIndex 0 0)
    as [lang|e] eqn:E.
  2:{ exfalso. revert E.
      unfold GetStringDescriptor, handle_invalid, THROW_IF_NULL_ALLOC.
      destruct (N.eqb_spec ConnectionIndex 0); [contradiction|].
      destruct (_hFile (_pDeviceCommunication hub)); [|contradiction].
      rewrite !Ha. cbn [negb].
      match goal with |- context [if ?c then _ else _] => destruct c end; discriminate. }
  cbn [Exn.bind].
  set (languageID0 := match lang with Some node => _ | None => _ end).
  destruct (fetch_string_total _ ConnectionIndex (bDeviceClass dev) languageID0 Hc Hh Ha)
    as (s0 & -> & _).
  destruct (fetch_string_total _ ConnectionIndex (iManufacturer dev) languageID0 Hc Hh Ha)
    as (s1 & -> & Hs1 & Hz1).
  destruct (fetch_string_total _ ConnectionIndex (iProduct dev) languageID0 Hc Hh Ha)
    as (s2 & -> & Hs2 & Hz2).
  destruct (fetch_string_total _ ConnectionIndex (iSerialNumber dev) languageID0 Hc Hh Ha)
    as (s3 & -> & Hs3 & Hz3).
  cbn [Exn.bind]. eexists. split; [reflexivity|]. cbn. auto 10.
Qed.

Lemma GetAllStringDescriptors_total_witness :
  exists info',
    GetAllStringDescriptors hub_of_named_devices 1 device_with_manufacturer
      TopologyProps.stick_configuration default_UsbDeviceDescriptorInfo = Ok info' /\
    short_text (_manufacturer info') /\
    _product info' = [].
Proof.
  destruct (GetAllStringDescriptors_total hub_of_named_devices 1 device_with_manufacturer
              TopologyProps.stick_configuration default_UsbDeviceDescriptorInfo)
    as (info' & E & _ & Hm & _ & _ & _ & Hp & _).
  - discriminate.
  - discriminate.
  - reflexivity.
  - exists info'. split; [exact E|]. split; [exact Hm|]. now apply Hp.
Defined.

End UsbHubWalkFacts.

(* ===================================================================== *)
(** * The orchestrator: matching helpers and the shape of the list       *)
(* ===================================================================== *)

Module ManagerFacts.
Import Sdk Exn DeviceCommunication DevicesManager Impl ManagerProps TopologyProps.

(** ** Text search *)

Lemma starts_with_prefix s prefix :
  starts_with s prefix = true <-> exists post, s = prefix ++ post.
Proof.
  revert s. induction prefix as [|c prefix IH]; intros s.
  - destruct s; cbn; split; eauto.
  - destruct s as [|d s]; cbn [starts_with].
    + split; [discriminate | intros [post H]; discriminate].
    + rewrite andb_true_iff, N.eqb_eq, IH. split.
      * intros [-> [post ->]]. eauto.
      * intros [post [= -> ->]]. eauto.
Qed.

(** [wfind haystack needle] holds exactly when the needle occurs in
    the haystack as a block of consecutive code units. *)
Theorem wfind_infix haystack needle :
  wfind haystack needle = true <->
  exists pre post, haystack = pre ++ needle ++ post.
Proof.
  induction haystack as [|c rest IH].
  - cbn [wfind]. rewrite orb_false_r, starts_with_prefix. split.
    + intros [post ->]. exists [], post. reflexivity.
    + intros (pre & post & H). destruct pre; [eauto | discriminate].
  - cbn [wfind]. rewrite orb_true_iff, starts_with_prefix, IH. split.
    + intros [[post ->]|(pre & post & ->)].
      * exists [], post. reflexivity.
      * exists (c :: pre), post. reflexivity.
    + intros (pre & post & H). destruct pre as [|d pre].
      * left. eauto.
      * right. injection H as -> ->. eauto.
Qed.

Lemma towupper_idempotent c : towupper (towupper c) = towupper c.
Proof.
  unfold towupper.
  destruct ((97 <=? c) && (c <=? 122)) eqn:E; [|now rewrite E].
  apply andb_true_iff in E. destruct E as [E1 E2].
  apply N.leb_le in E1. apply N.leb_le in E2.
  destruct (N.leb_spec 97 (c - 32)); [lia | reflexivity].
Qed.

(** X15.  [ContainsIgnoreCase] finds whatever the case-sensitive search
    finds, and its answer does not change when both texts are put in
    upper case. *)
Theorem ContainsIgnoreCase_ignores_case haystack needle :
  (wfind haystack needle = true -> ContainsIgnoreCase haystack needle = true) /\
  ContainsIgnoreCase (map towupper haystack) (map towupper needle)
    = ContainsIgnoreCase haystack needle.
Proof.
  split.
  - intros H. unfold ContainsIgnoreCase.
    destruct needle as [|c needle]; [reflexivity|].
    destruct haystack as [|d haystack]; [discriminate|].
    apply wfind_infix in H. destruct H as (pre & post & ->).
    apply wfind_infix. exists (map towupper pre), (map towupper post).
    now rewrite !map_app.
  - unfold ContainsIgnoreCase.
    destruct needle as [|c needle]; [reflexivity|].
    destruct haystack as [|d haystack]; [reflexivity|].
    cbn [map]. rewrite !towupper_idempotent.
    rewrite <- !list_fmap_compose.
    rewrite !(list_fmap_ext (towupper ∘ towupper) towupper)
      by (intros; apply towupper_idempotent).
    reflexivity.
Qed.

Lemma ContainsIgnoreCase_ignores_case_witness :
  ContainsIgnoreCase (L "USB\VID_0951&PID_172B") (L "VID_0951") = true.
Proof.
  exact (proj1 (ContainsIgnoreCase_ignores_case (L "USB\VID_0951&PID_172B")
                  (L "VID_0951")) eq_refl).
Defined.

(** ** The VID/PID pattern *)

Lemma hex_digit_injective a b :
  a < 16 -> b < 16 -> hex_digit a = hex_digit b -> a = b.
Proof.
  unfold hex_digit. intros Ha Hb.
  destruct (N.ltb_spec a 10), (N.ltb_spec b 10); lia.
Qed.

Lemma hex_digit_upper d : d < 16 -> towupper (hex_digit d) = hex_digit d.
Proof.
  unfold hex_digit, towupper. intros Hd.
  destruct (N.ltb_spec d 10).
  - destruct (N.leb_spec 97 (48 + d)); [lia | reflexivity].
  - destruct (N.leb_spec 97 (55 + d)); [lia | reflexivity].
Qed.

Lemma hex4_injective v w : v < 65536 -> w < 65536 -> hex4 v = hex4 w -> v = w.
Proof.
  unfold hex4. intros Hv Hw [= H3 H2 H1 H0].
  apply hex_digit_injective in H3, H2, H1, H0;
    try (apply N.mod_lt; discriminate).
  pose proof (N.div_mod v 16). pose proof (N.div_mod w 16).
  pose proof (N.div_mod (v / 16) 16). pose proof (N.div_mod (w / 16) 16).
  pose proof (N.div_mod (v / 16 / 16) 16). pose proof (N.div_mod (w / 16 / 16) 16).
  rewrite !N.Div0.div_div in *.
  change (16 * 16) with 256 in *. change (256 * 16) with 4096 in *.
  assert (v / 4096 < 16) by (apply N.Div0.div_lt_upper_bound; lia).
  assert (w / 4096 < 16) by (apply N.Div0.div_lt_upper_bound; lia).
  rewrite (N.mod_small (v / 4096)) in * by assumption.
  rewrite (N.mod_small (w / 4096)) in * by assumption.
  lia.
Qed.

(** X16.  The pattern of a vendor and a product identifier has 17 code
    units, is unchanged by upper-casing, and determines the two
    16-bit identifiers: different devices never share a pattern. *)
Theorem BuildVidPidPattern_injective v p v' p' :
  v < 65536 -> p < 65536 -> v' < 65536 -> p' < 65536 ->
  length (BuildVidPidPattern v p) = 17%nat /\
  map towupper (BuildVidPidPattern v p) = BuildVidPidPattern v p /\
  (BuildVidPidPattern v p = BuildVidPidPattern v' p' -> v = v' /\ p = p').
Proof.
  intros Hv Hp Hv' Hp'. split; [reflexivity|]. split.
  - unfold BuildVidPidPattern, hex4. cbn [L map app String.list_ascii_of_string].
    cbn. rewrite !hex_digit_upper by (apply N.mod_lt; discriminate). reflexivity.
  - unfold BuildVidPidPattern. intros H. cbn in H.
    injection H as H3 H2 H1 H0 G3 G2 G1 G0.
    split; apply hex4_injective; try assumption; unfold hex4; congruence.
Qed.

Lemma BuildVidPidPattern_injective_witness :
  BuildVidPidPattern 0x0951 0x172B = L "VID_0951&PID_172B" /\
  length (BuildVidPidPattern 0x0951 0x172B) = 17%nat.
Proof.
  destruct (BuildVidPidPattern_injective 0x0951 0x172B 0x0951 0x172B)
    as (Hlen & _ & _); try reflexivity.
  split; [reflexivity | exact Hlen].
Defined.

(** ** The class identifier of a port *)

(** X17.  [select_best_guid] returns nothing only for no candidate, returns
    one of the candidates otherwise, and returns the generic
    USB-device identifier only when every candidate is that
    identifier. *)
Theorem select_best_guid_prefers_specific matchedGuids :
  (select_best_guid matchedGuids = None <-> matchedGuids = []) /\
  (forall guid, select_best_guid matchedGuids = Some guid ->
     guid ∈ matchedGuids /\
     (guid = GUID_DEVINTERFACE_USB_DEVICE ->
      forall other, other ∈ matchedGuids -> other = GUID_DEVINTERFACE_USB_DEVICE)).
Proof.
  unfold select_best_guid.
  destruct matchedGuids as [|front rest]; [split; [easy | discriminate]|].
  split.
  - split; [|discriminate].
    destruct (1 <? length (front :: rest))%nat; [|discriminate].
    match goal with |- context [List.find ?f ?l] => destruct (List.find f l) end;
      discriminate.
  - intros guid.
    destruct (1 <? length (front :: rest))%nat eqn:Hlen.
    + match goal with
      | |- context [List.find ?f ?l] => destruct (List.find f l) as [found|] eqn:Hf
      end.
      * intros [= <-]. apply List.find_some in Hf. destruct Hf as [Hin Hne].
        split; [now apply list_elem_of_In|].
        intros ->. rewrite N.eqb_refl in Hne. discriminate.
      * intros [= <-]. split; [left|].
        intros _ other Hin. apply list_elem_of_In in Hin.
        pose proof (List.find_none _ _ Hf other Hin) as Hother.
        apply negb_false_iff in Hother. now apply N.eqb_eq in Hother.
    + intros [= <-]. split; [left|].
      destruct rest as [|second rest]; [|discriminate].
      intros -> other Hin. apply list_elem_of_singleton in Hin. exact Hin.
Qed.

Lemma select_best_guid_prefers_specific_witness :
  select_best_guid [GUID_DEVINTERFACE_USB_DEVICE; GUID_DEVCLASS_USB]
    = Some GUID_DEVCLASS_USB /\
  GUID_DEVCLASS_USB ∈ [GUID_DEVINTERFACE_USB_DEVICE; GUID_DEVCLASS_USB].
Proof.
  split; [reflexivity|].
  exact (proj1 (proj2 (select_best_guid_prefers_specific
                         [GUID_DEVINTERFACE_USB_DEVICE; GUID_DEVCLASS_USB])
                  GUID_DEVCLASS_USB eq_refl)).
Defined.

(** ** The scan of the registry for a port *)

Lemma match_devices_spec pattern key : forall allDevices guids bus,
  match_devices pattern key allDevices guids bus
    = (guids ++ map DevInfoData.GetClassGuid
                  (List.filter (hardware_id_matches pattern) allDevices),
       match last (List.filter (is_bus_layer_record pattern key) allDevices) with
       | Some d => Some d
       | None => bus
       end).
Proof.
  induction allDevices as [|d rest IH]; intros guids bus.
  - cbn. now rewrite app_nil_r.
  - cbn [match_devices List.filter]. unfold is_bus_layer_record at 1.
    destruct (hardware_id_matches pattern d) eqn:Hm.
    + unfold hardware_id_matches in Hm. apply andb_true_iff in Hm.
      destruct Hm as [H1 H2]. apply negb_true_iff in H1. rewrite H1, H2.
      cbn [negb orb andb]. rewrite IH. cbn [map]. rewrite <- app_assoc. cbn [app].
      destruct (negb (bool_decide (DevInfoData.GetDriverKeyName d = [])) &&
                bool_decide (key = DevInfoData.GetDriverKeyName d)).
      * rewrite last_cons. now destruct (last _).
      * reflexivity.
    + cbn [andb]. rewrite IH.
      unfold hardware_id_matches in Hm. apply andb_false_iff in Hm.
      destruct Hm as [Hm|Hm].
      * apply negb_false_iff in Hm. now rewrite Hm.
      * rewrite Hm. now rewrite orb_true_r.
Qed.

Lemma last_bus_layer_record pattern key allDevices d :
  last (List.filter (is_bus_layer_record pattern key) allDevices) = Some d ->
  d ∈ allDevices /\ DevInfoData.GetDriverKeyName d = key /\ key <> [] /\
  wfind (DevInfoData.GetHardwareId d) pattern = true.
Proof.
  intros Hd. apply last_Some_elem_of, list_elem_of_In, List.filter_In in Hd.
  destruct Hd as [Hin Hb]. unfold is_bus_layer_record, hardware_id_matches in Hb.
  rewrite !andb_true_iff, !negb_true_iff in Hb.
  destruct Hb as [[[_ Hw] Hk] He].
  apply bool_decide_eq_true_1 in He. apply bool_decide_eq_false_1 in Hk.
  split; [now apply list_elem_of_In|]. split; [congruence|].
  split; [congruence | exact Hw].
Qed.

Lemma match_devices_empty_key pattern allDevices guids bus :
  match_devices pattern [] allDevices [] None = (guids, bus) -> bus = None.
Proof.
  rewrite match_devices_spec. intros [= _ <-].
  destruct (last (List.filter (is_bus_layer_record pattern []) allDevices))
    as [d|] eqn:Hl; [|reflexivity].
  destruct (last_bus_layer_record _ _ _ _ Hl) as (_ & _ & Hne & _). contradiction.
Qed.

(** X18.  The scan of the registry for a port collects the class
    identifiers of the records whose hardware id contains the
    pattern, in registry order, and picks as bus-layer record the
    last record that moreover has the port's driver key.  The record
    it picks is one of the registry, and a port with an empty driver
    key gets none. *)
Theorem matched_registry_records pattern key allDevices guids bus :
  match_devices pattern key allDevices [] None = (guids, bus) ->
  guids = map DevInfoData.GetClassGuid
            (List.filter (hardware_id_matches pattern) allDevices) /\
  bus = last (List.filter (is_bus_layer_record pattern key) allDevices) /\
  (forall d, bus = Some d ->
     d ∈ allDevices /\ DevInfoData.GetDriverKeyName d = key /\ key <> [] /\
     wfind (DevInfoData.GetHardwareId d) pattern = true) /\
  (key = [] -> bus = None).
Proof.
  intros H. pose proof H as H'. revert H'.
  rewrite match_devices_spec. cbn [app]. intros [= <- <-].
  split; [reflexivity|]. split; [now destruct (last _)|]. split.
  - intros d Hd. apply (last_bus_layer_record pattern key allDevices).
    now destruct (last _).
  - intros ->. exact (match_devices_empty_key _ _ _ _ H).
Qed.

Lemma matched_registry_records_witness :
  match_devices (BuildVidPidPattern 0x0951 0x172B) stick_key registry [] None
    = ([GUID_DEVCLASS_USB], Some stick_record) /\
  stick_record ∈ registry.
Proof.
  split; [reflexivity|].
  exact (proj1 (proj1 (proj2 (proj2
           (matched_registry_records (BuildVidPidPattern 0x0951 0x172B) stick_key
              registry [GUID_DEVCLASS_USB] (Some stick_record) eq_refl)))
           stick_record eq_refl)).
Defined.

(** X19.  A port with no device, or with a device whose driver key is
    empty (the key could not be read), is passed over: no descriptor
    is fetched, no child hub is opened, nothing is thrown and no
    record is added; at most the port's class and identifiers are
    noted. *)
Theorem port_without_driver_key_is_passed_over fuel recurse allDevices portNumber
    connectionInfo usbHub maps devs :
  _connectionStatus connectionInfo = NoDeviceConnected \/
  _driverKeyName connectionInfo = [] ->
  exists maps',
    process_port fuel recurse allDevices (portNumber, connectionInfo) (usbHub, maps) devs
      = Some (Ok (usbHub, maps'), devs).
Proof.
  intros H. unfold process_port.
  destruct (_connectionStatus connectionInfo =? NoDeviceConnected) eqn:Hs;
    [eexists; reflexivity|].
  destruct H as [H|H]; [rewrite H in Hs; discriminate|].
  destruct (match_devices _ _ allDevices [] None) as [guids bus] eqn:Hm.
  rewrite H in Hm.
  rewrite (match_devices_empty_key _ _ _ _ Hm). eexists. reflexivity.
Qed.

Lemma port_without_driver_key_is_passed_over_witness :
  exists maps',
    process_port 5 (fun _ => out_of_fuel) registry
      (1, connection_without_key DeviceConnected)
      (HubWalkProps.hub_serving stick_configuration, empty_maps) []
      = Some (Ok (HubWalkProps.hub_serving stick_configuration, maps'), []).
Proof.
  apply port_without_driver_key_is_passed_over. right. reflexivity.
Defined.

(** ** The records of the USB enumeration *)

Section OnlyAppends.
Context (P : DeviceResultantInfo -> Prop).

Lemma appends_refl l : appends_records P l l.
Proof. exists []. split; [now rewrite app_nil_r | constructor]. Qed.

Lemma appends_trans l1 l2 l3 :
  appends_records P l1 l2 -> appends_records P l2 l3 -> appends_records P l1 l3.
Proof.
  intros (a & -> & Ha) (b & -> & Hb). exists (a ++ b).
  split; [now rewrite app_assoc | now apply Forall_app].
Qed.

Lemma only_appends_oret {A} (a : A) : only_appends P (oret a).
Proof. intros l r l' [= _ <-]. apply appends_refl. Qed.

Lemma only_appends_lift {A} (x : Result A) : only_appends P (lift x).
Proof. intros l r l' [= _ <-]. apply appends_refl. Qed.

Lemma only_appends_lift_fuel {A} (x : option (Result A)) :
  only_appends P (lift_fuel x).
Proof.
  intros l r l'. unfold lift_fuel. destruct x; [|discriminate].
  intros [= _ <-]. apply appends_refl.
Qed.

Lemma only_appends_obind {A B} (c : Orch A) (k : A -> Orch B) :
  only_appends P c -> (forall a, only_appends P (k a)) -> only_appends P (obind c k).
Proof.
  intros Hc Hk l r l'. unfold obind.
  destruct (c l) as [[[a|e] l1]|] eqn:E; [| |discriminate].
  - intros H. eapply appends_trans; [exact (Hc _ _ _ E) | exact (Hk _ _ _ _ H)].
  - intros [= _ <-]. exact (Hc _ _ _ E).
Qed.

Lemma only_appends_for_each {A S} (body : A -> S -> Orch S) :
  (forall a s, only_appends P (body a s)) ->
  forall l s, only_appends P (for_each l s body).
Proof.
  intros Hb. induction l as [|a rest IH]; intros s; cbn [for_each].
  - apply only_appends_oret.
  - apply only_appends_obind; [apply Hb | intros s'; apply IH].
Qed.

Lemma only_appends_AddDeviceInfo r : P r -> only_appends P (AddDeviceInfo r).
Proof.
  intros Hr l x l' [= _ <-]. exists [r]. split; [reflexivity|].
  constructor; [exact Hr | constructor].
Qed.

Lemma only_appends_after_clear {A} (c : Orch A) l r l' :
  only_appends P c ->
  obind ClearDevices (fun _ => c) l = Some (r, l') -> Forall P l'.
Proof.
  intros Hc. unfold obind, ClearDevices. intros H.
  destruct (Hc _ _ _ H) as (added & -> & Hadded). exact Hadded.
Qed.

End OnlyAppends.

Lemma only_appends_process_port fuel recurse allDevices entry st :
  (forall devicePath, only_appends usb_record (recurse devicePath)) ->
  only_appends usb_record (process_port fuel recurse allDevices entry st).
Proof.
  intros Hrec. destruct entry as [portNumber connectionInfo], st as [usbHub maps].
  unfold process_port.
  destruct (_connectionStatus connectionInfo =? NoDeviceConnected);
    [apply only_appends_oret|].
  destruct (match_devices _ _ allDevices [] None) as [guids [busDevice|]];
    [|apply only_appends_oret].
  destruct (negb (_deviceIsHub connectionInfo =? 0)).
  - apply only_appends_obind; [apply only_appends_lift|]. intros devicePath.
    apply only_appends_obind; [apply Hrec|]. intros _. apply only_appends_oret.
  - apply only_appends_obind; [apply only_appends_lift_fuel|]. intros usbHub'.
    apply only_appends_oret.
Qed.

Lemma only_appends_build_result env allDevices entry maps :
  only_appends usb_record (build_result env allDevices entry maps).
Proof.
  destruct entry as [portNum deviceDescInfo]. unfold build_result.
  apply only_appends_obind; [|intros _; apply only_appends_oret].
  apply only_appends_AddDeviceInfo. repeat split; reflexivity.
Qed.

Lemma only_appends_EnumeratePortsFromRootHub env allDevices fuel : forall hubName,
  only_appends usb_record (EnumeratePortsFromRootHub fuel env hubName allDevices).
Proof.
  induction fuel as [|fuel IH]; intros hubName; cbn [EnumeratePortsFromRootHub].
  - intros l r l'. discriminate.
  - apply only_appends_obind; [apply only_appends_lift|]. intros usbHub0.
    apply only_appends_obind; [apply only_appends_lift|]. intros usbHub.
    apply only_appends_obind.
    + apply only_appends_for_each. intros entry st.
      apply only_appends_process_port. exact IH.
    + intros st. apply only_appends_obind; [|intros _; apply only_appends_oret].
      apply only_appends_for_each. intros entry maps.
      apply only_appends_build_result.
Qed.

Lemma only_appends_usb_controllers fuel env :
  only_appends usb_record
    (orch allUsbDevices <~ lift (allUsbDevices env);
     orch controllers <~ lift (controllers env);
     for_each controllers tt (process_controller fuel env allUsbDevices)).
Proof.
  apply only_appends_obind; [apply only_appends_lift|]. intros all.
  apply only_appends_obind; [apply only_appends_lift|]. intros ctrls.
  apply only_appends_for_each. intros controller [].
  unfold process_controller.
  apply only_appends_obind; [apply only_appends_lift|]. intros devicePath.
  apply only_appends_obind; [apply only_appends_lift|]. intros comm.
  apply only_appends_obind; [apply only_appends_lift|]. intros hostController.
  apply only_appends_EnumeratePortsFromRootHub.
Qed.

Lemma EnumerateUsbDevices_records fuel env devs outcome devs' :
  EnumerateUsbDevices fuel env devs = Some (outcome, devs') ->
  Forall usb_record devs'.
Proof.
  unfold EnumerateUsbDevices.
  apply only_appends_after_clear, only_appends_usb_controllers.
Qed.

(** X20.  However the enumeration of a hub ends, normally or by an
    exception, the device list afterwards is the list before,
    followed by the records added: nothing is removed or changed.
    Every added record is marked connected and as a USB device, has
    no description, hardware id, friendly name or device path (the
    USB path never sets them), and is named after its interface
    class, or after its device class when there is no interface
    class. *)
Theorem hub_enumeration_only_appends fuel env hubName allDevices devs outcome devs' :
  EnumeratePortsFromRootHub fuel env hubName allDevices devs = Some (outcome, devs') ->
  exists added, devs' = devs ++ added /\ Forall usb_record added.
Proof.
  intros Hrun.
  destruct (only_appends_EnumeratePortsFromRootHub env allDevices fuel hubName
              devs outcome devs' Hrun) as (added & Heq & Hadded).
  exists added. split; [exact Heq | exact Hadded].
Qed.

Lemma hub_enumeration_only_appends_witness :
  exists added,
    [stick_result] = [] ++ added /\ Forall usb_record added.
Proof.
  apply (hub_enumeration_only_appends 10 (environment true) root_hub_path registry []
           (Ok tt) [stick_result]).
  reflexivity.
Defined.

(** X21.  [EnumerateUsbDevices] starts from an empty list whatever the list
    held before, and however it ends every record of the list is a
    record of the USB enumeration.  When one of the two registry
    scans fails, the exception is passed on and the list is empty. *)
Theorem usb_enumeration_list fuel env devs :
  EnumerateUsbDevices fuel env devs = EnumerateUsbDevices fuel env [] /\
  (forall outcome devs',
     EnumerateUsbDevices fuel env devs = Some (outcome, devs') ->
     Forall usb_record devs') /\
  (forall e, allUsbDevices env = Throw e \/
             (exists all, allUsbDevices env = Ok all /\ controllers env = Throw e) ->
     EnumerateUsbDevices fuel env devs = Some (Throw e, [])).
Proof.
  split; [reflexivity|]. split.
  - intros outcome devs'. apply EnumerateUsbDevices_records.
  - intros e [H|(all & Ha & Hc)]; unfold EnumerateUsbDevices, obind, ClearDevices, lift.
    + now rewrite H.
    + now rewrite Ha, Hc.
Qed.

Lemma usb_enumeration_list_witness :
  Forall usb_record [stick_result].
Proof.
  exact (proj1 (proj2 (usb_enumeration_list 10 (environment true) []))
           (Ok tt) [stick_result] eq_refl).
Defined.

(** ** Class names *)

Lemma GetBaseClassById_not_empty value : UtilConvert.GetBaseClassById value <> [].
Proof.
  unfold UtilConvert.GetBaseClassById.
  destruct value as [|p]; [discriminate|].
  do 8 (destruct p as [p|p|]; try discriminate).
Qed.

(** X22.  The class-name table has a non-empty text for every value (the
    text for a value outside the table is "Unknown"), so a record of
    the USB enumeration has an empty interface class name exactly
    when it has neither an interface class (0xFF) nor a device class
    (0). *)
Theorem class_name_is_empty_only_without_class value r :
  UtilConvert.GetUsbClassNameByDescId value <> [] /\
  (usb_record r ->
   (interfaceClassName_ r = [] <-> interfaceClass_ r = 0xFF /\ deviceClass_ r = 0)).
Proof.
  split; [apply GetBaseClassById_not_empty|].
  intros (_ & _ & _ & _ & _ & _ & ->).
  destruct (N.eqb_spec (interfaceClass_ r) 0xFF) as [Hi|Hi]; cbn [negb].
  - destruct (N.eqb_spec (deviceClass_ r) 0) as [Hd|Hd]; cbn [negb].
    + split; auto.
    + split; [|intros [_ ?]; contradiction].
      intros H. now apply GetBaseClassById_not_empty in H.
  - split; [|intros [? _]; contradiction].
    intros H. now apply GetBaseClassById_not_empty in H.
Qed.

Lemma class_name_is_empty_only_without_class_witness :
  interfaceClassName_ stick_result = [] <->
  interfaceClass_ stick_result = 0xFF /\ deviceClass_ stick_result = 0.
Proof.
  apply (class_name_is_empty_only_without_class 8 stick_result).
  repeat split; reflexivity.
Defined.

End ManagerFacts.

(* ===================================================================== *)
(** * The registry reader and the enumeration of a setup class           *)
(* ===================================================================== *)

Module RegistryFacts.
Import Sdk Exn DevicesManager Impl SetupApi DeviceProperty DeviceEnumerator ImplByClass
  ManagerProps RegistryProps PortFacts ManagerFacts.


Lemma read_property_Ok api d property :
  (forall size, heap api size = true) ->
  exists value, read_property api d property = Ok value /\ 0 ∉ value.
Proof.
  intros Hh. unfold read_property, GetStringProperty.
  destruct (queryRequiredSize d property) as [bufferSize|]; cbn.
  - rewrite Hh. cbn [negb].
    destruct (rp_value (registry_property d property)) as [buffer|]; cbn.
    + eexists. split; [reflexivity | apply wstring_of_wchars_no_NUL].
    + exists []. split; [reflexivity | intros E; inversion E].
  - exists []. split; [reflexivity | intros E; inversion E].
Qed.

(** ** [GetDeviceInstances] *)

Lemma populateDeviceProperties_Ok api d :
  (forall size, heap api size = true) ->
  exists instance,
    populateDeviceProperties api d = Ok instance /\
    _devInfoData instance = d /\
    DevInfoData._classGuid (data instance) = ClassGuid d /\
    0 ∉ DevInfoData._driverKeyName (data instance).
Proof.
  intros Hh. unfold populateDeviceProperties.
  destruct (read_property_Ok api d SPDRP_DRIVER Hh) as (driverKey & -> & Hk).
  destruct (read_property_Ok api d SPDRP_DEVICEDESC Hh) as (description & -> & _).
  destruct (read_property_Ok api d SPDRP_HARDWAREID Hh) as (hardwareId & -> & _).
  cbn [Exn.bind]. eexists. split; [reflexivity|]. cbn. auto.
Qed.

Lemma GetDeviceInstances_loop_members api set members errorCode :
  enumerates set members ->
  SetupDiEnumDeviceInfo set (N.of_nat (length members)) = inr errorCode ->
  errorCode <> 0 ->
  (forall size, heap api size = true) ->
  N.of_nat (length members) < 2 ^ 32 ->
  forall rest done acc fuel,
    members = done ++ rest ->
    (length rest < fuel)%nat ->
    Forall2 (instance_of api) done acc ->
    exists instances,
      Forall2 (instance_of api) members instances /\
      GetDeviceInstances_loop fuel api set (N.of_nat (length done)) acc
        = Some (if errorCode =? ERROR_NO_MORE_ITEMS then Ok instances
                else Throw (ResultException (HRESULT_FROM_WIN32 errorCode))).
Proof.
  intros Henum Hend Hne Hheap Hbound.
  induction rest as [|d rest IH]; intros done acc fuel Hm Hf Hacc;
    (destruct fuel as [|fuel]; [cbn in Hf; lia|]); cbn [GetDeviceInstances_loop].
  - rewrite app_nil_r in Hm. subst done. rewrite Hend.
    exists acc. split; [exact Hacc|].
    destruct (errorCode =? ERROR_NO_MORE_ITEMS); [reflexivity|].
    destruct (N.eqb_spec errorCode 0); [contradiction | reflexivity].
  - rewrite (Henum (length done) d) by (subst members; apply list_lookup_middle; reflexivity).
    destruct (populateDeviceProperties_Ok api d Hheap) as (i & Hi & Hrest).
    rewrite Hi.
    assert (Hidx : to_ULONG (N.of_nat (length done) + 1)
                   = N.of_nat (length (done ++ [d]))).
    { rewrite length_app. cbn [length]. unfold to_ULONG.
      assert (length done < length members)%nat
        by (subst members; rewrite length_app; cbn; lia).
      rewrite N.mod_small; lia. }
    rewrite Hidx. apply IH.
    + subst members. now rewrite <- app_assoc.
    + cbn [length] in Hf. lia.
    + apply Forall2_app; [exact Hacc|]. constructor; [|constructor].
      split; assumption.
Qed.

(** X24.  When the set enumerates [members] and then fails, and allocations
    succeed, [GetDeviceInstances] makes one instance per member, in
    the order of the set, if the failure is [ERROR_NO_MORE_ITEMS];
    on any other error it throws the I/O error of that code, and the
    instances made so far are lost.  It needs one loop round more
    than there are members. *)
Theorem device_instances_of_a_set fuel api set members errorCode :
  enumerates set members ->
  SetupDiEnumDeviceInfo set (N.of_nat (length members)) = inr errorCode ->
  errorCode <> 0 ->
  (forall size, heap api size = true) ->
  N.of_nat (length members) < 2 ^ 32 ->
  (length members < fuel)%nat ->
  exists instances,
    Forall2 (instance_of api) members instances /\
    GetDeviceInstances fuel api set
      = Some (if errorCode =? ERROR_NO_MORE_ITEMS then Ok instances
              else Throw (ResultException (HRESULT_FROM_WIN32 errorCode))).
Proof.
  intros Henum Hend Hne Hheap Hbound Hf. unfold GetDeviceInstances.
  apply (GetDeviceInstances_loop_members api set members errorCode Henum Hend Hne
           Hheap Hbound members [] [] fuel eq_refl Hf).
  constructor.
Qed.

Lemma two_keyboards_enumerates : enumerates two_keyboards [keyboard; keyboard].
Proof.
  intros i d Hi. destruct i as [|[|i]]; cbn in Hi; try discriminate;
    injection Hi as <-; reflexivity.
Qed.

Lemma device_instances_of_a_set_witness :
  exists instances,
    Forall2 (instance_of (keyboards_only roomy)) [keyboard; keyboard] instances /\
    GetDeviceInstances 3 (keyboards_only roomy) two_keyboards = Some (Ok instances).
Proof.
  apply (device_instances_of_a_set 3 (keyboards_only roomy) two_keyboards
           [keyboard; keyboard] ERROR_NO_MORE_ITEMS).
  - exact two_keyboards_enumerates.
  - reflexivity.
  - discriminate.
  - reflexivity.
  - reflexivity.
  - cbn. lia.
Defined.

(** ** [EnumerateByDeviceClass] *)

Lemma class_device_record_shape api deviceClassGuid instance r :
  class_device_record api deviceClassGuid instance = Ok r ->
  class_record deviceClassGuid r.
Proof.
  unfold class_device_record.
  repeat match goal with
         | |- context [read_property ?a ?d ?p] =>
             destruct (read_property a d p); [|discriminate]; cbn [Exn.bind]
         end.
  intros [= <-]. unfold class_record. cbn.
  destruct (usb_interface_path (_devInfoData instance));
    repeat split; try reflexivity; discriminate.
Qed.

Lemma class_device_record_Ok api deviceClassGuid instance :
  (forall size, heap api size = true) ->
  exists r, class_device_record api deviceClassGuid instance = Ok r.
Proof.
  intros Hh. unfold class_device_record.
  repeat match goal with
         | |- context [read_property ?a ?d ?p] =>
             let v := fresh "v" in
             destruct (read_property_Ok a d p Hh) as (v & -> & _); cbn [Exn.bind]
         end.
  eauto.
Qed.

Lemma class_records_cons api deviceClassGuid i rest :
  class_records api deviceClassGuid (i :: rest)
    = match class_device_record api deviceClassGuid i with
      | Ok r => r :: class_records api deviceClassGuid rest
      | Throw _ => class_records api deviceClassGuid rest
      end.
Proof.
  unfold class_records. cbn.
  now destruct (class_device_record api deviceClassGuid i).
Qed.

Lemma for_each_class_devices api deviceClassGuid : forall instances l,
  for_each instances tt (process_class_device api deviceClassGuid) l
    = Some (Ok tt, l ++ class_records api deviceClassGuid instances).
Proof.
  induction instances as [|i rest IH]; intros l; cbn [for_each].
  - unfold oret, class_records. cbn. now rewrite app_nil_r.
  - rewrite class_records_cons. unfold obind, process_class_device.
    destruct (class_device_record api deviceClassGuid i) as [r|e]; cbn.
    + rewrite IH. now rewrite <- app_assoc.
    + apply IH.
Qed.

Lemma class_records_shape api deviceClassGuid instances :
  Forall (class_record deviceClassGuid) (class_records api deviceClassGuid instances).
Proof.
  induction instances as [|i rest IH]; [constructor|].
  rewrite class_records_cons.
  destruct (class_device_record api deviceClassGuid i) as [r|e] eqn:E; [|exact IH].
  constructor; [now apply class_device_record_shape in E | exact IH].
Qed.

Lemma length_class_records api deviceClassGuid instances :
  (length (class_records api deviceClassGuid instances) <= length instances)%nat /\
  ((forall size, heap api size = true) ->
   length (class_records api deviceClassGuid instances) = length instances).
Proof.
  induction instances as [|i rest [IH1 IH2]]; [split; reflexivity|].
  rewrite class_records_cons. split.
  - destruct (class_device_record api deviceClassGuid i); cbn; lia.
  - intros Hh. destruct (class_device_record_Ok api deviceClassGuid i Hh) as [r ->].
    cbn. now rewrite IH2.
Qed.

(** X25.  The enumeration of a setup class starts from an empty list.  When
    the device set cannot be opened or enumerated the exception is
    passed on and the list is empty.  Otherwise it returns normally
    whatever happens for a single device: the list holds one record
    per device instance, in order, except the instances for which a
    property buffer could not be allocated, which are dropped; a
    device without a hub interface is listed all the same, marked as
    no USB device.  Every record is marked connected and carries the
    class identifier that was asked for. *)
Theorem class_enumeration_outcome fuel api deviceClassGuid devs :
  (forall lastError,
     SetupDiGetClassDevsW api deviceClassGuid DIGCF_PRESENT = inr lastError ->
     EnumerateByDeviceClass fuel api deviceClassGuid devs
       = Some (Throw (ResultException (HRESULT_FROM_WIN32 lastError)), [])) /\
  (forall set e,
     SetupDiGetClassDevsW api deviceClassGuid DIGCF_PRESENT = inl set ->
     GetDeviceInstances fuel api set = Some (Throw e) ->
     EnumerateByDeviceClass fuel api deviceClassGuid devs = Some (Throw e, [])) /\
  (forall set instances,
     SetupDiGetClassDevsW api deviceClassGuid DIGCF_PRESENT = inl set ->
     GetDeviceInstances fuel api set = Some (Ok instances) ->
     EnumerateByDeviceClass fuel api deviceClassGuid devs
       = Some (Ok tt, class_records api deviceClassGuid instances) /\
     (length (class_records api deviceClassGuid instances) <= length instances)%nat /\
     ((forall size, heap api size = true) ->
      length (class_records api deviceClassGuid instances) = length instances)) /\
  (forall outcome devs',
     EnumerateByDeviceClass fuel api deviceClassGuid devs = Some (outcome, devs') ->
     Forall (class_record deviceClassGuid) devs').
Proof.
  unfold EnumerateByDeviceClass, DeviceEnumerator.new, obind, ClearDevices, lift,
    lift_fuel.
  split; [|split; [|split]].
  - now intros lastError ->.
  - now intros set e -> ->.
  - intros set instances -> ->. rewrite for_each_class_devices. cbn [app].
    split; [reflexivity|]. apply length_class_records.
  - intros outcome devs'.
    destruct (SetupDiGetClassDevsW api deviceClassGuid DIGCF_PRESENT) as [set|lastError];
      [|intros [= _ <-]; constructor].
    destruct (GetDeviceInstances fuel api set) as [[instances|e]|];
      [|intros [= _ <-]; constructor|discriminate].
    rewrite for_each_class_devices. intros [= _ <-]. cbn [app].
    apply class_records_shape.
Qed.

Lemma class_enumeration_outcome_witness :
  exists r1 r2,
    EnumerateByDeviceClass 3 (keyboards_only roomy) GUID_DEVCLASS_KEYBOARD
      [TopologyProps.stick_result] = Some (Ok tt, [r1; r2]) /\
    isUsbDevice_ r1 = false /\ description_ r1 = L "HID Keyboard Device" /\
    EnumerateByDeviceClass 3 (keyboards_only tight) GUID_DEVCLASS_KEYBOARD
      [TopologyProps.stick_result] = Some (Ok tt, []) /\
    EnumerateByDeviceClass 3 (keyboards_only roomy) 7 [TopologyProps.stick_result]
      = Some (Throw (ResultException (HRESULT_FROM_WIN32 ERROR_ACCESS_DENIED)), []).
Proof.
  destruct (class_enumeration_outcome 3 (keyboards_only roomy)
              GUID_DEVCLASS_KEYBOARD [TopologyProps.stick_result])
    as (_ & _ & Hok & _).
  destruct (class_enumeration_outcome 3 (keyboards_only tight)
              GUID_DEVCLASS_KEYBOARD [TopologyProps.stick_result])
    as (_ & _ & Htight & _).
  destruct (class_enumeration_outcome 3 (keyboards_only roomy) 7
              [TopologyProps.stick_result]) as (Hfail & _ & _ & _).
  eexists _, _. split; [|split; [|split; [|split]]].
  - exact (proj1 (Hok two_keyboards _ eq_refl eq_refl)).
  - reflexivity.
  - reflexivity.
  - exact (proj1 (Htight two_keyboards _ eq_refl eq_refl)).
  - exact (Hfail ERROR_ACCESS_DENIED eq_refl).
Defined.

End RegistryFacts.

(* ===================================================================== *)
(** * The C interface                                                    *)
(* ===================================================================== *)

Module WinDevicesAPIFacts.
Import Sdk Exn DevicesManager Impl UsbClassCodes WinDevicesAPI ManagerProps
  RegistryProps TopologyProps ManagerFacts.

(** X26.  [WD_EnumerateUsbDevices] never lets an exception out.  On a null
    handle it reports [WD_ERROR_INVALID_HANDLE].  Otherwise it runs the
    USB enumeration, whatever the manager's list held before: when
    that returns normally the result is [WD_SUCCESS] and the handle
    lists the manager's records, all of them USB records; when it
    throws, the result is [WD_ERROR_UNKNOWN], the exception is kept
    as last error, and the handle lists no device at all (the reported
    count is 0), although the manager's list keeps what was added
    before the failure.  The filters are left as they were. *)
Theorem api_usb_enumeration fuel env handle result handle' :
  WD_EnumerateUsbDevices fuel env handle = Some (result, handle') ->
  match handle, handle' with
  | None, None => result = WD_ERROR_INVALID_HANDLE
  | Some wrapper, Some wrapper' =>
      vendorIdFilter wrapper' = vendorIdFilter wrapper /\
      deviceClassFilter wrapper' = deviceClassFilter wrapper /\
      Forall usb_record (manager wrapper') /\
      ((result = WD_SUCCESS /\
        EnumerateUsbDevices fuel env [] = Some (Ok tt, manager wrapper') /\
        devices wrapper' = manager wrapper' /\
        lastError wrapper' = lastError wrapper) \/
       (result = WD_ERROR_UNKNOWN /\
        (exists e,
           EnumerateUsbDevices fuel env [] = Some (Throw e, manager wrapper') /\
           lastError wrapper' = Some e) /\
        devices wrapper' = [] /\
        WD_GetDeviceCount handle' true = (WD_SUCCESS, Some 0%Z)))
  | _, _ => False
  end.
Proof.
  unfold WD_EnumerateUsbDevices, enumerate_with.
  destruct handle as [wrapper|]; [|now intros [= <- <-]].
  change (EnumerateUsbDevices fuel env (manager wrapper))
    with (EnumerateUsbDevices fuel env []).
  destruct (EnumerateUsbDevices fuel env []) as [[[[]|e] list]|] eqn:E;
    [| |discriminate]; intros [= <- <-]; cbn;
    (split; [reflexivity|]); (split; [reflexivity|]);
    (split; [exact (EnumerateUsbDevices_records _ _ _ _ _ E)|]).
  - left. auto.
  - right. split; [reflexivity|]. split; [eauto|]. split; reflexivity.
Qed.

Lemma api_usb_enumeration_witness :
  exists wrapper wrapper',
    WD_EnumerateUsbDevices 10 (environment true) fresh_handle
      = Some (WD_SUCCESS, Some wrapper) /\
    devices wrapper = [stick_result] /\
    WD_EnumerateUsbDevices 10 (environment false) (Some wrapper)
      = Some (WD_ERROR_UNKNOWN, Some wrapper') /\
    devices wrapper' = [] /\
    lastError wrapper' = Some (ResultException 0x80070002).
Proof.
  destruct (WD_EnumerateUsbDevices 10 (environment true) fresh_handle)
    as [[r1 [w1|]]|] eqn:E1; [|vm_compute in E1; discriminate..].
  pose proof (api_usb_enumeration _ _ _ _ _ E1) as H1. cbn beta iota in H1.
  destruct (WD_EnumerateUsbDevices 10 (environment false) (Some w1))
    as [[r2 [w2|]]|] eqn:E2;
    [|unfold WD_EnumerateUsbDevices, enumerate_with in E2; vm_compute in E2;
      discriminate..].
  pose proof (api_usb_enumeration _ _ _ _ _ E2) as H2. cbn beta iota in H2.
  destruct H1 as (_ & _ & _ & [(-> & Hrun1 & Hd1 & _)|(_ & (e & Hrun1 & _) & _)]);
    [|vm_compute in Hrun1; discriminate].
  destruct H2 as (_ & _ & _ & [(_ & Hrun2 & _)|(-> & (e & Hrun2 & He) & Hd2 & _)]);
    [vm_compute in Hrun2; discriminate|].
  assert (Hc1 : EnumerateUsbDevices 10 (environment true) []
                = Some (Ok tt, [stick_result])) by reflexivity.
  assert (Hc2 : EnumerateUsbDevices 10 (environment false) []
                = Some (Throw (ResultException 0x80070002), [])) by reflexivity.
  exists w1, w2. split; [reflexivity|]. split; [congruence|].
  split; [exact E2|]. split; [exact Hd2 | congruence].
Defined.

Lemma filter_mass_storage (l : list DeviceResultantInfo) :
  let kept :=
    List.filter (fun device =>
                   IsMassStorageClass (interfaceClass_ device) ||
                   IsMassStorageClass (deviceClass_ device)) l in
  (forall r, r ∈ kept <-> r ∈ l /\ is_mass_storage r) /\
  kept `sublist_of` l.
Proof.
  intros kept. split.
  - intros r. subst kept. rewrite !list_elem_of_In, List.filter_In.
    unfold IsMassStorageClass, MassStorage, is_mass_storage.
    rewrite orb_true_iff, !N.eqb_eq. reflexivity.
  - subst kept. induction l as [|r rest IH]; cbn; [constructor|].
    destruct (_ || _); [now apply sublist_skip | now apply sublist_cons].
Qed.

(** X27.  After a successful [WD_EnumerateUsbMassStorage] the handle lists
    exactly the records of the USB enumeration whose interface class
    or device class is mass storage (8), in the order of the
    enumeration; the manager keeps the complete list. *)
Theorem api_mass_storage fuel env wrapper handle' :
  WD_EnumerateUsbMassStorage fuel env (Some wrapper) = Some (WD_SUCCESS, handle') ->
  exists wrapper',
    handle' = Some wrapper' /\
    EnumerateUsbDevices fuel env [] = Some (Ok tt, manager wrapper') /\
    (forall r, r ∈ devices wrapper' <-> r ∈ manager wrapper' /\ is_mass_storage r) /\
    devices wrapper' `sublist_of` manager wrapper' /\
    Forall usb_record (devices wrapper').
Proof.
  unfold WD_EnumerateUsbMassStorage, enumerate_with.
  change (EnumerateUsbDevices fuel env (manager wrapper))
    with (EnumerateUsbDevices fuel env []).
  destruct (EnumerateUsbDevices fuel env []) as [[[[]|e] list]|] eqn:E;
    [|discriminate..].
  intros [= <-]. eexists. split; [reflexivity|]. cbn.
  destruct (filter_mass_storage list) as [Hin Hsub].
  split; [reflexivity|]. split; [exact Hin|]. split; [exact Hsub|].
  apply Forall_forall. intros r Hr. apply Hin in Hr. destruct Hr as [Hr _].
  pose proof (EnumerateUsbDevices_records _ _ _ _ _ E) as Hall.
  rewrite Forall_forall in Hall. now apply Hall.
Qed.

Lemma api_mass_storage_witness :
  exists wrapper',
    WD_EnumerateUsbMassStorage 10 (environment true) fresh_handle
      = Some (WD_SUCCESS, Some wrapper') /\
    (forall r, r ∈ devices wrapper' -> is_mass_storage r).
Proof.
  destruct (WD_EnumerateUsbMassStorage 10 (environment true) fresh_handle)
    as [[r h]|] eqn:E; [|vm_compute in E; discriminate].
  assert (Hr : r = WD_SUCCESS).
  { unfold WD_EnumerateUsbMassStorage, enumerate_with, fresh_handle in E.
    destruct r; try reflexivity; vm_compute in E; discriminate. }
  subst r.
  destruct (api_mass_storage _ _ _ _ E) as (wrapper' & -> & _ & Hin & _).
  exists wrapper'. split; [reflexivity|].
  intros r Hr. exact (proj2 (proj1 (Hin r) Hr)).
Defined.

(** X28.  The filter values set by [WD_FilterByVendorId] and
    [WD_FilterByDeviceClass] are stored and nothing else: setting them
    changes neither the list of the handle nor the result code and
    the list of a later enumeration. *)
Theorem api_filters_are_not_applied fuel env handle vendorId deviceClass :
  let filtered :=
    snd (WD_FilterByDeviceClass (snd (WD_FilterByVendorId handle vendorId))
           deviceClass) in
  listed filtered = listed handle /\
  (forall run,
     run = WD_EnumerateUsbDevices fuel env \/
     run = WD_EnumerateAllDevices fuel env \/
     run = WD_EnumerateUsbMassStorage fuel env ->
     (fun outcome => (fst outcome, listed (snd outcome))) <$> run filtered
       = (fun outcome => (fst outcome, listed (snd outcome))) <$> run handle).
Proof.
  intros filtered. subst filtered.
  destruct handle as [wrapper|];
    unfold WD_FilterByVendorId, WD_FilterByDeviceClass; cbn [snd fst].
  - split; [reflexivity|].
    intros run [-> | [-> | ->] ];
      unfold WD_EnumerateUsbDevices, WD_EnumerateAllDevices,
        WD_EnumerateUsbMassStorage, enumerate_with;
      cbn [manager devices lastError vendorIdFilter deviceClassFilter];
      destruct (EnumerateUsbDevices fuel env (manager wrapper)) as [[[[]|e] list]|];
      reflexivity.
  - split; [reflexivity|]. intros run [-> | [-> | ->] ]; reflexivity.
Qed.

Lemma api_filters_are_not_applied_witness :
  (fun outcome => (fst outcome, listed (snd outcome))) <$>
    WD_EnumerateUsbMassStorage 10 (environment true)
      (snd (WD_FilterByDeviceClass (snd (WD_FilterByVendorId fresh_handle 0x1234)) 3))
  = Some (WD_SUCCESS, [stick_result]).
Proof.
  rewrite (proj2 (api_filters_are_not_applied 10 (environment true) fresh_handle
                    0x1234 3) (WD_EnumerateUsbMassStorage 10 (environment true)))
    by (right; right; reflexivity).
  reflexivity.
Defined.

End WinDevicesAPIFacts.

(* ===================================================================== *)
(** * When the walks of the hub return, and when they never do           *)
(* ===================================================================== *)

Module FuelFacts.
Import Sdk Exn Rd DeviceCommunication UsbHub DevicesManager Impl ParserProps HubProps
  HubWalkProps ManagerProps UsbHubFacts UsbHubWalkFacts ManagerFacts.

Lemma AreUsbDescriptorsCorrect_loop_mono mem e fuel : forall fuel' p r,
  (fuel <= fuel')%nat ->
  AreUsbDescriptorsCorrect_loop fuel mem p e = Some r ->
  AreUsbDescriptorsCorrect_loop fuel' mem p e = Some r.
Proof.
  induction fuel as [|fuel IH]; intros fuel' p r Hle; [discriminate|].
  destruct fuel' as [|fuel']; [lia|].
  cbn [AreUsbDescriptorsCorrect_loop].
  repeat match goal with
         | |- context [if ?c then _ else _] => destruct c
         end;
    try (intros H; exact H); apply IH; lia.
Qed.

Lemma first_interface_class_mono mem e fuel : forall fuel' p r,
  (fuel <= fuel')%nat ->
  first_interface_class fuel mem p e = Some r ->
  first_interface_class fuel' mem p e = Some r.
Proof.
  induction fuel as [|fuel IH]; intros fuel' p r Hle; [discriminate|].
  destruct fuel' as [|fuel']; [lia|].
  cbn [first_interface_class].
  repeat match goal with
         | |- context [if ?c then _ else _] => destruct c
         end;
    try (intros H; exact H); apply IH; lia.
Qed.

Lemma FillConfigDescriptor_mono fuel fuel' hub dev ConnectionIndex DescriptorIndex r :
  (fuel <= fuel')%nat ->
  FillConfigDescriptor fuel hub dev ConnectionIndex DescriptorIndex = Some r ->
  FillConfigDescriptor fuel' hub dev ConnectionIndex DescriptorIndex = Some r.
Proof.
  intros Hle. unfold FillConfigDescriptor, AreUsbDescriptorsCorrect.
  destruct (GetConfigDescriptor _ _ _) as [[configDesc|]|e]; try (intros H; exact H).
  destruct (first_interface_class fuel _ _ _) as [cls|] eqn:Hc; [|discriminate].
  rewrite (first_interface_class_mono _ _ _ _ _ _ Hle Hc).
  destruct (negb _ || negb _ || negb _); [intros H; exact H|].
  destruct (AreUsbDescriptorsCorrect_loop fuel _ _ _) as [usable|] eqn:Hu;
    [|discriminate].
  now rewrite (AreUsbDescriptorsCorrect_loop_mono _ _ _ _ _ _ Hle Hu).
Qed.

Lemma refines_refl {A} (c : Orch A) : refines c c.
Proof. intros l r H. exact H. Qed.

Lemma refines_obind {A B} (c c' : Orch A) (k k' : A -> Orch B) :
  refines c c' -> (forall a, refines (k a) (k' a)) ->
  refines (obind c k) (obind c' k').
Proof.
  intros Hc Hk l r. unfold obind.
  destruct (c l) as [[[a|e] l1]|] eqn:E; [| |discriminate];
    rewrite (Hc _ _ E); [apply Hk | intros H; exact H].
Qed.

Lemma refines_for_each {A S} (body body' : A -> S -> Orch S) :
  (forall a s, refines (body a s) (body' a s)) ->
  forall l s, refines (for_each l s body) (for_each l s body').
Proof.
  intros Hb. induction l as [|a rest IH]; intros s; cbn [for_each].
  - apply refines_refl.
  - apply refines_obind; [apply Hb | intros s'; apply IH].
Qed.

Lemma refines_process_port fuel fuel' recurse recurse' allDevices entry st :
  (fuel <= fuel')%nat ->
  (forall devicePath, refines (recurse devicePath) (recurse' devicePath)) ->
  refines (process_port fuel recurse allDevices entry st)
          (process_port fuel' recurse' allDevices entry st).
Proof.
  intros Hle Hrec. destruct entry as [portNumber connectionInfo], st as [usbHub maps].
  unfold process_port.
  destruct (_connectionStatus connectionInfo =? NoDeviceConnected);
    [apply refines_refl|].
  destruct (match_devices _ _ allDevices [] None) as [guids [busDevice|]];
    [|apply refines_refl].
  destruct (negb (_deviceIsHub connectionInfo =? 0)).
  - apply refines_obind; [apply refines_refl|]. intros devicePath.
    apply refines_obind; [apply Hrec|]. intros _. apply refines_refl.
  - apply refines_obind; [|intros usbHub'; apply refines_refl].
    intros l r. unfold lift_fuel.
    destruct (FillConfigDescriptor fuel _ _ _ _) as [x|] eqn:E; [|discriminate].
    now rewrite (FillConfigDescriptor_mono _ _ _ _ _ _ _ Hle E).
Qed.

Lemma refines_EnumeratePortsFromRootHub env allDevices fuel : forall fuel' hubName,
  (fuel <= fuel')%nat ->
  refines (EnumeratePortsFromRootHub fuel env hubName allDevices)
          (EnumeratePortsFromRootHub fuel' env hubName allDevices).
Proof.
  induction fuel as [|fuel IH]; intros fuel' hubName Hle.
  - intros l r. discriminate.
  - destruct fuel' as [|fuel']; [lia|]. cbn [EnumeratePortsFromRootHub].
    apply refines_obind; [apply refines_refl|]. intros usbHub0.
    apply refines_obind; [apply refines_refl|]. intros usbHub.
    apply refines_obind; [|intros st; apply refines_refl].
    apply refines_for_each. intros entry st.
    apply refines_process_port; [lia|]. intros devicePath. apply IH. lia.
Qed.

Lemma refines_EnumerateUsbDevices env fuel fuel' :
  (fuel <= fuel')%nat ->
  refines (EnumerateUsbDevices fuel env) (EnumerateUsbDevices fuel' env).
Proof.
  intros Hle. unfold EnumerateUsbDevices.
  apply refines_obind; [apply refines_refl|]. intros _.
  apply refines_obind; [apply refines_refl|]. intros all.
  apply refines_obind; [apply refines_refl|]. intros ctrls.
  apply refines_for_each. intros controller []. unfold process_controller.
  apply refines_obind; [apply refines_refl|]. intros devicePath.
  apply refines_obind; [apply refines_refl|]. intros comm.
  apply refines_obind; [apply refines_refl|]. intros hostController.
  now apply refines_EnumeratePortsFromRootHub.
Qed.

(** ** When [FillConfigDescriptor] returns *)

(** From every position the search either gets to a descriptor that
    ends it (an interface, or the end of the chain), or to a
    descriptor of length zero that it steps over. *)
Lemma search_ends_or_stalls mem e n : forall p,
  (N.to_nat (e - p) <= n)%nat ->
  (exists q k, search_steps mem e p q k /\
               (walk_condition mem q e = false \/ not_an_interface mem q = false)) \/
  (exists q k, search_steps mem e p q k /\
               zero_length_inside mem e q = true /\ not_an_interface mem q = true).
Proof.
  induction n as [|n IH]; intros p Hn.
  - left. exists p, 0%nat. split; [constructor|]. left.
    unfold walk_condition, sizeof_USB_COMMON_DESCRIPTOR.
    destruct (N.ltb_spec (p + 2) e); [lia|reflexivity].
  - destruct (walk_condition mem p e) eqn:Hc;
      [|left; exists p, 0%nat; split; [constructor | now left]].
    destruct (not_an_interface mem p) eqn:Hs;
      [|left; exists p, 0%nat; split; [constructor | now right]].
    destruct (N.eqb_spec (peek mem p) 0) as [Hz|Hz].
    + right. exists p, 0%nat. split; [constructor|]. split; [|exact Hs].
      unfold zero_length_inside. rewrite Hc, Hz. reflexivity.
    + assert (Hlt : p + 2 < e).
      { unfold walk_condition, sizeof_USB_COMMON_DESCRIPTOR in Hc.
        apply andb_true_iff in Hc. destruct Hc as [Hc _]. now apply N.ltb_lt in Hc. }
      destruct (IH (p + peek mem p)) as [(q & k & Hw & Hd)|(q & k & Hw & Hd)]; [lia|..].
      * left. exists q, (S k). split; [|exact Hd]. now apply search_over.
      * right. exists q, (S k). split; [|exact Hd]. now apply search_over.
Qed.

Lemma search_returns mem e p q k :
  search_steps mem e p q k ->
  walk_condition mem q e = false \/ not_an_interface mem q = false ->
  forall fuel, (k < fuel)%nat ->
  exists r, first_interface_class fuel mem p e = Some r.
Proof.
  induction 1 as [p|p q k Hc Hn _ IH]; intros Hend fuel Hf;
    (destruct fuel as [|fuel]; [lia|]);
    cbn [first_interface_class]; unfold off_bDescriptorType, off_bLength.
  - destruct (walk_condition mem p e); [|eauto].
    destruct Hend as [Hend|Hend]; [discriminate|].
    unfold not_an_interface in Hend. apply negb_false_iff in Hend.
    rewrite Hend. eauto.
  - unfold not_an_interface in Hn. apply negb_true_iff in Hn.
    rewrite Hc, Hn, N.add_0_r. apply IH; [assumption|lia].
Qed.

(** The descriptor check returns when the device names a string, and
    otherwise when its walk does not stall. *)
Lemma check_returns_or_stalls dev mem :
  (exists k, forall fuel, (k < fuel)%nat ->
     exists usable, AreUsbDescriptorsCorrect fuel dev mem = Some usable) \/
  check_stalls_on dev mem.
Proof.
  destruct (N.eq_dec (iManufacturer dev) 0) as [Hm|Hm].
  2:{ left. exists 0%nat. intros fuel _. exists true.
      unfold AreUsbDescriptorsCorrect. apply N.eqb_neq in Hm. now rewrite Hm. }
  destruct (N.eq_dec (iProduct dev) 0) as [Hp|Hp].
  2:{ left. exists 0%nat. intros fuel _. exists true.
      unfold AreUsbDescriptorsCorrect. apply N.eqb_neq in Hp. rewrite Hp.
      now rewrite orb_true_r. }
  destruct (N.eq_dec (iSerialNumber dev) 0) as [Hs|Hs].
  2:{ left. exists 0%nat. intros fuel _. exists true.
      unfold AreUsbDescriptorsCorrect. apply N.eqb_neq in Hs. rewrite Hs.
      now rewrite orb_true_r. }
  destruct (walk_ends_or_stalls mem (wTotalLength_at mem)
              (N.to_nat (wTotalLength_at mem - 0)) 0 (le_n _))
    as [(q & k & Hw & Hd)|H].
  - left. exists k. intros fuel Hf. eexists.
    rewrite (AreUsbDescriptorsCorrect_zero_indices _ _ _ Hm Hp Hs).
    now apply (loop_follows_steps _ _ _ _ _ Hw Hd).
  - right. unfold check_stalls_on. auto.
Qed.

Lemma FillConfigDescriptor_returns_or_stalls hub dev ConnectionIndex DescriptorIndex :
  (exists fuel r,
     FillConfigDescriptor fuel hub dev ConnectionIndex DescriptorIndex = Some r) \/
  stalls hub dev ConnectionIndex.
Proof.
  unfold stalls, FillConfigDescriptor.
  destruct (GetConfigDescriptor (_pDeviceCommunication hub) ConnectionIndex 0)
    as [[data|]|e]; [| left; exists 0%nat; eauto ..].
  fold (seen_by hub data). set (mem := seen_by hub data).
  unfold off_bLength. rewrite !N.add_0_l.
  destruct (search_ends_or_stalls mem (wTotalLength_at mem)
              (N.to_nat (wTotalLength_at mem - peek mem 0)) (peek mem 0) (le_n _))
    as [(q & k & Hw & Hd)|Hstall]; [|right; exists data; split; [reflexivity|now left]].
  destruct (check_returns_or_stalls dev mem) as [[k' Hcheck]|Hstall];
    [|right; exists data; split; [reflexivity|now right]].
  left. exists (S (Nat.max k k')).
  destruct (search_returns _ _ _ _ _ Hw Hd (S (Nat.max k k')) ltac:(lia)) as [cls ->].
  destruct (Hcheck (S (Nat.max k k')) ltac:(lia)) as [usable ->]. eauto.
Qed.

(** X29.  [FillConfigDescriptor] returns, normally or with an exception,
    unless one of its two walks stalls, and then it never does.  It
    stalls exactly when the device delivers a configuration in which
    the search for the first interface gets to a descriptor of
    declared length zero that lies inside the loop condition and is
    not tagged as an interface, or in which, for a device that names
    no string, the descriptor check gets to such a descriptor that it
    steps over.  In every other case, so also when no configuration is
    delivered, the call returns. *)
Theorem FillConfigDescriptor_returns_unless_stalled hub dev ConnectionIndex
    DescriptorIndex :
  ((forall fuel,
      FillConfigDescriptor fuel hub dev ConnectionIndex DescriptorIndex = None)
   <-> stalls hub dev ConnectionIndex) /\
  (~ stalls hub dev ConnectionIndex ->
   exists fuel r,
     FillConfigDescriptor fuel hub dev ConnectionIndex DescriptorIndex = Some r).
Proof.
  split; [split|].
  - intros Hnone.
    destruct (FillConfigDescriptor_returns_or_stalls hub dev ConnectionIndex
                DescriptorIndex) as [(fuel & r & Hr)|H]; [|exact H].
    rewrite Hnone in Hr. discriminate.
  - intros (data & Hg & [(q & k & Hw & Hz & Hn)|(Hm & Hp & Hs & q & k & Hw & Hz & Hq)])
      fuel.
    + now apply (FillConfigDescriptor_stalls _ _ _ _ data q k).
    + unfold FillConfigDescriptor. rewrite Hg.
      fold (seen_by hub data).
      destruct (first_interface_class fuel _ _ _); [|reflexivity].
      rewrite (AreUsbDescriptorsCorrect_zero_indices _ _ _ Hm Hp Hs).
      now rewrite (loop_stalls_after_steps _ _ _ _ _ Hw Hz Hq fuel).
  - intros Hfree.
    destruct (FillConfigDescriptor_returns_or_stalls hub dev ConnectionIndex
                DescriptorIndex) as [H|H]; [exact H | contradiction].
Qed.

Lemma FillConfigDescriptor_returns_unless_stalled_witness :
  (forall fuel,
     FillConfigDescriptor fuel (hub_serving zero_length_after_long_interface)
       device_without_strings 1 0 = None) /\
  (exists fuel r,
     FillConfigDescriptor fuel (hub_serving TopologyProps.stick_configuration)
       device_without_strings 1 0 = Some r).
Proof.
  split.
  - apply (proj2 (proj1 (FillConfigDescriptor_returns_unless_stalled
                           (hub_serving zero_length_after_long_interface)
                           device_without_strings 1 0))).
    exists zero_length_after_long_interface. split; [reflexivity|]. right.
    split; [reflexivity|]. split; [reflexivity|]. split; [reflexivity|].
    exists 21, 2%nat. split; [|split; reflexivity].
    apply (walk_over _ _ 0 21 1); [reflexivity | reflexivity |].
    apply (walk_over _ _ 9 21 0); [reflexivity | reflexivity | apply walk_stands].
  - apply (proj2 (FillConfigDescriptor_returns_unless_stalled
                    (hub_serving TopologyProps.stick_configuration)
                    device_without_strings 1 0)).
    intros (data & Hg & Hstall).
    assert (Hd : data = TopologyProps.stick_configuration).
    { revert Hg.
      change (GetConfigDescriptor
                (_pDeviceCommunication (hub_serving TopologyProps.stick_configuration))
                1 0) with (@Ok (option Mem) (Some TopologyProps.stick_configuration)).
      now intros [= <-]. }
    subst data.
    set (mem := seen_by (hub_serving TopologyProps.stick_configuration)
                  TopologyProps.stick_configuration) in Hstall.
    change (wTotalLength_at mem) with 18 in Hstall.
    change (peek mem 0) with 9 in Hstall.
    destruct Hstall as [(q & k & Hw & Hz & Hn)|(_ & _ & _ & q & k & Hw & Hz & _)].
    + inversion Hw as [p|p q' k' Hc Hi Hrest]; subst; discriminate.
    + inversion Hw as [p|p q1 k1 Hc1 Hs1 Hw1]; subst; [discriminate|].
      change (0 + peek mem 0) with 9 in Hw1.
      inversion Hw1 as [p|p q2 k2 Hc2 Hs2 Hw2]; subst; [discriminate|].
      change (9 + peek mem 9) with 18 in Hw2.
      inversion Hw2 as [p|p q3 k3 Hc3 Hs3 Hw3]; subst; discriminate.
Defined.

(** ** A walk that never ends *)

Lemma for_each_hangs {A S} (body : A -> S -> Orch S) :
  forall before a after s devs s1 devs1,
  for_each before s body devs = Some (Ok s1, devs1) ->
  body a s1 devs1 = None ->
  for_each (before ++ a :: after) s body devs = None.
Proof.
  induction before as [|b before IH]; intros a after s devs s1 devs1 Hb Ha.
  - cbn in Hb. injection Hb as <- <-. cbn. unfold obind. now rewrite Ha.
  - cbn in Hb |- *. unfold obind in Hb |- *.
    destruct (body b s devs) as [[[s'|e'] devs']|]; try discriminate.
    now apply (IH a after s' devs' s1 devs1).
Qed.

Lemma process_port_hangs fuel recurse allDevices portNumber
    (connectionInfo : HubConnectionInfo) usbHub maps devs guids busDevice :
  _connectionStatus connectionInfo <> NoDeviceConnected ->
  match_devices
    (BuildVidPidPattern (idVendor (_deviceDescriptor connectionInfo))
       (idProduct (_deviceDescriptor connectionInfo)))
    (_driverKeyName connectionInfo) allDevices [] None = (guids, Some busDevice) ->
  _deviceIsHub connectionInfo = 0 ->
  FillConfigDescriptor fuel usbHub (_deviceDescriptor connectionInfo)
    (_connectionIndex connectionInfo) 0 = None ->
  process_port fuel recurse allDevices (portNumber, connectionInfo) (usbHub, maps) devs
    = None.
Proof.
  intros Hc Hm Hh Hf. unfold process_port.
  apply N.eqb_neq in Hc. rewrite Hc, Hm, Hh. cbn [N.eqb negb].
  unfold obind, lift_fuel. now rewrite Hf.
Qed.

(** X30.  A device can keep the enumeration from ever returning.  When the
    ports before it are processed normally, and a connected device
    that is no hub and has a bus-layer record in the registry delivers
    a configuration with a descriptor of declared length zero behind
    the header (inside the loop condition, not itself tagged as an
    interface, no interface descriptor before it), the enumeration of
    its hub returns within no bound at all: neither a result nor an
    exception comes back. *)
Theorem zero_length_descriptor_hangs_hub_enumeration env hubName allDevices devs
    usbHub0 usbHub before portNumber connectionInfo after fuel0 hubThen maps devs1
    guids busDevice data q k :
  UsbHub.new (os env) hubName = Ok usbHub0 ->
  UsbHub.PopulateInfo usbHub0 = Ok usbHub ->
  ordered_entries (_hubPortConnectionInfo usbHub)
    = before ++ (portNumber, connectionInfo) :: after ->
  for_each before (usbHub, empty_maps)
    (process_port fuel0
       (fun devicePath => EnumeratePortsFromRootHub fuel0 env devicePath allDevices)
       allDevices) devs = Some (Ok (hubThen, maps), devs1) ->
  _connectionStatus connectionInfo <> NoDeviceConnected ->
  match_devices
    (BuildVidPidPattern (idVendor (_deviceDescriptor connectionInfo))
       (idProduct (_deviceDescriptor connectionInfo)))
    (_driverKeyName connectionInfo) allDevices [] None = (guids, Some busDevice) ->
  _deviceIsHub connectionInfo = 0 ->
  GetConfigDescriptor (_pDeviceCommunication hubThen) (_connectionIndex connectionInfo) 0
    = Ok (Some data) ->
  search_steps (seen_by hubThen data) (wTotalLength_at (seen_by hubThen data))
    (peek (seen_by hubThen data) 0) q k ->
  zero_length_inside (seen_by hubThen data) (wTotalLength_at (seen_by hubThen data)) q
    = true ->
  not_an_interface (seen_by hubThen data) q = true ->
  forall fuel, EnumeratePortsFromRootHub fuel env hubName allDevices devs = None.
Proof.
  intros Hnew Hpop Hentries Hbefore Hc Hm Hh Hg Hw Hz Hn fuel.
  destruct (EnumeratePortsFromRootHub fuel env hubName allDevices devs) as [r|] eqn:R;
    [|reflexivity].
  exfalso.
  pose proof (refines_EnumeratePortsFromRootHub env allDevices fuel
                (S (Nat.max fuel fuel0)) hubName ltac:(lia) devs r R) as R'.
  revert R'. cbn [EnumeratePortsFromRootHub]. unfold obind at 1 2, lift.
  rewrite Hnew, Hpop. unfold obind at 1. rewrite Hentries.
  rewrite (for_each_hangs _ before (portNumber, connectionInfo) after
             (usbHub, empty_maps) devs (hubThen, maps) devs1); [discriminate| |].
  - revert Hbefore. apply refines_for_each. intros entry st.
    apply refines_process_port; [lia|]. intros devicePath.
    apply refines_EnumeratePortsFromRootHub. lia.
  - apply (process_port_hangs _ _ _ _ _ _ _ _ guids busDevice Hc Hm Hh).
    now apply (FillConfigDescriptor_stalls _ _ _ _ data q k).
Qed.

Lemma zero_length_descriptor_hangs_hub_enumeration_witness :
  GetConfigDescriptor (TransportProps.on hub_with_bad_stick) 1 0
    = Ok (Some zero_length_after_header) /\
  (forall fuel,
     EnumeratePortsFromRootHub fuel machine_with_bad_stick TopologyProps.root_hub_path
       [TopologyProps.stick_record] [] = None).
Proof.
  split; [reflexivity|].
  eapply (zero_length_descriptor_hangs_hub_enumeration machine_with_bad_stick
            TopologyProps.root_hub_path [TopologyProps.stick_record] []
            _ _ [] _ _ [] 0 _ _ [] _ _ zero_length_after_header 9 0).
  - vm_compute. reflexivity.
  - vm_compute. reflexivity.
  - vm_compute. reflexivity.
  - reflexivity.
  - discriminate.
  - vm_compute. reflexivity.
  - reflexivity.
  - vm_compute. reflexivity.
  - apply search_stands.
  - reflexivity.
  - reflexivity.
Defined.

End FuelFacts.

(* ===================================================================== *)
(** * The topology walk: failures in the subtree of a port               *)
(* ===================================================================== *)

Module SubtreeFacts.
Import Sdk Exn DeviceCommunication TransportProps DevicesManager Impl TopologyProps
  ManagerProps SubtreeProps ImplFacts ManagerFacts.

Lemma cannot_complete_obind_l {A B} (c : Orch A) (k : A -> Orch B) :
  cannot_complete c -> cannot_complete (obind c k).
Proof.
  intros Hc devs r devs'. unfold obind.
  destruct (c devs) as [[[a|e] l]|] eqn:E; [| |discriminate].
  - destruct (Hc _ _ _ E) as [e' He]. discriminate.
  - intros [= <- _]. eauto.
Qed.

Lemma cannot_complete_obind_r {A B} (c : Orch A) (k : A -> Orch B) :
  (forall a, cannot_complete (k a)) -> cannot_complete (obind c k).
Proof.
  intros Hk devs r devs'. unfold obind.
  destruct (c devs) as [[[a|e] l]|] eqn:E; [| |discriminate].
  - apply Hk.
  - intros [= <- _]. eauto.
Qed.

(** A loop with an element at which the body cannot complete cannot
    complete, whatever the elements before it do. *)
Lemma cannot_complete_for_each {A S} (body : A -> S -> Orch S) l a :
  a ∈ l -> (forall s, cannot_complete (body a s)) ->
  forall s, cannot_complete (for_each l s body).
Proof.
  intros Hin Ha. induction l as [|b rest IH]; [now inversion Hin|].
  intros s. cbn [for_each]. apply elem_of_cons in Hin as [<-|Hin].
  - apply cannot_complete_obind_l, Ha.
  - apply cannot_complete_obind_r. intros s'. now apply IH.
Qed.

Lemma elem_of_ordered_entries {V} (m : gmap N V) p v :
  (p, v) ∈ ordered_entries m <-> m !! p = Some v.
Proof.
  unfold ordered_entries. rewrite merge_sort_Permutation.
  apply elem_of_map_to_list.
Qed.

(** A hub that fails: its enumeration throws the error at once and
    leaves the list alone. *)
Lemma failing_hub_throws env allDevices path e fuel devs :
  hub_fails (os env) path e ->
  EnumeratePortsFromRootHub (S fuel) env path allDevices devs = Some (Throw e, devs).
Proof.
  unfold hub_fails. intros H. cbn [EnumeratePortsFromRootHub].
  unfold obind at 1, lift at 1, UsbHub.new, DeviceCommunication.open.
  destruct (CreateFileW (os env) path) as [drv|lastError].
  - cbn [Exn.bind]. unfold obind at 1, lift at 1, UsbHub.PopulateInfo.
    cbn [UsbHub._pDeviceCommunication].
    unfold GetUsbHubNodeInformation, GetUsbHubNodeInformationEx,
      GetUsbHubNodeCapabilitiesEx, THROW_LAST_ERROR_IF, DeviceIoControl, unsupported in *.
    cbn [_hFile].
    destruct H as [[Hn ->]|(Hn & Hc & ->)]; rewrite Hn; cbn [negb Exn.bind].
    + reflexivity.
    + now rewrite Hc.
  - destruct H as [Hz ->]. apply N.eqb_neq in Hz. now rewrite Hz.
Qed.

(** The processing of a port with a hub behind it is the enumeration
    of that hub. *)
Lemma process_port_child_hub fuel recurse allDevices portNumber connectionInfo
    usbHub maps child :
  child_hub_at allDevices connectionInfo child ->
  exists maps',
    process_port fuel recurse allDevices (portNumber, connectionInfo) (usbHub, maps)
      = orch _u <~ recurse child; oret (usbHub, maps').
Proof.
  intros (Hc & Hh & busDevice & Hb & Hp). unfold process_port.
  apply N.eqb_neq in Hc, Hh. rewrite Hc, match_devices_spec.
  unfold bus_layer_device in Hb. cbn zeta in Hb. rewrite Hb, Hh. cbn [negb].
  eexists. unfold obind at 1, lift at 1. rewrite Hp. reflexivity.
Qed.

Lemma failure_below_cannot_complete env allDevices path :
  failure_below env allDevices path ->
  forall fuel, cannot_complete (EnumeratePortsFromRootHub fuel env path allDevices).
Proof.
  induction 1 as [path e Hf|path usbHub0 usbHub portNumber connectionInfo child
                  Hnew Hpop Hport Hchild _ IH]; intros [|fuel].
  - intros devs r devs'. discriminate.
  - intros devs r devs'. rewrite (failing_hub_throws _ _ _ _ _ _ Hf).
    intros [= <- _]. eauto.
  - intros devs r devs'. discriminate.
  - cbn [EnumeratePortsFromRootHub].
    intros devs r devs'. unfold obind at 1, lift at 1. rewrite Hnew.
    unfold obind at 1, lift at 1. rewrite Hpop. revert devs r devs'.
    apply cannot_complete_obind_l.
    apply (cannot_complete_for_each _ _ (portNumber, connectionInfo)).
    + now apply elem_of_ordered_entries.
    + intros [hub maps].
      destruct (process_port_child_hub fuel
                  (fun devicePath =>
                     EnumeratePortsFromRootHub fuel env devicePath allDevices)
                  allDevices portNumber connectionInfo hub maps child Hchild)
        as [maps' ->].
      apply cannot_complete_obind_l, IH.
Qed.

Lemma failing_root_hub_cannot_complete fuel env allDevices controller ctrls
    devicePath comm hostController :
  allUsbDevices env = Ok allDevices ->
  controllers env = Ok ctrls ->
  controller ∈ ctrls ->
  DevInfoData.PopulateUsbControllerInfo_path controller = Ok devicePath ->
  DeviceCommunication.open (os env) devicePath = Ok comm ->
  UsbHostController.PopulateInfo comm = Ok hostController ->
  failure_below env allDevices
    ([92; 92; 46; 92] ++ UsbHostController._rootHubName hostController) ->
  cannot_complete (EnumerateUsbDevices fuel env).
Proof.
  intros Hall Hctl Hin Hpath Hopen Hpop Hfail. unfold EnumerateUsbDevices.
  apply cannot_complete_obind_r. intros _.
  intros devs r devs'. unfold obind at 1, lift at 1. rewrite Hall.
  unfold obind at 1, lift at 1. rewrite Hctl. revert devs r devs'.
  apply (cannot_complete_for_each _ _ controller Hin). intros [].
  unfold process_controller.
  intros devs r devs'. unfold obind at 1, lift at 1. rewrite Hpath.
  unfold obind at 1, lift at 1. rewrite Hopen.
  unfold obind at 1, lift at 1. rewrite Hpop. revert devs r devs'.
  now apply failure_below_cannot_complete.
Qed.

(** A failed request for the configuration descriptor is reported as
    an absent descriptor. *)
Lemma GetConfigDescriptor_request_fails comm connectionIndex :
  connectionIndex <> 0 ->
  _hFile comm <> None ->
  io_ok (configuration_request comm connectionIndex) = false ->
  GetConfigDescriptor comm connectionIndex 0 = Ok None.
Proof.
  intros Hi Hh Hr. unfold GetConfigDescriptor, handle_invalid.
  apply N.eqb_neq in Hi. rewrite Hi.
  destruct (_hFile comm) as [drv|] eqn:E; [|contradiction].
  unfold executeDescriptorRequest.
  change (to_USHORT (N.lor (N.shiftl USB_CONFIGURATION_DESCRIPTOR_TYPE 8) 0)) with 0x0200.
  change (to_USHORT (sizeof_USB_DESCRIPTOR_REQUEST + sizeof_USB_CONFIGURATION_DESCRIPTOR
                     - sizeof_USB_DESCRIPTOR_REQUEST))
    with sizeof_USB_CONFIGURATION_DESCRIPTOR.
  fold (configuration_request comm connectionIndex). now rewrite Hr.
Qed.

Lemma process_port_without_descriptor fuel recurse allDevices portNumber connectionInfo
    usbHub maps devs :
  plain_device_at allDevices connectionInfo ->
  _connectionIndex connectionInfo <> 0 ->
  _hFile (UsbHub._pDeviceCommunication usbHub) <> None ->
  io_ok (configuration_request (UsbHub._pDeviceCommunication usbHub)
           (_connectionIndex connectionInfo)) = false ->
  exists maps',
    process_port fuel recurse allDevices (portNumber, connectionInfo) (usbHub, maps) devs
      = Some (Ok (usbHub, maps'), devs).
Proof.
  intros (Hc & Hh & [busDevice Hb]) Hi Hf Hr. unfold process_port.
  apply N.eqb_neq in Hc. rewrite Hc, match_devices_spec.
  unfold bus_layer_device in Hb. cbn zeta in Hb. rewrite Hb, Hh. cbn [N.eqb negb].
  unfold obind, lift_fuel, UsbHub.FillConfigDescriptor.
  rewrite (GetConfigDescriptor_request_fails _ _ Hi Hf Hr). eexists. reflexivity.
Qed.

(** C2, amended.  A failure in the subtree of a port that is raised as
    an error is not caught inside the Orchestrator.  When a hub
    anywhere below a port cannot be opened, or cannot be populated
    because its node-information request fails or its capabilities
    request is not supported, neither [EnumeratePortsFromRootHub] on a
    hub above it nor [EnumerateUsbDevices] completes normally.  When
    the failing hub sits on a port of the hub being enumerated and the
    ports before it were processed normally, the error leaves
    [EnumeratePortsFromRootHub] as that very exception: the result does
    not depend on the ports behind the failing one, which are not
    processed, no record is built for a device on this hub, and the
    list is as the ports before left it; when the hub being enumerated
    is a root hub and the controllers before its own were processed
    normally, the same exception and list leave
    [EnumerateUsbDevices].  A failed request for the configuration
    descriptor of a device is different: it is reported as an absent
    descriptor, nothing is thrown, the hub object and the device list
    are left as they were, so that this port alone gets no record, and
    the loop goes on with the next port.  The processing of a port
    that holds no hub never touches the list: the records of the
    devices on a hub are built after the loop over its ports. *)
Theorem subtree_failure_is_not_caught env allDevices :
  (forall path fuel,
     failure_below env allDevices path ->
     cannot_complete (EnumeratePortsFromRootHub fuel env path allDevices)) /\
  (forall fuel controller ctrls devicePath comm hostController,
     allUsbDevices env = Ok allDevices ->
     controllers env = Ok ctrls ->
     controller ∈ ctrls ->
     DevInfoData.PopulateUsbControllerInfo_path controller = Ok devicePath ->
     DeviceCommunication.open (os env) devicePath = Ok comm ->
     UsbHostController.PopulateInfo comm = Ok hostController ->
     failure_below env allDevices
       ([92; 92; 46; 92] ++ UsbHostController._rootHubName hostController) ->
     cannot_complete (EnumerateUsbDevices fuel env)) /\
  (forall path fuel devs usbHub0 usbHub before portNumber connectionInfo after st devs1
          child e,
     UsbHub.new (os env) path = Ok usbHub0 ->
     UsbHub.PopulateInfo usbHub0 = Ok usbHub ->
     ordered_entries (UsbHub._hubPortConnectionInfo usbHub)
       = before ++ (portNumber, connectionInfo) :: after ->
     for_each before (usbHub, empty_maps)
       (process_port (S fuel)
          (fun devicePath =>
             EnumeratePortsFromRootHub (S fuel) env devicePath allDevices)
          allDevices) devs = Some (Ok st, devs1) ->
     child_hub_at allDevices connectionInfo child ->
     hub_fails (os env) child e ->
     EnumeratePortsFromRootHub (S (S fuel)) env path allDevices devs
       = Some (Throw e, devs1) /\
     (forall devs0 ctrlsBefore controller ctrlsAfter devicePath comm hostController,
        allUsbDevices env = Ok allDevices ->
        controllers env = Ok (ctrlsBefore ++ controller :: ctrlsAfter) ->
        for_each ctrlsBefore tt (process_controller (S (S fuel)) env allDevices) []
          = Some (Ok tt, devs) ->
        DevInfoData.PopulateUsbControllerInfo_path controller = Ok devicePath ->
        DeviceCommunication.open (os env) devicePath = Ok comm ->
        UsbHostController.PopulateInfo comm = Ok hostController ->
        path = [92; 92; 46; 92] ++ UsbHostController._rootHubName hostController ->
        EnumerateUsbDevices (S (S fuel)) env devs0 = Some (Throw e, devs1))) /\
  (forall fuel recurse portNumber connectionInfo usbHub maps devs,
     plain_device_at allDevices connectionInfo ->
     _connectionIndex connectionInfo <> 0 ->
     _hFile (UsbHub._pDeviceCommunication usbHub) <> None ->
     io_ok (configuration_request (UsbHub._pDeviceCommunication usbHub)
              (_connectionIndex connectionInfo)) = false ->
     exists maps',
       process_port fuel recurse allDevices (portNumber, connectionInfo) (usbHub, maps)
         devs = Some (Ok (usbHub, maps'), devs) /\
       forall after,
         for_each ((portNumber, connectionInfo) :: after) (usbHub, maps)
           (process_port fuel recurse allDevices) devs
         = for_each after (usbHub, maps') (process_port fuel recurse allDevices) devs) /\
  (forall fuel recurse portNumber connectionInfo st devs r devs',
     _connectionStatus connectionInfo = NoDeviceConnected \/
     _deviceIsHub connectionInfo = 0 ->
     process_port fuel recurse allDevices (portNumber, connectionInfo) st devs
       = Some (r, devs') ->
     devs' = devs).
Proof.
  split; [|split; [|split; [|split]]].
  - intros path fuel Hf. now apply failure_below_cannot_complete.
  - intros fuel controller ctrls devicePath comm hostController.
    apply failing_root_hub_cannot_complete.
  - intros path fuel devs usbHub0 usbHub before portNumber connectionInfo after st devs1
      child e Hnew Hpop Hentries Hbefore Hchild Hfail.
    assert (Hhub : EnumeratePortsFromRootHub (S (S fuel)) env path allDevices devs
                   = Some (Throw e, devs1)).
    { apply (EnumeratePortsFromRootHub_port_throws (S fuel) env path allDevices devs
               usbHub0 usbHub before (portNumber, connectionInfo) after st devs1 e devs1
               Hnew Hpop Hentries Hbefore).
      destruct st as [hub maps].
      destruct (process_port_child_hub (S fuel)
                  (fun devicePath =>
                     EnumeratePortsFromRootHub (S fuel) env devicePath allDevices)
                  allDevices portNumber connectionInfo hub maps child Hchild)
        as [maps' ->].
      unfold obind. now rewrite (failing_hub_throws _ _ _ _ _ _ Hfail). }
    split; [exact Hhub|].
    intros devs0 ctrlsBefore controller ctrlsAfter devicePath comm hostController
      Hall Hctl Hcb Hpath Hopen Hhc ->.
    now apply (EnumerateUsbDevices_root_hub_throws (S (S fuel)) env devs0 allDevices
                 ctrlsBefore controller ctrlsAfter devs devicePath comm hostController
                 e devs1).
  - intros fuel recurse portNumber connectionInfo usbHub maps devs Hplain Hi Hh Hr.
    destruct (process_port_without_descriptor fuel recurse allDevices portNumber
                connectionInfo usbHub maps devs Hplain Hi Hh Hr) as [maps' Hp].
    exists maps'. split; [exact Hp|].
    intros after. cbn [for_each]. unfold obind at 1. now rewrite Hp.
  - intros fuel recurse portNumber connectionInfo [usbHub maps] devs r devs' Hport.
    unfold process_port.
    destruct (_connectionStatus connectionInfo =? NoDeviceConnected) eqn:Hc;
      [now intros [= _ <-]|].
    destruct Hport as [Hport|Hport];
      [rewrite Hport in Hc; discriminate|].
    destruct (match_devices _ _ allDevices [] None) as [guids [busDevice|]];
      [|now intros [= _ <-]].
    rewrite Hport. cbn [N.eqb negb]. unfold obind, lift_fuel.
    destruct (UsbHub.FillConfigDescriptor _ _ _ _ _) as [[hub'|e]|];
      [now intros [= _ <-] | now intros [= _ <-] | discriminate].
Qed.

Lemma subtree_failure_is_not_caught_witness :
  cannot_complete (EnumerateUsbDevices 10 (environment false)) /\
  EnumerateUsbDevices 10 (environment false) [stick_result]
    = Some (Throw (ResultException 0x80070002), []) /\
  (exists maps',
     process_port 5 (fun _ => out_of_fuel) [mute_record; stick_record]
       (1, mute_stick_connection) (hub_with_mute_stick, empty_maps) []
     = Some (Ok (hub_with_mute_stick, maps'), [])) /\
  EnumerateUsbDevices 10 machine_with_mute_stick [] = Some (Ok tt, [stick_result]).
Proof.
  pose proof (subtree_failure_is_not_caught (environment false) registry)
    as (Hdeep & Htop & Hexact & _ & _).
  assert (Hchild : child_hub_at registry hub_connection external_hub_path).
  { split; [discriminate|]. split; [discriminate|].
    exists hub_record. split; reflexivity. }
  assert (Hfail : hub_fails (os (environment false)) external_hub_path
                    (ResultException 0x80070002)).
  { split; [discriminate | reflexivity]. }
  split; [|split; [|split]].
  - eapply (Htop 10%nat controller_record [controller_record] controller_path).
    + reflexivity.
    + reflexivity.
    + now left.
    + reflexivity.
    + vm_compute. reflexivity.
    + vm_compute. reflexivity.
    + eapply (fails_deeper _ _ root_hub_path _ _ 1 hub_connection external_hub_path).
      * vm_compute. reflexivity.
      * vm_compute. reflexivity.
      * vm_compute. reflexivity.
      * exact Hchild.
      * exact (fails_here _ _ _ _ Hfail).
  - eassert (Hx : _ /\ _).
    { eapply (Hexact root_hub_path 8%nat [] _ _ [] 1 hub_connection _ _ []
                external_hub_path (ResultException 0x80070002)).
      - vm_compute. reflexivity.
      - vm_compute. reflexivity.
      - vm_compute. reflexivity.
      - reflexivity.
      - exact Hchild.
      - exact Hfail. }
    destruct Hx as [_ Hx].
    eapply (Hx [stick_result] [] controller_record [] controller_path).
    + reflexivity.
    + reflexivity.
    + reflexivity.
    + reflexivity.
    + vm_compute. reflexivity.
    + vm_compute. reflexivity.
    + vm_compute. reflexivity.
  - pose proof (subtree_failure_is_not_caught machine_with_mute_stick
                  [mute_record; stick_record]) as (_ & _ & _ & Hquiet & _).
    destruct (Hquiet 5%nat (fun _ => out_of_fuel) 1 mute_stick_connection
                hub_with_mute_stick empty_maps [])
      as (maps' & Hp & _).
    + split; [discriminate|]. split; [reflexivity|]. vm_compute. eauto.
    + discriminate.
    + discriminate.
    + reflexivity.
    + exists maps'. exact Hp.
  - vm_compute. reflexivity.
Defined.

End SubtreeFacts.
